(** * Engagement consistency engine of the storytelling backend

    A shallow embedding of the Mongoose models (Like, Follow, Story, Rating,
    Comment, Notification) and of the like controller, with the properties of
    the engagement engine stated and proved over it.

    Conventions of the embedding.
    - The MongoDB store is a record of collections; a collection is the list
      of its documents in natural (insertion) order.
    - An [ObjectId] is a natural number; the string form of an id used in
      comparisons ([toString()]) and of request parameters is the id itself.
    - Counter fields are JavaScript numbers holding integers: [Z].
      [averageRating] and rating values are IEEE 754 doubles: [float].
    - [async] functions are computations in a state-and-exception monad over
      the store.  A thrown error leaves the store as it was at the throw:
      writes made before it stay (there is no rollback in the source).
    - Every write sent to the store is recorded, in order, in [writes].
    - Field validators of the schemas (maxlength, min, max, enum) belong to
      input validation and are not part of the embedding; the [pre] and
      [post] hooks, the unique indexes and the statics and methods are. *)

From Stdlib Require Import List String Ascii DecimalString ZArith Bool Arith Lia.
From Stdlib Require Import Permutation Sorted Floats.
Import ListNotations.

Set Implicit Arguments.

Definition ObjectId := nat.

(** ** Documents

    A record keeps the fields of its schema that the engine reads or
    writes. *)

Inductive TargetType := TStory | TChapter | TComment.

(** Modelled from the spec: the User entity, whose schema (models/User.js) is
    not among the sources.  The two counters are those of the specification;
    the names and the two arrays are the fields that Follow.js and
    Notification.js read and write. *)
Record UserDoc := mkUser {
  user_id : ObjectId;
  username : string;
  fullName : string;
  followersCount : Z;
  followingCount : Z;
  user_followers : list ObjectId;
  user_following : list ObjectId
}.

Record StoryDoc := mkStory {
  story_id : ObjectId;
  story_title : string;
  author : ObjectId;
  totalLikes : Z;
  totalComments : Z;
  averageRating : float;
  ratingCount : Z;
  lastUpdated : Z
}.

Record ChapterDoc := mkChapter {
  chapter_id : ObjectId;
  chapter_title : string;
  chapterNumber : Z;
  chapter_story : ObjectId;
  chapter_likes : Z;
  commentsCount : Z
}.

Record CommentDoc := mkComment {
  comment_id : ObjectId;
  content : string;
  comment_user : ObjectId;
  comment_story : ObjectId;
  comment_chapter : option ObjectId;
  parentComment : option ObjectId;
  comment_likes : Z;
  replies : list ObjectId;
  isEdited : bool;
  editedAt : option Z;
  isDeleted : bool;
  deletedAt : option Z;
  comment_createdAt : Z
}.

Record LikeDoc := mkLike {
  like_id : ObjectId;
  like_user : ObjectId;
  like_story : option ObjectId;
  like_chapter : option ObjectId;
  like_comment : option ObjectId;
  like_type : TargetType;
  like_createdAt : Z
}.

Record FollowDoc := mkFollow {
  follow_id : ObjectId;
  follower : ObjectId;
  following : ObjectId;
  isActive : bool;
  follow_createdAt : Z
}.

Record RatingDoc := mkRating {
  rating_id : ObjectId;
  rating_user : ObjectId;
  rating_story : ObjectId;
  value : float
}.

Inductive NotificationType :=
  NFollow | NLikeStory | NLikeChapter | NLikeComment | NNewChapter.

Record NotificationDoc := mkNotification {
  notification_id : ObjectId;
  recipient : ObjectId;
  sender : option ObjectId;
  ntype : NotificationType;
  title : string;
  message : string;
  isRead : bool;
  data_story : option ObjectId;
  data_chapter : option ObjectId;
  data_comment : option ObjectId;
  data_user : option ObjectId;
  actionUrl : option string;
  notification_createdAt : Z
}.

(** ** The store *)

Inductive Collection :=
  CUser | CStory | CChapter | CComment | CLike | CFollow | CRating | CNotification.

Inductive Write :=
| InsertOne (c : Collection) (id : ObjectId)
| InsertMany (c : Collection) (ids : list ObjectId)
| UpdateOne (c : Collection) (id : ObjectId)
| DeleteOne (c : Collection) (id : ObjectId).

Record Db := mkDb {
  users : list UserDoc;
  stories : list StoryDoc;
  chapters : list ChapterDoc;
  comments : list CommentDoc;
  likes : list LikeDoc;
  follows : list FollowDoc;
  ratings : list RatingDoc;
  notifications : list NotificationDoc;
  next_id : ObjectId;   (* source of the ids of new documents *)
  now : Z;              (* the clock read by [new Date()] and by timestamps *)
  writes : list Write
}.

Definition set_users (v : list UserDoc) (d : Db) : Db :=
  mkDb v (stories d) (chapters d) (comments d) (likes d) (follows d)
       (ratings d) (notifications d) (next_id d) (now d) (writes d).
Definition set_stories (v : list StoryDoc) (d : Db) : Db :=
  mkDb (users d) v (chapters d) (comments d) (likes d) (follows d)
       (ratings d) (notifications d) (next_id d) (now d) (writes d).
Definition set_chapters (v : list ChapterDoc) (d : Db) : Db :=
  mkDb (users d) (stories d) v (comments d) (likes d) (follows d)
       (ratings d) (notifications d) (next_id d) (now d) (writes d).
Definition set_comments (v : list CommentDoc) (d : Db) : Db :=
  mkDb (users d) (stories d) (chapters d) v (likes d) (follows d)
       (ratings d) (notifications d) (next_id d) (now d) (writes d).
Definition set_likes (v : list LikeDoc) (d : Db) : Db :=
  mkDb (users d) (stories d) (chapters d) (comments d) v (follows d)
       (ratings d) (notifications d) (next_id d) (now d) (writes d).
Definition set_follows (v : list FollowDoc) (d : Db) : Db :=
  mkDb (users d) (stories d) (chapters d) (comments d) (likes d) v
       (ratings d) (notifications d) (next_id d) (now d) (writes d).
Definition set_ratings (v : list RatingDoc) (d : Db) : Db :=
  mkDb (users d) (stories d) (chapters d) (comments d) (likes d) (follows d)
       v (notifications d) (next_id d) (now d) (writes d).
Definition set_notifications (v : list NotificationDoc) (d : Db) : Db :=
  mkDb (users d) (stories d) (chapters d) (comments d) (likes d) (follows d)
       (ratings d) v (next_id d) (now d) (writes d).
Definition set_next_id (v : ObjectId) (d : Db) : Db :=
  mkDb (users d) (stories d) (chapters d) (comments d) (likes d) (follows d)
       (ratings d) (notifications d) v (now d) (writes d).
Definition log_write (w : Write) (d : Db) : Db :=
  mkDb (users d) (stories d) (chapters d) (comments d) (likes d) (follows d)
       (ratings d) (notifications d) (next_id d) (now d) (writes d ++ [w]).

(** ** The monad of [async] store computations *)

Inductive Error :=
| DuplicateKey (c : Collection)   (* E11000 of a unique index *)
| TypeError                       (* property read on null *)
| PlainError (msg : string).      (* [new Error(msg)] *)

Inductive Result (A : Type) :=
| Ok (a : A)
| Throw (e : Error).
Arguments Ok {A} a.
Arguments Throw {A} e.

Definition M (A : Type) := Db -> Result A * Db.

Definition ret {A} (a : A) : M A := fun d => (Ok a, d).
Definition throw {A} (e : Error) : M A := fun d => (Throw e, d).
Definition bind {A B} (c : M A) (k : A -> M B) : M B :=
  fun d => match c d with
           | (Ok a, d') => k a d'
           | (Throw e, d') => (Throw e, d')
           end.
Definition read {A} (f : Db -> A) : M A := fun d => (Ok (f d), d).
Definition modify (f : Db -> Db) : M unit := fun d => (Ok tt, f d).
Definition fresh_id : M ObjectId :=
  fun d => (Ok (next_id d), set_next_id (S (next_id d)) d).

Declare Scope store_scope.
Delimit Scope store_scope with store.
Notation "x <- c ;; k" := (bind c (fun x => k))
  (at level 61, c at next level, right associativity) : store_scope.
Notation "c ;; k" := (bind c (fun _ => k))
  (at level 61, right associativity) : store_scope.
Open Scope store_scope.

(** ** Generic collection primitives *)

Section Collections.
Variable A : Type.
Variable id_of : A -> ObjectId.

Definition findById (id : ObjectId) (l : list A) : option A :=
  find (fun x => id_of x =? id) l.

(** [updateOne({_id: id}, ...)]: the first document with that id. *)
Fixpoint update_by_id (id : ObjectId) (f : A -> A) (l : list A) : list A :=
  match l with
  | [] => []
  | x :: r => if id_of x =? id then f x :: r else x :: update_by_id id f r
  end.

(** [deleteOne({_id: id})]: the first document with that id. *)
Fixpoint delete_by_id (id : ObjectId) (l : list A) : list A :=
  match l with
  | [] => []
  | x :: r => if id_of x =? id then r else x :: delete_by_id id r
  end.
End Collections.

Definition oid_is (o : option ObjectId) (id : ObjectId) : bool :=
  match o with Some x => x =? id | None => false end.

(** Equality of two nullable references as index values: null equals null. *)
Definition ref_eqb (a b : option ObjectId) : bool :=
  match a, b with
  | Some x, Some y => x =? y
  | None, None => true
  | _, _ => false
  end.

(** JavaScript truthiness of a nullable reference. *)
Definition truthy (o : option ObjectId) : bool :=
  match o with Some _ => true | None => false end.

Definition inc_totalLikes (k : Z) (s : StoryDoc) : StoryDoc :=
  mkStory (story_id s) (story_title s) (author s) (totalLikes s + k)
          (totalComments s) (averageRating s) (ratingCount s) (lastUpdated s).
Definition inc_chapter_likes (k : Z) (c : ChapterDoc) : ChapterDoc :=
  mkChapter (chapter_id c) (chapter_title c) (chapterNumber c) (chapter_story c)
            (chapter_likes c + k) (commentsCount c).
Definition inc_comment_likes (k : Z) (c : CommentDoc) : CommentDoc :=
  mkComment (comment_id c) (content c) (comment_user c) (comment_story c)
            (comment_chapter c) (parentComment c) (comment_likes c + k)
            (replies c) (isEdited c) (editedAt c) (isDeleted c) (deletedAt c)
            (comment_createdAt c).
Definition inc_totalComments (k : Z) (s : StoryDoc) : StoryDoc :=
  mkStory (story_id s) (story_title s) (author s) (totalLikes s)
          (totalComments s + k) (averageRating s) (ratingCount s) (lastUpdated s).
Definition inc_commentsCount (k : Z) (c : ChapterDoc) : ChapterDoc :=
  mkChapter (chapter_id c) (chapter_title c) (chapterNumber c) (chapter_story c)
            (chapter_likes c) (commentsCount c + k).

(** [Model.findByIdAndUpdate(id, { $inc: ... })] on each entity collection. *)
Definition Story_findByIdAndUpdate (id : ObjectId) (f : StoryDoc -> StoryDoc)
  : M unit :=
  modify (fun d => log_write (UpdateOne CStory id)
                     (set_stories (update_by_id story_id id f (stories d)) d)).
Definition Chapter_findByIdAndUpdate (id : ObjectId) (f : ChapterDoc -> ChapterDoc)
  : M unit :=
  modify (fun d => log_write (UpdateOne CChapter id)
                     (set_chapters (update_by_id chapter_id id f (chapters d)) d)).
Definition Comment_findByIdAndUpdate (id : ObjectId) (f : CommentDoc -> CommentDoc)
  : M unit :=
  modify (fun d => log_write (UpdateOne CComment id)
                     (set_comments (update_by_id comment_id id f (comments d)) d)).
Definition User_findByIdAndUpdate (id : ObjectId) (f : UserDoc -> UserDoc)
  : M unit :=
  modify (fun d => log_write (UpdateOne CUser id)
                     (set_users (update_by_id user_id id f (users d)) d)).

(** ** models/Like.js *)

Module Like.

Record ToggleResult := mkToggle { liked : bool; toggle_message : string }.

(** The query [{ user: userId, [targetType]: targetId }]. *)
Definition query (userId targetId : ObjectId) (targetType : TargetType)
           (l : LikeDoc) : bool :=
  (like_user l =? userId) &&
  match targetType with
  | TStory => oid_is (like_story l) targetId
  | TChapter => oid_is (like_chapter l) targetId
  | TComment => oid_is (like_comment l) targetId
  end.

(** [new this({ user: userId, [targetType]: targetId, type: targetType })];
    the fields not given take their default [null]. *)
Definition new_like (id userId targetId : ObjectId) (targetType : TargetType)
           (t : Z) : LikeDoc :=
  match targetType with
  | TStory => mkLike id userId (Some targetId) None None targetType t
  | TChapter => mkLike id userId None (Some targetId) None targetType t
  | TComment => mkLike id userId None None (Some targetId) targetType t
  end.

Definition set_type (ty : TargetType) (l : LikeDoc) : LikeDoc :=
  mkLike (like_id l) (like_user l) (like_story l) (like_chapter l)
         (like_comment l) ty (like_createdAt l).

(** [likeSchema.pre('save')]: exactly one target, and the type follows it. *)
Definition pre_save (l : LikeDoc) : M LikeDoc :=
  let targets := filter truthy [like_story l; like_chapter l; like_comment l] in
  if negb (List.length targets =? 1) then
    throw (PlainError "Like must target exactly one item (story, chapter, or comment)")
  else
    ret (if truthy (like_story l) then set_type TStory l
         else if truthy (like_chapter l) then set_type TChapter l
         else if truthy (like_comment l) then set_type TComment l
         else l).

(** The unique sparse indexes [{user, story}], [{user, chapter}] and
    [{user, comment}].  The schema gives the three targets the default
    [null], so every row stores the three fields, and a sparse compound index
    leaves out only the rows that hold none of its fields: each index holds
    every row, a null target as the value null.  Two rows collide in an index
    when they agree on its two fields, null included. *)
Definition same_key (a b : LikeDoc) : bool :=
  (like_user a =? like_user b) &&
  (ref_eqb (like_story a) (like_story b)
   || ref_eqb (like_chapter a) (like_chapter b)
   || ref_eqb (like_comment a) (like_comment b)).

Definition insert (l : LikeDoc) : M unit :=
  fun d =>
    if existsb (same_key l) (likes d) then (Throw (DuplicateKey CLike), d)
    else (Ok tt, log_write (InsertOne CLike (like_id l))
                   (set_likes (likes d ++ [l]) d)).

(** [likeSchema.post('save')] and [post('remove')], with [delta] 1 and -1. *)
Definition post_hook (delta : Z) (l : LikeDoc) : M unit :=
  match like_type l, like_story l, like_chapter l, like_comment l with
  | TStory, Some s, _, _ => Story_findByIdAndUpdate s (inc_totalLikes delta)
  | TChapter, _, Some c, _ => Chapter_findByIdAndUpdate c (inc_chapter_likes delta)
  | TComment, _, _, Some c => Comment_findByIdAndUpdate c (inc_comment_likes delta)
  | _, _, _, _ => ret tt
  end.

Definition post_save := post_hook 1.
Definition post_remove := post_hook (-1).

(** [newLike.save()] of a new document. *)
Definition save (l : LikeDoc) : M unit :=
  l' <- pre_save l ;;
  insert l' ;;
  post_save l'.

(** [existingLike.remove()]: [deleteOne] by [_id], then the post hook. *)
Definition remove (l : LikeDoc) : M unit :=
  modify (fun d => log_write (DeleteOne CLike (like_id l))
                     (set_likes (delete_by_id like_id (like_id l) (likes d)) d)) ;;
  post_remove l.

Definition findOne (userId targetId : ObjectId) (targetType : TargetType)
  : M (option LikeDoc) :=
  read (fun d => find (query userId targetId targetType) (likes d)).

(** [likeSchema.statics.toggleLike].  [yield] is what other requests do to
    the store while this call is suspended at [await this.findOne(query)];
    a call that runs alone has [yield = ret tt]. *)
Definition toggleLike_at (yield : M unit)
           (userId targetId : ObjectId) (targetType : TargetType)
  : M ToggleResult :=
  existingLike <- findOne userId targetId targetType ;;
  yield ;;
  match existingLike with
  | Some l =>
      remove l ;;
      ret (mkToggle false "Unliked successfully")
  | None =>
      id <- fresh_id ;;
      t <- read now ;;
      save (new_like id userId targetId targetType t) ;;
      ret (mkToggle true "Liked successfully")
  end.

Definition toggleLike := toggleLike_at (ret tt).

(** [likeSchema.statics.isLikedBy]: [this.exists(query)], read as a boolean
    ([!!isLiked] in the controller). *)
Definition isLikedBy (userId targetId : ObjectId) (targetType : TargetType)
           (d : Db) : bool :=
  existsb (query userId targetId targetType) (likes d).

End Like.

(** ** Query helpers: sort, limit, skip *)

Section Sorting.
Variable A : Type.
Variable key : A -> Z.

(** Stable insertion sort on [key], ascending ([sort({ key: 1 })]). *)
Fixpoint insert_asc (x : A) (l : list A) : list A :=
  match l with
  | [] => [x]
  | y :: r => if (key x <=? key y)%Z then x :: y :: r else y :: insert_asc x r
  end.
Definition sort_asc (l : list A) : list A := fold_right insert_asc [] l.

(** Stable insertion sort on [key], descending ([sort({ key: -1 })]). *)
Fixpoint insert_desc (x : A) (l : list A) : list A :=
  match l with
  | [] => [x]
  | y :: r => if (key y <=? key x)%Z then x :: y :: r else y :: insert_desc x r
  end.
Definition sort_desc (l : list A) : list A := fold_right insert_desc [] l.
End Sorting.

(** [cursor.limit(n)]: a limit of 0 is no limit. *)
Definition limit_to {A} (n : nat) (l : list A) : list A :=
  if n =? 0 then l else firstn n l.

(** A parameter with a default value. *)
Definition default {A} (v : A) (o : option A) : A :=
  match o with Some x => x | None => v end.

(** ** models/Follow.js *)

Module Follow.

Record ToggleResult := mkToggle { now_following : bool; toggle_message : string }.

Definition self_follow_error : Error := PlainError "User cannot follow themselves".

(** [$addToSet] and [$pull] on an array of ids. *)
Definition addToSet (x : ObjectId) (l : list ObjectId) : list ObjectId :=
  if existsb (Nat.eqb x) l then l else l ++ [x].
Definition pull (x : ObjectId) (l : list ObjectId) : list ObjectId :=
  filter (fun y => negb (y =? x)) l.

Definition upd_following (delta : Z) (arr : list ObjectId -> list ObjectId)
           (u : UserDoc) : UserDoc :=
  mkUser (user_id u) (username u) (fullName u) (followersCount u)
         (followingCount u + delta) (user_followers u) (arr (user_following u)).
Definition upd_followers (delta : Z) (arr : list ObjectId -> list ObjectId)
           (u : UserDoc) : UserDoc :=
  mkUser (user_id u) (username u) (fullName u) (followersCount u + delta)
         (followingCount u) (arr (user_followers u)) (user_following u).

(** [new this({ follower, following })]: [isActive] takes its default. *)
Definition new_follow (id followerId followingId : ObjectId) (t : Z) : FollowDoc :=
  mkFollow id followerId followingId true t.

(** [followSchema.pre('save')]. *)
Definition pre_save (f : FollowDoc) : M unit :=
  if follower f =? following f then throw self_follow_error else ret tt.

(** The unique index [{ follower: 1, following: 1 }]. *)
Definition same_key (a b : FollowDoc) : bool :=
  (follower a =? follower b) && (following a =? following b).

Definition insert (f : FollowDoc) : M unit :=
  fun d =>
    if existsb (same_key f) (follows d) then (Throw (DuplicateKey CFollow), d)
    else (Ok tt, log_write (InsertOne CFollow (follow_id f))
                   (set_follows (follows d ++ [f]) d)).

(** [followSchema.post('save')]. *)
Definition post_save (f : FollowDoc) : M unit :=
  if isActive f then
    User_findByIdAndUpdate (follower f) (upd_following 1 (addToSet (following f))) ;;
    User_findByIdAndUpdate (following f) (upd_followers 1 (addToSet (follower f)))
  else ret tt.

(** [followSchema.post('remove')]. *)
Definition post_remove (f : FollowDoc) : M unit :=
  User_findByIdAndUpdate (follower f) (upd_following (-1) (pull (following f))) ;;
  User_findByIdAndUpdate (following f) (upd_followers (-1) (pull (follower f))).

Definition save (f : FollowDoc) : M unit :=
  pre_save f ;;
  insert f ;;
  post_save f.

Definition remove (f : FollowDoc) : M unit :=
  modify (fun d => log_write (DeleteOne CFollow (follow_id f))
                     (set_follows (delete_by_id follow_id (follow_id f) (follows d)) d)) ;;
  post_remove f.

Definition findOne (followerId followingId : ObjectId) : M (option FollowDoc) :=
  read (fun d => find (fun f => (follower f =? followerId) && (following f =? followingId))
                      (follows d)).

(** [followSchema.statics.toggleFollow]; [yield] as in [Like.toggleLike_at]. *)
Definition toggleFollow_at (yield : M unit) (followerId followingId : ObjectId)
  : M ToggleResult :=
  if followerId =? followingId then throw self_follow_error
  else
    existingFollow <- findOne followerId followingId ;;
    yield ;;
    match existingFollow with
    | Some f =>
        remove f ;;
        ret (mkToggle false "Unfollowed successfully")
    | None =>
        id <- fresh_id ;;
        t <- read now ;;
        save (new_follow id followerId followingId t) ;;
        ret (mkToggle true "Followed successfully")
    end.

Definition toggleFollow := toggleFollow_at (ret tt).

(** The three queries that filter on [isActive: true], and next to each the
    same query without that filter. *)
Definition isFollowing (followerId followingId : ObjectId) (d : Db) : bool :=
  existsb (fun f => (follower f =? followerId) && (following f =? followingId)
                    && Bool.eqb (isActive f) true) (follows d).
Definition isFollowing_unfiltered (followerId followingId : ObjectId) (d : Db) : bool :=
  existsb (fun f => (follower f =? followerId) && (following f =? followingId))
          (follows d).

(** [find(q).populate(path).sort({ createdAt: -1 }).limit(limit).skip(skip)]:
    the store skips before it limits, whatever the order of the calls. *)
Definition page (q : FollowDoc -> bool) (path : FollowDoc -> ObjectId)
           (limit skip : option nat) (d : Db) : list (FollowDoc * option UserDoc) :=
  map (fun f => (f, findById user_id (path f) (users d)))
      (limit_to (default 20 limit)
         (skipn (default 0 skip) (sort_desc follow_createdAt (filter q (follows d))))).

Definition getFollowers (userId : ObjectId) (limit skip : option nat) :=
  page (fun f => (following f =? userId) && Bool.eqb (isActive f) true)
       follower limit skip.
Definition getFollowers_unfiltered (userId : ObjectId) (limit skip : option nat) :=
  page (fun f => following f =? userId) follower limit skip.

Definition getFollowing (userId : ObjectId) (limit skip : option nat) :=
  page (fun f => (follower f =? userId) && Bool.eqb (isActive f) true)
       following limit skip.
Definition getFollowing_unfiltered (userId : ObjectId) (limit skip : option nat) :=
  page (fun f => follower f =? userId) following limit skip.

End Follow.

(** ** JavaScript numbers *)

Module Js.

(** The double of a natural number (an array length). *)
Definition of_nat (n : nat) : float :=
  PrimFloat.of_uint63 (Uint63.of_Z (Z.of_nat n)).

(** The double of an integer of magnitude below 2^53. *)
Definition of_Z (z : Z) : float :=
  match z with
  | Z0 => PrimFloat.zero
  | Zpos _ => PrimFloat.of_uint63 (Uint63.of_Z z)
  | Zneg _ => PrimFloat.opp (PrimFloat.of_uint63 (Uint63.of_Z (- z)))
  end.

(** [Math.round]: the nearest integer, a tie going towards +infinity.
    A finite double is [m * 2^e]; with [e < 0] the result is
    [floor (m * 2^e + 1/2)], and a zero result keeps the sign of [x].
    Integers, zeros, infinities and NaN are returned as they are. *)
Definition Math_round (x : float) : float :=
  match Prim2SF x with
  | S754_finite s m e =>
      if (0 <=? e)%Z then x
      else
        let n := if s then Zneg m else Zpos m in
        let r := ((2 * n + 2 ^ (- e)) / 2 ^ (1 - e))%Z in
        if (r =? 0)%Z then (if s then PrimFloat.neg_zero else PrimFloat.zero)
        else of_Z r
  | _ => x
  end.

End Js.

(** ** models/Story.js and models/Rating.js *)

Module Story.

Definition set_rating (avg : float) (count : Z) (s : StoryDoc) : StoryDoc :=
  mkStory (story_id s) (story_title s) (author s) (totalLikes s)
          (totalComments s) avg count (lastUpdated s).
Definition set_lastUpdated (t : Z) (s : StoryDoc) : StoryDoc :=
  mkStory (story_id s) (story_title s) (author s) (totalLikes s)
          (totalComments s) (averageRating s) (ratingCount s) t.

(** [storySchema.pre('save')] on a document whose [status] is not modified:
    only [lastUpdated] is stamped. *)
Definition pre_save (s : StoryDoc) : M StoryDoc :=
  t <- read now ;;
  ret (set_lastUpdated t s).

(** [this.save()] of a loaded story after [calculateAverageRating]: the
    modified paths are written to the stored document. *)
Definition save (s : StoryDoc) : M StoryDoc :=
  s' <- pre_save s ;;
  modify (fun d =>
    log_write (UpdateOne CStory (story_id s'))
      (set_stories
         (update_by_id story_id (story_id s')
            (fun stored => set_lastUpdated (lastUpdated s')
                             (set_rating (averageRating s') (ratingCount s') stored))
            (stories d)) d)) ;;
  ret s'.

(** [Rating.find({ story: this._id })]. *)
Definition ratings_of (storyId : ObjectId) (d : Db) : list RatingDoc :=
  filter (fun r => rating_story r =? storyId) (ratings d).

(** [ratings.reduce((acc, rating) => acc + rating.value, 0)]. *)
Definition sum_values (rs : list RatingDoc) : float :=
  fold_left (fun acc r => PrimFloat.add acc (value r)) rs PrimFloat.zero.

(** [storySchema.methods.calculateAverageRating]. *)
Definition calculateAverageRating (this : StoryDoc) : M StoryDoc :=
  rs <- read (ratings_of (story_id this)) ;;
  let this' :=
    if List.length rs =? 0 then set_rating PrimFloat.zero 0%Z this
    else
      let sum := sum_values rs in
      set_rating
        (PrimFloat.div
           (Js.Math_round
              (PrimFloat.mul (PrimFloat.div sum (Js.of_nat (List.length rs)))
                             (Js.of_nat 10)))
           (Js.of_nat 10))
        (Z.of_nat (List.length rs)) this in
  save this'.

End Story.

Module Rating.

(** [ratingSchema.post(['save', 'remove'])]. *)
Definition post_hook (r : RatingDoc) : M unit :=
  story <- read (fun d => findById story_id (rating_story r) (stories d)) ;;
  match story with
  | Some s => Story.calculateAverageRating s ;; ret tt
  | None => ret tt
  end.

(** The unique index [{ user: 1, story: 1 }]. *)
Definition same_key (a b : RatingDoc) : bool :=
  (rating_user a =? rating_user b) && (rating_story a =? rating_story b).

(** [new Rating({ user, story, value }).save()]. *)
Definition create (userId storyId : ObjectId) (v : float) : M RatingDoc :=
  id <- fresh_id ;;
  let r := mkRating id userId storyId v in
  (fun d =>
     if existsb (same_key r) (ratings d) then (Throw (DuplicateKey CRating), d)
     else (Ok tt, log_write (InsertOne CRating id)
                    (set_ratings (ratings d ++ [r]) d))) ;;
  post_hook r ;;
  ret r.

(** [rating.value = v; rating.save()] on a loaded rating. *)
Definition update (r : RatingDoc) (v : float) : M RatingDoc :=
  let r' := mkRating (rating_id r) (rating_user r) (rating_story r) v in
  modify (fun d =>
    log_write (UpdateOne CRating (rating_id r))
      (set_ratings
         (update_by_id rating_id (rating_id r)
            (fun stored => mkRating (rating_id stored) (rating_user stored)
                                    (rating_story stored) v)
            (ratings d)) d)) ;;
  post_hook r' ;;
  ret r'.

(** [rating.remove()]. *)
Definition remove (r : RatingDoc) : M unit :=
  modify (fun d =>
    log_write (DeleteOne CRating (rating_id r))
      (set_ratings (delete_by_id rating_id (rating_id r) (ratings d)) d)) ;;
  post_hook r.

(** [ratingSchema.statics.getUserRating]. *)
Definition getUserRating (userId storyId : ObjectId) (d : Db) : option RatingDoc :=
  find (fun r => (rating_user r =? userId) && (rating_story r =? storyId)) (ratings d).

End Rating.

(** ** models/Comment.js *)

Module Comment.

Definition tombstone : string := "[This comment has been deleted]".

Record ReplyView := mkReply {
  reply : CommentDoc;
  reply_user : option UserDoc
}.

Record ThreadView := mkThread {
  top : CommentDoc;
  top_user : option UserDoc;
  nestedReplies : list ReplyView
}.

Definition set_content (s : string) (c : CommentDoc) : CommentDoc :=
  mkComment (comment_id c) s (comment_user c) (comment_story c)
            (comment_chapter c) (parentComment c) (comment_likes c) (replies c)
            (isEdited c) (editedAt c) (isDeleted c) (deletedAt c)
            (comment_createdAt c).
Definition set_likes (k : Z) (c : CommentDoc) : CommentDoc :=
  mkComment (comment_id c) (content c) (comment_user c) (comment_story c)
            (comment_chapter c) (parentComment c) k (replies c)
            (isEdited c) (editedAt c) (isDeleted c) (deletedAt c)
            (comment_createdAt c).
Definition set_replies (r : list ObjectId) (c : CommentDoc) : CommentDoc :=
  mkComment (comment_id c) (content c) (comment_user c) (comment_story c)
            (comment_chapter c) (parentComment c) (comment_likes c) r
            (isEdited c) (editedAt c) (isDeleted c) (deletedAt c)
            (comment_createdAt c).
Definition set_edited (b : bool) (t : option Z) (c : CommentDoc) : CommentDoc :=
  mkComment (comment_id c) (content c) (comment_user c) (comment_story c)
            (comment_chapter c) (parentComment c) (comment_likes c) (replies c)
            b t (isDeleted c) (deletedAt c) (comment_createdAt c).
Definition set_deleted (b : bool) (t : option Z) (c : CommentDoc) : CommentDoc :=
  mkComment (comment_id c) (content c) (comment_user c) (comment_story c)
            (comment_chapter c) (parentComment c) (comment_likes c) (replies c)
            (isEdited c) (editedAt c) b t (comment_createdAt c).

(** [commentSchema.pre('save')] on a loaded document ([isNew] is false);
    [orig] is the document as loaded, [this] the document being saved. *)
Definition pre_save (orig this : CommentDoc) : M CommentDoc :=
  if negb (String.eqb (content this) (content orig)) then
    t <- read now ;;
    ret (set_edited true (Some t) this)
  else ret this.

(** The paths a method of this model can modify, written to the stored
    document. *)
Definition write_back (this stored : CommentDoc) : CommentDoc :=
  set_deleted (isDeleted this) (deletedAt this)
    (set_edited (isEdited this) (editedAt this)
       (set_likes (comment_likes this)
          (set_content (content this) stored))).

(** [this.save()] of a loaded document.  [commentSchema.post('save')] acts
    on new documents only and does nothing here. *)
Definition save (orig this : CommentDoc) : M CommentDoc :=
  this' <- pre_save orig this ;;
  modify (fun d =>
    log_write (UpdateOne CComment (comment_id this'))
      (set_comments
         (update_by_id comment_id (comment_id this') (write_back this')
            (comments d)) d)) ;;
  ret this'.

(** [commentSchema.methods.softDelete]. *)
Definition softDelete (this : CommentDoc) : M CommentDoc :=
  t <- read now ;;
  save this (set_content tombstone (set_deleted true (Some t) this)).

(** [commentSchema.methods.incrementLikes] and [decrementLikes]. *)
Definition incrementLikes (this : CommentDoc) : M CommentDoc :=
  save this (set_likes (comment_likes this + 1) this).
Definition decrementLikes (this : CommentDoc) : M CommentDoc :=
  save this (set_likes (Z.max 0 (comment_likes this - 1)) this).

(** [commentSchema.post('remove')]. *)
Definition post_remove (this : CommentDoc) : M unit :=
  Story_findByIdAndUpdate (comment_story this) (inc_totalComments (-1)) ;;
  match comment_chapter this with
  | Some ch => Chapter_findByIdAndUpdate ch (inc_commentsCount (-1))
  | None => ret tt
  end ;;
  match parentComment this with
  | Some p =>
      Comment_findByIdAndUpdate p
        (fun c => set_replies (Follow.pull (comment_id this) (replies c)) c)
  | None => ret tt
  end.

Definition remove (this : CommentDoc) : M unit :=
  modify (fun d =>
    log_write (DeleteOne CComment (comment_id this))
      (set_comments (delete_by_id comment_id (comment_id this) (comments d)) d)) ;;
  post_remove this.

Definition opt_eqb (a b : option ObjectId) : bool :=
  match a, b with
  | Some x, Some y => x =? y
  | None, None => true
  | _, _ => false
  end.

(** The top-level query of [getCommentsWithReplies]. *)
Definition top_query (storyId : ObjectId) (chapterId : option ObjectId)
           (c : CommentDoc) : bool :=
  (comment_story c =? storyId)
  && opt_eqb (parentComment c) None
  && Bool.eqb (isDeleted c) false
  && opt_eqb (comment_chapter c) chapterId.

(** The virtual [nestedReplies] as populated by [getCommentsWithReplies],
    with [match: { isDeleted: false }], [sort: { createdAt: 1 }] and
    [limit: 5].  Mongoose populates all listed comments with one query: the
    live replies whose [parentComment] is one of the listed ids, oldest
    first, limited to 5 times the number of listed comments. *)
Definition nestedReplies_query (tops : list CommentDoc) (d : Db) : list CommentDoc :=
  limit_to (5 * List.length tops)
    (sort_asc comment_createdAt
       (filter (fun r =>
                  existsb (fun c => opt_eqb (parentComment r) (Some (comment_id c))) tops
                  && Bool.eqb (isDeleted r) false)
               (comments d))).

(** Each listed comment is handed the results of that query that name it as
    parent, in the order of the query, at most 5 of them. *)
Definition populate_nestedReplies (tops : list CommentDoc) (d : Db)
           (c : CommentDoc) : list ReplyView :=
  map (fun r => mkReply r (findById user_id (comment_user r) (users d)))
      (firstn 5
         (filter (fun r => opt_eqb (parentComment r) (Some (comment_id c)))
                 (nestedReplies_query tops d))).

(** [commentSchema.statics.getCommentsWithReplies]. *)
Definition getCommentsWithReplies (storyId : ObjectId)
           (chapterId : option ObjectId) (limit skip : option nat) (d : Db)
  : list ThreadView :=
  let tops :=
    limit_to (default 20 limit)
      (skipn (default 0 skip)
         (sort_desc comment_createdAt
            (filter (top_query storyId chapterId) (comments d)))) in
  map (fun c => mkThread c (findById user_id (comment_user c) (users d))
                         (populate_nestedReplies tops d c))
      tops.

End Comment.

(** ** models/Notification.js *)

Module Notification.

Definition dquote : string := String (ascii_of_nat 34) EmptyString.
Definition quoted (s : string) : string := (dquote ++ s ++ dquote)%string.
Definition oid_to_string (id : ObjectId) : string :=
  NilEmpty.string_of_uint (Nat.to_uint id).
Definition number_to_string (z : Z) : string :=
  NilZero.string_of_int (Z.to_int z).

(** [user.fullName || user.username]. *)
Definition display_name (u : UserDoc) : string :=
  if String.eqb (fullName u) EmptyString then username u else fullName u.

(** Reading a property of a possibly null document. *)
Definition prop {A B} (o : option A) (f : A -> B) : M B :=
  match o with
  | Some a => ret (f a)
  | None => throw TypeError
  end.

(** The argument of [createNotification]; the fields it leaves out take
    their defaults when the document is built. *)
Record Data := mkData {
  d_recipient : ObjectId;
  d_sender : option ObjectId;
  d_type : NotificationType;
  d_title : string;
  d_message : string;
  d_story : option ObjectId;
  d_chapter : option ObjectId;
  d_comment : option ObjectId;
  d_user : option ObjectId;
  d_actionUrl : option string
}.

Definition build (x : Data) (id : ObjectId) (t : Z) : NotificationDoc :=
  mkNotification id (d_recipient x) (d_sender x) (d_type x) (d_title x)
                 (d_message x) false (d_story x) (d_chapter x) (d_comment x)
                 (d_user x) (d_actionUrl x) t.

(** [notificationSchema.statics.createNotification]. *)
Definition createNotification (x : Data) : M NotificationDoc :=
  id <- fresh_id ;;
  t <- read now ;;
  let n := build x id t in
  modify (fun d => log_write (InsertOne CNotification id)
                     (set_notifications (notifications d ++ [n]) d)) ;;
  ret n.

Definition like_type_of (targetType : TargetType) : NotificationType :=
  match targetType with
  | TStory => NLikeStory
  | TChapter => NLikeChapter
  | TComment => NLikeComment
  end.

(** [notificationSchema.statics.createLikeNotification]. *)
Definition createLikeNotification (userId targetId : ObjectId)
           (targetType : TargetType) (targetOwnerId : ObjectId)
  : M (option NotificationDoc) :=
  if userId =? targetOwnerId then ret None
  else
    user <- read (fun d => findById user_id userId (users d)) ;;
    x <- match targetType with
         | TStory =>
             story <- read (fun d => findById story_id targetId (stories d)) ;;
             name <- prop user display_name ;;
             ttl <- prop story story_title ;;
             ret (mkData targetOwnerId (Some userId) (like_type_of targetType)
                    "Story Liked"
                    (name ++ " liked your story " ++ quoted ttl)%string
                    (Some targetId) None None None
                    (Some ("/story/" ++ oid_to_string targetId)%string))
         | TChapter =>
             chapter <- read (fun d => findById chapter_id targetId (chapters d)) ;;
             chapter_story_doc <-
               read (fun d => match chapter with
                              | Some c => findById story_id (chapter_story c) (stories d)
                              | None => None
                              end) ;;
             name <- prop user display_name ;;
             ttl <- prop chapter chapter_title ;;
             sid <- prop chapter_story_doc story_id ;;
             ret (mkData targetOwnerId (Some userId) (like_type_of targetType)
                    "Chapter Liked"
                    (name ++ " liked your chapter " ++ quoted ttl)%string
                    (Some sid) (Some targetId) None None
                    (Some ("/story/" ++ oid_to_string sid ++ "/chapter/"
                             ++ oid_to_string targetId)%string))
         | TComment =>
             name <- prop user display_name ;;
             ret (mkData targetOwnerId (Some userId) (like_type_of targetType)
                    "Comment Liked"
                    (name ++ " liked your comment")%string
                    None None (Some targetId) None None)
         end ;;
    n <- createNotification x ;;
    ret (Some n).

(** [this.insertMany(docs)]: one write for the whole array; nothing is sent
    to the store for an empty array. *)
Fixpoint build_many (xs : list Data) (id : ObjectId) (t : Z) : list NotificationDoc :=
  match xs with
  | [] => []
  | x :: r => build x id t :: build_many r (S id) t
  end.

Definition insertMany (xs : list Data) : M (list NotificationDoc) :=
  match xs with
  | [] => ret []
  | _ :: _ =>
      fun d =>
        let ns := build_many xs (next_id d) (now d) in
        (Ok ns,
         log_write (InsertMany CNotification (map notification_id ns))
           (set_notifications (notifications d ++ ns)
              (set_next_id (next_id d + List.length xs) d)))
  end.

(** [notificationSchema.statics.createNewChapterNotification].  The callback
    of [followers.map] reads [author], [chapter] and [story]; it runs once
    per follower, so a null document throws only when there is a follower. *)
Definition createNewChapterNotification (authorId storyId chapterId : ObjectId)
  : M (list NotificationDoc) :=
  author <- read (fun d => findById user_id authorId (users d)) ;;
  story <- read (fun d => findById story_id storyId (stories d)) ;;
  chapter <- read (fun d => findById chapter_id chapterId (chapters d)) ;;
  followers <- read (fun d => filter (fun f => following f =? authorId) (follows d)) ;;
  docs <- match followers with
          | [] => ret []
          | _ :: _ =>
              name <- prop author display_name ;;
              num <- prop chapter chapterNumber ;;
              cttl <- prop chapter chapter_title ;;
              sttl <- prop story story_title ;;
              ret (map (fun follow =>
                          mkData (follower follow) (Some authorId) NNewChapter
                            "New Chapter"
                            (name ++ " published Chapter " ++ number_to_string num
                               ++ ": " ++ quoted cttl ++ " in " ++ quoted sttl)%string
                            (Some storyId) (Some chapterId) None (Some authorId)
                            (Some ("/story/" ++ oid_to_string storyId ++ "/chapter/"
                                     ++ oid_to_string chapterId)%string))
                       followers)
          end ;;
  insertMany docs.

End Notification.

(** ** controllers/likeController.js *)

Module LikeController.

Record Body := mkBody {
  success : bool;
  body_message : string;
  body_liked : option bool
}.

(** What a handler does with its request: it sends a JSON response, or it
    passes an error to [next]. *)
Inductive Outcome :=
| Json (status : nat) (b : Body)
| Next (e : Error).

(** [['story', 'chapter', 'comment'].includes(targetType)]. *)
Definition target_of_string (s : string) : option TargetType :=
  if String.eqb s "story" then Some TStory
  else if String.eqb s "chapter" then Some TChapter
  else if String.eqb s "comment" then Some TComment
  else None.

(** The [switch] of [toggleLike]: [None] when the target is missing, the
    owner's id when it is there; a populated reference that is null throws
    when [_id] is read from it. *)
Definition find_target (ty : TargetType) (targetId : ObjectId) : M (option ObjectId) :=
  match ty with
  | TStory =>
      target <- read (fun d => findById story_id targetId (stories d)) ;;
      match target with
      | None => ret None
      | Some s =>
          a <- read (fun d => findById user_id (author s) (users d)) ;;
          o <- Notification.prop a user_id ;;
          ret (Some o)
      end
  | TChapter =>
      target <- read (fun d => findById chapter_id targetId (chapters d)) ;;
      match target with
      | None => ret None
      | Some c =>
          s <- read (fun d => findById story_id (chapter_story c) (stories d)) ;;
          aid <- Notification.prop s author ;;
          a <- read (fun d => findById user_id aid (users d)) ;;
          o <- Notification.prop a user_id ;;
          ret (Some o)
      end
  | TComment =>
      target <- read (fun d => findById comment_id targetId (comments d)) ;;
      match target with
      | None => ret None
      | Some c =>
          u <- read (fun d => findById user_id (comment_user c) (users d)) ;;
          o <- Notification.prop u user_id ;;
          ret (Some o)
      end
  end.

Definition toggleLike_body (yield : M unit) (targetType : string)
           (targetId userId : ObjectId) : M (nat * Body) :=
  match target_of_string targetType with
  | None =>
      ret (400, mkBody false "Invalid target type. Must be story, chapter, or comment" None)
  | Some ty =>
      target <- find_target ty targetId ;;
      match target with
      | None => ret (404, mkBody false (targetType ++ " not found")%string None)
      | Some targetOwnerId =>
          result <- Like.toggleLike_at yield userId targetId ty ;;
          (if Like.liked result && negb (targetOwnerId =? userId) then
             Notification.createLikeNotification userId targetId ty targetOwnerId ;;
             ret tt
           else ret tt) ;;
          ret (200, mkBody true (Like.toggle_message result) (Some (Like.liked result)))
      end
  end.

(** [try { ... } catch (error) { next(error) }]. *)
Definition handle (body : M (nat * Body)) (d : Db) : Outcome * Db :=
  match body d with
  | (Ok (status, b), d') => (Json status b, d')
  | (Throw e, d') => (Next e, d')
  end.

(** [toggleLike], with [yield] as in [Like.toggleLike_at]. *)
Definition toggleLike_at (yield : M unit) (targetType : string)
           (targetId userId : ObjectId) : Db -> Outcome * Db :=
  handle (toggleLike_body yield targetType targetId userId).

Definition toggleLike := toggleLike_at (ret tt).

(** [checkLikeStatus]; the response carries [isLiked] in [body_liked]. *)
Definition checkLikeStatus (targetType : string) (targetId userId : ObjectId)
  : Db -> Outcome * Db :=
  handle
    match target_of_string targetType with
    | None => ret (400, mkBody false "Invalid target type" None)
    | Some ty =>
        isLiked <- read (Like.isLikedBy userId targetId ty) ;;
        ret (200, mkBody true EmptyString (Some isLiked))
    end.

End LikeController.

(** ** The engine as a transition system *)

Module Engine.

(** The operations of the engine, each run to completion. *)
Inductive Op :=
| ToggleFollow (followerId followingId : ObjectId)
| ToggleLike (targetType : string) (targetId userId : ObjectId)
| CheckLikeStatus (targetType : string) (targetId userId : ObjectId)
| RatingCreate (userId storyId : ObjectId) (v : float)
| RatingUpdate (r : RatingDoc) (v : float)
| RatingRemove (r : RatingDoc)
| SoftDelete (c : CommentDoc)
| CommentRemove (c : CommentDoc)
| IncrementLikes (c : CommentDoc)
| DecrementLikes (c : CommentDoc)
| PublishChapter (authorId storyId chapterId : ObjectId).

Definition exec (op : Op) (d : Db) : Db :=
  match op with
  | ToggleFollow a b => snd (Follow.toggleFollow a b d)
  | ToggleLike ty t u => snd (LikeController.toggleLike ty t u d)
  | CheckLikeStatus ty t u => snd (LikeController.checkLikeStatus ty t u d)
  | RatingCreate u s v => snd (Rating.create u s v d)
  | RatingUpdate r v => snd (Rating.update r v d)
  | RatingRemove r => snd (Rating.remove r d)
  | SoftDelete c => snd (Comment.softDelete c d)
  | CommentRemove c => snd (Comment.remove c d)
  | IncrementLikes c => snd (Comment.incrementLikes c d)
  | DecrementLikes c => snd (Comment.decrementLikes c d)
  | PublishChapter a s c => snd (Notification.createNewChapterNotification a s c d)
  end.

(** A step is an operation of the engine, or anything the rest of the
    application does; no code outside [Follow] writes Follow rows. *)
Inductive step : Db -> Db -> Prop :=
| step_op (op : Op) (d : Db) : step d (exec op d)
| step_other (d d' : Db) : follows d' = follows d -> step d d'.

(** The states reached from a store without Follow rows. *)
Inductive reachable : Db -> Prop :=
| reachable_init (d : Db) : follows d = [] -> reachable d
| reachable_step (d d' : Db) : reachable d -> step d d' -> reachable d'.

End Engine.

(** * Further operations of the models *)

(** ** models/Like.js: the liked stories of a user *)

Module LikeStatics.

Definition is_story (ty : TargetType) : bool :=
  match ty with TStory => true | _ => false end.

(** A Like row with its [story] populated, and the story's [author]. *)
Record LikedStory := mkLikedStory {
  like_row : LikeDoc;
  liked_story : option StoryDoc;
  liked_author : option UserDoc
}.

Definition populate_story (l : LikeDoc) (d : Db) : LikedStory :=
  let story :=
    match like_story l with
    | Some s => findById story_id s (stories d)
    | None => None
    end in
  mkLikedStory l story
    match story with
    | Some s => findById user_id (author s) (users d)
    | None => None
    end.

(** [likeSchema.statics.getUserLikedStories]. *)
Definition getUserLikedStories (userId : ObjectId) (limit skip : option nat)
           (d : Db) : list LikedStory :=
  map (fun l => populate_story l d)
      (limit_to (default 20 limit)
         (skipn (default 0 skip)
            (sort_desc like_createdAt
               (filter (fun l => (like_user l =? userId) && is_story (like_type l))
                       (likes d))))).

End LikeStatics.

(** ** models/Follow.js: mutual follows and suggestions *)

Module FollowStatics.

(** [{ $in: ids }] on a reference, and [ids.includes(id)]. *)
Definition id_in (ids : list ObjectId) (x : ObjectId) : bool :=
  existsb (Nat.eqb x) ids.

(** [followSchema.statics.getMutualFollows]. *)
Definition getMutualFollows (userId : ObjectId) (d : Db)
  : list (FollowDoc * option UserDoc) :=
  let followingRows := filter (fun f => follower f =? userId) (follows d) in
  let followingIds := map following followingRows in
  map (fun f => (f, findById user_id (follower f) (users d)))
      (sort_desc follow_createdAt
         (filter (fun f => id_in followingIds (follower f) && (following f =? userId))
                 (follows d))).

(** The rows of a populated result, when no populated reference is null. *)
Fixpoint all_populated {A B} (l : list (A * option B)) : option (list (A * B)) :=
  match l with
  | [] => Some []
  | (a, Some b) :: r =>
      match all_populated r with
      | Some r' => Some ((a, b) :: r')
      | None => None
      end
  | (_, None) :: _ => None
  end.

Section Suggestions.

(** The field [isActive] of the User schema, which is not among the
    sources. *)
Variable user_isActive : UserDoc -> bool.

(** [followSchema.statics.getSuggestedUsers].  The callback of
    [suggested.filter] reads [s.following._id]: a populated [following] that
    is null throws. *)
Definition getSuggestedUsers (userId : ObjectId) (limit : option nat)
  : M (list UserDoc) :=
  let limit := default 10 limit in
  userFollowers <- read (fun d => filter (fun f => following f =? userId) (follows d)) ;;
  let followerIds := map follower userFollowers in
  if List.length followerIds =? 0 then
    read (fun d =>
            limit_to limit
              (sort_desc followersCount
                 (filter (fun u => negb (user_id u =? userId) && user_isActive u)
                         (users d))))
  else
    suggested <-
      read (fun d =>
              map (fun f => (f, findById user_id (following f) (users d)))
                  (limit_to (limit * 2)
                     (filter (fun f => id_in followerIds (follower f)
                                       && negb (following f =? userId))
                             (follows d)))) ;;
    alreadyFollowing <-
      read (fun d => filter (fun f => follower f =? userId) (follows d)) ;;
    let alreadyFollowingIds := map following alreadyFollowing in
    match all_populated suggested with
    | None => throw TypeError
    | Some rows =>
        let filtered :=
          firstn limit
            (filter (fun s => negb (id_in alreadyFollowingIds (user_id (snd s))))
                    rows) in
        ret (map snd filtered)
    end.

End Suggestions.

End FollowStatics.

(** ** models/Notification.js: follow notifications and the inbox *)

Module NotificationStatics.

(** [notificationSchema.statics.createFollowNotification]. *)
Definition createFollowNotification (followerId followingId : ObjectId)
  : M NotificationDoc :=
  followerDoc <- read (fun d => findById user_id followerId (users d)) ;;
  name <- Notification.prop followerDoc Notification.display_name ;;
  uname <- Notification.prop followerDoc username ;;
  Notification.createNotification
    (Notification.mkData followingId (Some followerId) NFollow "New Follower"
       (name ++ " started following you")%string
       None None None (Some followerId)
       (Some ("/profile/" ++ uname)%string)).

(** A notification with [sender], [data.story], [data.chapter] and
    [data.user] populated. *)
Record View := mkView {
  view_doc : NotificationDoc;
  view_sender : option UserDoc;
  view_story : option StoryDoc;
  view_chapter : option ChapterDoc;
  view_user : option UserDoc
}.

Definition populate {A} (id_of : A -> ObjectId) (l : list A)
           (o : option ObjectId) : option A :=
  match o with
  | Some id => findById id_of id l
  | None => None
  end.

Definition inbox_query (userId : ObjectId) (unreadOnly : bool)
           (n : NotificationDoc) : bool :=
  (recipient n =? userId) &&
  (if unreadOnly then Bool.eqb (isRead n) false else true).

(** [notificationSchema.statics.getUserNotifications]. *)
Definition getUserNotifications (userId : ObjectId) (limit skip : option nat)
           (unreadOnly : option bool) (d : Db) : list View :=
  map (fun n => mkView n
                  (populate user_id (users d) (sender n))
                  (populate story_id (stories d) (data_story n))
                  (populate chapter_id (chapters d) (data_chapter n))
                  (populate user_id (users d) (data_user n)))
      (limit_to (default 20 limit)
         (skipn (default 0 skip)
            (sort_desc notification_createdAt
               (filter (inbox_query userId (default false unreadOnly))
                       (notifications d))))).

(** [notificationSchema.statics.getUnreadCount]. *)
Definition getUnreadCount (userId : ObjectId) (d : Db) : nat :=
  List.length
    (filter (fun n => (recipient n =? userId) && Bool.eqb (isRead n) false)
            (notifications d)).

End NotificationStatics.

(** ** models/Comment.js: restoring a comment *)

Module CommentMethods.

(** [commentSchema.methods.restore]. *)
Definition restore (this : CommentDoc) (originalContent : string) : M CommentDoc :=
  Comment.save this
    (Comment.set_content originalContent (Comment.set_deleted false None this)).

End CommentMethods.

(** ** Well-formedness of a store *)

(** The ids of the Like rows come from the id source. *)
Definition likes_fresh (d : Db) : Prop :=
  Forall (fun l => like_id l < next_id d) (likes d).

(** The Follow rows a reachable store holds. *)
Definition follow_ok (f : FollowDoc) : Prop :=
  isActive f = true /\ follower f <> following f.

Definition follows_ok (d : Db) : Prop :=
  Forall follow_ok (follows d) /\
  NoDup (map (fun f => (follower f, following f)) (follows d)).

(** * Derived notions *)

(** ** Frames *)

(** [keeps proj c]: the computation [c] leaves the part [proj] of the store
    as it was. *)
Definition keeps {X A} (proj : Db -> X) (c : M A) : Prop :=
  forall d, proj (snd (c d)) = proj d.

(** ** Orders of a listing *)

Definition asc {A} (key : A -> Z) (a b : A) : Prop := (key a <= key b)%Z.
Definition desc {A} (key : A -> Z) (a b : A) : Prop := (key b <= key a)%Z.

(** ** States of a like toggle *)

Definition like_inserted (l : LikeDoc) (d : Db) : Db :=
  log_write (InsertOne CLike (like_id l)) (set_likes (likes d ++ [l]) d).
Definition like_deleted (l : LikeDoc) (d : Db) : Db :=
  log_write (DeleteOne CLike (like_id l))
    (set_likes (delete_by_id like_id (like_id l) (likes d)) d).

(** The state after a toggle that likes, and after one that unlikes. *)
Definition after_like (u t : ObjectId) (ty : TargetType) (d : Db) : Db :=
  let l := Like.new_like (next_id d) u t ty (now d) in
  snd (Like.post_save l (like_inserted l (set_next_id (S (next_id d)) d))).
Definition after_unlike (l : LikeDoc) (d : Db) : Db :=
  snd (Like.post_remove l (like_deleted l d)).

(** ** Targets of the like controller *)

Definition is_some {A} (o : option A) : bool :=
  match o with Some _ => true | None => false end.

(** The documents [createLikeNotification] reads for a target are there. *)
Definition target_docs (ty : TargetType) (targetId : ObjectId) (d : Db) : bool :=
  match ty with
  | TStory => is_some (findById story_id targetId (stories d))
  | TChapter =>
      match findById chapter_id targetId (chapters d) with
      | Some c => is_some (findById story_id (chapter_story c) (stories d))
      | None => false
      end
  | TComment => true
  end.

(** The notification [n] tells [owner] of a like of [userId]. *)
Definition like_data_ok (n : NotificationDoc) (userId targetId : ObjectId)
           (ty : TargetType) (owner : ObjectId) : Prop :=
  recipient n = owner /\ sender n = Some userId /\
  ntype n = Notification.like_type_of ty.

(** ** Counters *)

(** The value of the counter [field] of the entity [id], when it exists. *)
Definition counter_of {A} (id_of : A -> ObjectId) (field : A -> Z)
           (id : ObjectId) (l : list A) : option Z :=
  option_map field (findById id_of id l).

(** The counter fields and the hooks that apply a delta to them. *)
Inductive CounterField :=
| FTotalLikes | FChapterLikes | FCommentLikes
| FFollowingCount | FFollowersCount
| FTotalComments | FCommentsCount.

Definition counter (fld : CounterField) (id : ObjectId) (d : Db) : option Z :=
  match fld with
  | FTotalLikes => counter_of story_id totalLikes id (stories d)
  | FChapterLikes => counter_of chapter_id chapter_likes id (chapters d)
  | FCommentLikes => counter_of comment_id comment_likes id (comments d)
  | FFollowingCount => counter_of user_id followingCount id (users d)
  | FFollowersCount => counter_of user_id followersCount id (users d)
  | FTotalComments => counter_of story_id totalComments id (stories d)
  | FCommentsCount => counter_of chapter_id commentsCount id (chapters d)
  end.

(** [applies hook fld id delta]: running [hook] sends [$inc: { fld: delta }]
    to the entity [id], for the counters of stories, chapters and users. *)
Inductive applies : M unit -> CounterField -> ObjectId -> Z -> Prop :=
| app_like_story k l sid :
    like_type l = TStory -> like_story l = Some sid ->
    applies (Like.post_hook k l) FTotalLikes sid k
| app_like_chapter k l cid :
    like_type l = TChapter -> like_chapter l = Some cid ->
    applies (Like.post_hook k l) FChapterLikes cid k
| app_follow_save_following f :
    isActive f = true ->
    applies (Follow.post_save f) FFollowingCount (follower f) 1
| app_follow_save_followers f :
    isActive f = true ->
    applies (Follow.post_save f) FFollowersCount (following f) 1
| app_follow_remove_following f :
    applies (Follow.post_remove f) FFollowingCount (follower f) (-1)
| app_follow_remove_followers f :
    applies (Follow.post_remove f) FFollowersCount (following f) (-1)
| app_comment_remove_story c :
    applies (Comment.post_remove c) FTotalComments (comment_story c) (-1)
| app_comment_remove_chapter c cid :
    comment_chapter c = Some cid ->
    applies (Comment.post_remove c) FCommentsCount cid (-1).

(** ** Comment threads *)

(** [r] is a reply of [c] that is not deleted. *)
Definition live_reply_of (c r : CommentDoc) : bool :=
  Comment.opt_eqb (parentComment r) (Some (comment_id c))
  && Bool.eqb (isDeleted r) false.

(** [r] names [c] as its parent. *)
Definition reply_of (c r : CommentDoc) : bool :=
  Comment.opt_eqb (parentComment r) (Some (comment_id c)).

(** [r] is a live reply of one of the comments [tops]. *)
Definition live_reply_of_listed (tops : list CommentDoc) (r : CommentDoc) : bool :=
  existsb (fun c => live_reply_of c r) tops.

(** The ids of a listing: each top-level comment with its replies. *)
Definition listing_ids (views : list Comment.ThreadView)
  : list (ObjectId * list ObjectId) :=
  map (fun v => (comment_id (Comment.top v),
                 map (fun rv => comment_id (Comment.reply rv)) (Comment.nestedReplies v)))
      views.

(** The five most recent live replies of a comment, oldest first: what the
    specification asks of a listing. *)
Definition most_recent_replies_spec (c : CommentDoc) (d : Db) : list CommentDoc :=
  sort_asc comment_createdAt
    (firstn 5 (sort_desc comment_createdAt (filter (live_reply_of c) (comments d)))).

(** ** Rating aggregate *)




(** [round(sum / n, 1 decimal)] in exact arithmetic, counted in tenths: the
    integer nearest to [10 * sum / n], the upper one of two. *)
Definition rounded_tenths (sum n : Z) : Z := ((20 * sum + n) / (2 * n))%Z.









(** ** Follow rows and counters *)

(** The numbers of Follow rows that name a user as followed and as
    follower. *)
Definition followers_count (u : ObjectId) (d : Db) : nat :=
  List.length (filter (fun f => following f =? u) (follows d)).
Definition following_count (u : ObjectId) (d : Db) : nat :=
  List.length (filter (fun f => follower f =? u) (follows d)).

(** Each user's counters are the numbers of Follow rows. *)
Definition follow_counters_ok (d : Db) : Prop :=
  forall u doc,
    findById user_id u (users d) = Some doc ->
    followersCount doc = Z.of_nat (followers_count u d) /\
    followingCount doc = Z.of_nat (following_count u d).

(** The ids of the Follow rows are distinct and come from the id source. *)
Definition follow_ids_ok (d : Db) : Prop :=
  NoDup (map follow_id (follows d)) /\
  Forall (fun f => follow_id f < next_id d) (follows d).

(** The queries of [getFollowers] and [getFollowing]. *)
Definition followers_query (userId : ObjectId) (f : FollowDoc) : bool :=
  (following f =? userId) && Bool.eqb (isActive f) true.
Definition following_query (userId : ObjectId) (f : FollowDoc) : bool :=
  (follower f =? userId) && Bool.eqb (isActive f) true.

(** A page the store may return for the query [q] sorted on
    [createdAt: -1]: [limit] rows after [skip] of some newest-first order of
    the matching rows.  The order of rows of equal [createdAt] is the
    store's choice, and may differ from one request to the next. *)
Definition newest_first_page (q : FollowDoc -> bool) (limit skip : nat) (d : Db)
           (rows : list FollowDoc) : Prop :=
  exists S,
    Permutation S (filter q (follows d)) /\
    StronglySorted (desc follow_createdAt) S /\
    rows = limit_to limit (skipn skip S).

(** ** States of a follow toggle *)

Definition follow_inserted (f : FollowDoc) (d : Db) : Db :=
  log_write (InsertOne CFollow (follow_id f)) (set_follows (follows d ++ [f]) d).
Definition follow_deleted (f : FollowDoc) (d : Db) : Db :=
  log_write (DeleteOne CFollow (follow_id f))
    (set_follows (delete_by_id follow_id (follow_id f) (follows d)) d).

(** The state after a toggle that follows, and after one that unfollows. *)
Definition after_follow (a b : ObjectId) (d : Db) : Db :=
  let f := Follow.new_follow (next_id d) a b (now d) in
  snd (Follow.post_save f (follow_inserted f (set_next_id (S (next_id d)) d))).
Definition after_unfollow (f : FollowDoc) (d : Db) : Db :=
  snd (Follow.post_remove f (follow_deleted f d)).

(** ** Like rows and counters *)

Definition type_eqb (a b : TargetType) : bool :=
  match a, b with
  | TStory, TStory | TChapter, TChapter | TComment, TComment => true
  | _, _ => false
  end.

(** The entity whose counter the hooks of a Like row change. *)
Definition like_target (l : LikeDoc) : option (TargetType * ObjectId) :=
  match like_type l, like_story l, like_chapter l, like_comment l with
  | TStory, Some s, _, _ => Some (TStory, s)
  | TChapter, _, Some c, _ => Some (TChapter, c)
  | TComment, _, _, Some c => Some (TComment, c)
  | _, _, _, _ => None
  end.

(** The hooks of the row [l] change the counter of the entity [id] of type
    [ty]. *)
Definition targets (ty : TargetType) (id : ObjectId) (l : LikeDoc) : bool :=
  match like_target l with
  | Some (ty', id') => type_eqb ty' ty && (id' =? id)
  | None => false
  end.

(** The number of Like rows of an entity. *)
Definition like_count (ty : TargetType) (id : ObjectId) (d : Db) : nat :=
  List.length (filter (targets ty id) (likes d)).

(** Each like counter is the number of Like rows of its entity. *)
Definition like_counters_ok (d : Db) : Prop :=
  (forall s doc, findById story_id s (stories d) = Some doc ->
                 totalLikes doc = Z.of_nat (like_count TStory s d)) /\
  (forall c doc, findById chapter_id c (chapters d) = Some doc ->
                 chapter_likes doc = Z.of_nat (like_count TChapter c d)) /\
  (forall c doc, findById comment_id c (comments d) = Some doc ->
                 comment_likes doc = Z.of_nat (like_count TComment c d)).

(** The ids of the Like rows are distinct and come from the id source. *)
Definition like_ids_ok (d : Db) : Prop :=
  NoDup (map like_id (likes d)) /\ likes_fresh d.

(** ** Like rows and the unique indexes *)

(** The user holds a Like row, whatever its target. *)
Definition holds_like (userId : ObjectId) (d : Db) : bool :=
  existsb (fun l => like_user l =? userId) (likes d).

(** The state after a like that the unique indexes refuse: the id of the new
    document is spent and nothing is written. *)
Definition like_refused (d : Db) : Db := set_next_id (S (next_id d)) d.

(** A Like row with exactly one target, as [pre('save')] asks. *)
Definition single_target (l : LikeDoc) : Prop :=
  List.length (filter truthy [like_story l; like_chapter l; like_comment l]) = 1.

(** The fields the three unique indexes range over. *)
Definition like_key (l : LikeDoc)
  : ObjectId * option ObjectId * option ObjectId * option ObjectId :=
  (like_user l, like_story l, like_chapter l, like_comment l).

(** The key of the row that likes [targetId] for [userId]. *)
Definition key_of (userId targetId : ObjectId) (targetType : TargetType) :=
  like_key (Like.new_like 0 userId targetId targetType 0).

(** Distinct ids from the id source, one target per row, and no two rows
    of one user for one target. *)
Definition likes_wf (d : Db) : Prop :=
  like_ids_ok d /\
  Forall single_target (likes d) /\
  NoDup (map like_key (likes d)).

(** ** Suggestions *)

(** The suggestions for a user who has followers: the rows the second
    query of [getSuggestedUsers] reads. *)
Definition suggestion_rows (userId : ObjectId) (limit : option nat) (d : Db)
  : list FollowDoc :=
  limit_to (default 10 limit * 2)
    (filter (fun f =>
               FollowStatics.id_in
                 (map follower (filter (fun g => following g =? userId) (follows d)))
                 (follower f)
               && negb (following f =? userId))
            (follows d)).

(** ** Targets and owners of the like controller *)

(** The target of a like is in its collection. *)
Definition target_found (ty : TargetType) (targetId : ObjectId) (d : Db) : bool :=
  match ty with
  | TStory => is_some (findById story_id targetId (stories d))
  | TChapter => is_some (findById chapter_id targetId (chapters d))
  | TComment => is_some (findById comment_id targetId (comments d))
  end.

(** The user document the controller reads [_id] from: the author of the
    story, the author of the chapter's story, the user of the comment. *)
Definition target_owner (ty : TargetType) (targetId : ObjectId) (d : Db)
  : option UserDoc :=
  match ty with
  | TStory =>
      match findById story_id targetId (stories d) with
      | Some s => findById user_id (author s) (users d)
      | None => None
      end
  | TChapter =>
      match findById chapter_id targetId (chapters d) with
      | Some c =>
          match findById story_id (chapter_story c) (stories d) with
          | Some s => findById user_id (author s) (users d)
          | None => None
          end
      | None => None
      end
  | TComment =>
      match findById comment_id targetId (comments d) with
      | Some c => findById user_id (comment_user c) (users d)
      | None => None
      end
  end.

(** The error of [likeSchema.pre('save')]. *)
Definition like_validation_error : Error :=
  PlainError "Like must target exactly one item (story, chapter, or comment)".

(** ** Stories under a rating operation *)

(** The store [d'] differs from [d] in the story [sid] only, and there in
    the rating fields and [lastUpdated] only. *)
Definition touches_only (sid : ObjectId) (d d' : Db) : Prop :=
  (forall sid', sid' <> sid ->
     findById story_id sid' (stories d') = findById story_id sid' (stories d)) /\
  (forall s, findById story_id sid (stories d) = Some s ->
     exists s',
       findById story_id sid (stories d') = Some s' /\
       story_title s' = story_title s /\ author s' = author s /\
       totalLikes s' = totalLikes s /\ totalComments s' = totalComments s /\
       lastUpdated s' = now d).

(** * Instances *)

(** A store with a reader (user 1), a writer (user 2) and the writer's story
    (story 10), and a second request of the reader that likes the story while
    the first one is suspended. *)
Definition race_db : Db :=
  mkDb [mkUser 1 "reader" EmptyString 0 0 [] [];
        mkUser 2 "writer" EmptyString 0 0 [] []]
       [mkStory 10 "Tale" 2 0 0 PrimFloat.zero 0 0]
       [] [] [] [] [] [] 100 0 [].

Definition race_yield : M unit :=
  fun d => (Ok tt, snd (LikeController.toggleLike "story" 10 1 d)).

(** A store in which user 3 already likes story 10. *)
Definition liked_db : Db :=
  mkDb [mkUser 1 "reader" EmptyString 0 0 [] [];
        mkUser 2 "writer" EmptyString 0 0 [] [];
        mkUser 3 "critic" "Ann Critic" 0 0 [] []]
       [mkStory 10 "Tale" 2 1 0 PrimFloat.zero 0 0]
       [mkChapter 20 "Dawn" 1 10 0 0]
       [mkComment 30 "Nice" 3 10 None None 0 [] false None false None 5]
       [mkLike 50 3 (Some 10) None None TStory 0]
       [] [] [] 100 7 [].

(** The Like row of [liked_db], as a request loads it. *)
Definition liked_row : LikeDoc := mkLike 50 3 (Some 10) None None TStory 0.

(** A second request of user 3 that unlikes story 10 while the first one is
    suspended. *)
Definition unlike_yield : M unit :=
  fun d => (Ok tt, snd (LikeController.toggleLike "story" 10 3 d)).

(** A story with a comment of user 3 (comment 30) and two replies to it. *)
Definition thread_db : Db :=
  mkDb [mkUser 1 "reader" EmptyString 0 0 [] [];
        mkUser 2 "writer" EmptyString 0 0 [] [];
        mkUser 3 "critic" "Ann Critic" 0 0 [] []]
       [mkStory 10 "Tale" 2 0 3 PrimFloat.zero 0 0]
       []
       [mkComment 30 "Nice" 3 10 None None 0 [31; 32] false None false None 5;
        mkComment 31 "Thanks" 2 10 None (Some 30) 0 [] false None false None 6;
        mkComment 32 "Agreed" 1 10 None (Some 30) 0 [] false None false None 7]
       [] [] [] [] 100 9 [].

Definition thread_parent : CommentDoc :=
  mkComment 30 "Nice" 3 10 None None 0 [31; 32] false None false None 5.

(** A comment (comment 30) with six live replies, created at times 1 to 6. *)
Definition busy_parent : CommentDoc :=
  mkComment 30 "Nice" 3 10 None None 0 [] false None false None 0.

Definition busy_reply (id : ObjectId) (t : Z) : CommentDoc :=
  mkComment id "re" 1 10 None (Some 30) 0 [] false None false None t.

Definition busy_db : Db :=
  mkDb [mkUser 1 "reader" EmptyString 0 0 [] []]
       [mkStory 10 "Tale" 2 0 7 PrimFloat.zero 0 0]
       []
       [busy_parent; busy_reply 31 1; busy_reply 32 2; busy_reply 33 3;
        busy_reply 34 4; busy_reply 35 5; busy_reply 36 6]
       [] [] [] [] 100 9 [].

(** Two comments of one story: comment 30 with seven live replies, created
    at times 1 to 7, and the later comment 40 with four, created at times 9
    to 12. *)
Definition crowded_reply (id parent : ObjectId) (t : Z) : CommentDoc :=
  mkComment id "re" 1 10 None (Some parent) 0 [] false None false None t.

Definition crowded_db : Db :=
  mkDb [mkUser 1 "reader" EmptyString 0 0 [] []]
       [mkStory 10 "Tale" 2 0 13 PrimFloat.zero 0 0]
       []
       [mkComment 30 "Nice" 3 10 None None 0 [] false None false None 0;
        crowded_reply 31 30 1; crowded_reply 32 30 2; crowded_reply 33 30 3;
        crowded_reply 34 30 4; crowded_reply 35 30 5; crowded_reply 36 30 6;
        crowded_reply 37 30 7;
        mkComment 40 "More" 3 10 None None 0 [] false None false None 8;
        crowded_reply 41 40 9; crowded_reply 42 40 10; crowded_reply 43 40 11;
        crowded_reply 44 40 12]
       [] [] [] [] 100 13 [].

(** A story without ratings and three readers. *)
Definition rated_db : Db :=
  mkDb [mkUser 1 "ann" EmptyString 0 0 [] [];
        mkUser 2 "bob" EmptyString 0 0 [] [];
        mkUser 3 "cy" EmptyString 0 0 [] [];
        mkUser 4 "writer" EmptyString 0 0 [] []]
       [mkStory 10 "Tale" 4 0 0 PrimFloat.zero 0 0]
       [] [] [] [] [] [] 100 7 [].





(** A writer (user 2) with a story and a chapter, and two readers who follow
    the writer through the engine. *)
Definition base_db : Db :=
  mkDb [mkUser 1 "reader" EmptyString 0 0 [] [];
        mkUser 2 "writer" "Will Writer" 0 0 [] [];
        mkUser 3 "critic" "Ann Critic" 0 0 [] []]
       [mkStory 10 "Tale" 2 0 0 PrimFloat.zero 0 0]
       [mkChapter 20 "Dawn" 1 10 0 0]
       [] [] [] [] [] 100 7 [].

Definition followed_db : Db :=
  Engine.exec (Engine.ToggleFollow 3 2)
    (Engine.exec (Engine.ToggleFollow 1 2) base_db).

(** ** Further instances *)

(** Users 1, 3 and 4 follow user 2, at the times 1, 2 and 3. *)
Definition paged_db : Db :=
  mkDb [mkUser 1 "ann" EmptyString 0 0 [] [];
        mkUser 2 "writer" EmptyString 0 0 [] [];
        mkUser 3 "bob" EmptyString 0 0 [] [];
        mkUser 4 "cy" EmptyString 0 0 [] []]
       [] [] [] []
       [mkFollow 100 1 2 true 1; mkFollow 101 3 2 true 2; mkFollow 102 4 2 true 3]
       [] [] 103 7 [].

(** Users 1 and 3 follow user 2, both at the time 5. *)
Definition tied_db : Db :=
  mkDb [mkUser 1 "ann" EmptyString 0 0 [] [];
        mkUser 2 "writer" EmptyString 0 0 [] [];
        mkUser 3 "bob" EmptyString 0 0 [] []]
       [] [] [] []
       [mkFollow 100 1 2 true 5; mkFollow 101 3 2 true 5]
       [] [] 102 7 [].

(** A second request of user 1 that follows user 2 while the first one is
    suspended. *)
Definition follow_race_yield : M unit :=
  fun d => (Ok tt, snd (Follow.toggleFollow 1 2 d)).

(** Four users: user 1 follows users 2, 3 and 4, and user 2 follows user 4. *)
Definition social_base : Db :=
  mkDb [mkUser 1 "reader" EmptyString 0 0 [] [];
        mkUser 2 "writer" "Will Writer" 0 0 [] [];
        mkUser 3 "critic" "Ann Critic" 0 0 [] [];
        mkUser 4 "editor" EmptyString 0 0 [] []]
       [] [] [] [] [] [] [] 100 7 [].

Definition social_db : Db :=
  Engine.exec (Engine.ToggleFollow 2 4)
    (Engine.exec (Engine.ToggleFollow 1 4)
       (Engine.exec (Engine.ToggleFollow 1 3)
          (Engine.exec (Engine.ToggleFollow 1 2) social_base))).

(** The same Follow rows after the document of user 3 is gone. *)
Definition dangling_db : Db :=
  set_users (delete_by_id user_id 3 (users social_db)) social_db.

(** A story whose author has no user document. *)
Definition orphan_db : Db :=
  set_users [mkUser 1 "reader" EmptyString 0 0 [] []] race_db.

(** Every user is active. *)
Definition all_active : UserDoc -> bool := fun _ => true.

(** The first reply of [thread_db]. *)
Definition thread_reply : CommentDoc :=
  mkComment 31 "Thanks" 2 10 None (Some 30) 0 [] false None false None 6.

(** * Properties *)

(** ** The monad *)

Lemma bind_ok A B (c : M A) (k : A -> M B) d a d' :
  c d = (Ok a, d') -> bind c k d = k a d'.
Proof. unfold bind; now intros ->. Qed.
Arguments bind_ok {A B c} k {d a d'} _.

Lemma bind_throw A B (c : M A) (k : A -> M B) d e d' :
  c d = (Throw e, d') -> bind c k d = (Throw e, d').
Proof. unfold bind; now intros ->. Qed.
Arguments bind_throw {A B c} k {d e d'} _.

(** ** Lists and collections *)

Lemma find_none_existsb A (f : A -> bool) l :
  existsb f l = false -> find f l = None.
Proof.
  induction l as [|x r IH]; simpl; [reflexivity|].
  destruct (f x); simpl; [discriminate|exact IH].
Qed.

Lemma find_app_last A (f : A -> bool) l x :
  existsb f l = false -> f x = true -> find f (l ++ [x]) = Some x.
Proof.
  induction l as [|y r IH]; simpl; intros He Hx.
  - now rewrite Hx.
  - destruct (f y); simpl in *; [discriminate|auto].
Qed.

Lemma delete_by_id_app_last A (id_of : A -> ObjectId) l x :
  Forall (fun y => id_of y < id_of x) l ->
  delete_by_id id_of (id_of x) (l ++ [x]) = l.
Proof.
  induction 1 as [|y r Hy Hr IH]; simpl.
  - now rewrite Nat.eqb_refl.
  - destruct (Nat.eqb_spec (id_of y) (id_of x)); [lia|]. now rewrite IH.
Qed.

Lemma findById_update_by_id A (id_of : A -> ObjectId) (f : A -> A) id id' l :
  (forall x, id_of (f x) = id_of x) ->
  findById id_of id' (update_by_id id_of id f l) =
  if id' =? id then option_map f (findById id_of id' l) else findById id_of id' l.
Proof.
  intros Hf. unfold findById.
  induction l as [|x r IH]; simpl.
  - now destruct (id' =? id).
  - destruct (Nat.eqb_spec (id_of x) id) as [E|E]; simpl.
    + rewrite Hf. destruct (Nat.eqb_spec (id_of x) id') as [E'|E'].
      * subst. now rewrite Nat.eqb_refl.
      * destruct (Nat.eqb_spec id' id); [congruence|reflexivity].
    + destruct (Nat.eqb_spec (id_of x) id') as [E'|E'].
      * destruct (Nat.eqb_spec id' id); [congruence|reflexivity].
      * exact IH.
Qed.

Lemma findById_id A (id_of : A -> ObjectId) id l x :
  findById id_of id l = Some x -> id_of x = id /\ In x l.
Proof.
  unfold findById. intros H. apply find_some in H as [Hin He].
  apply Nat.eqb_eq in He. auto.
Qed.

(** ** Like: toggling *)

Lemma likes_post_hook k l d : likes (snd (Like.post_hook k l d)) = likes d.
Proof.
  unfold Like.post_hook.
  destruct (like_type l), (like_story l), (like_chapter l), (like_comment l);
    reflexivity.
Qed.

Lemma post_hook_run k l d :
  Like.post_hook k l d = (Ok tt, snd (Like.post_hook k l d)).
Proof.
  unfold Like.post_hook.
  destruct (like_type l), (like_story l), (like_chapter l), (like_comment l);
    reflexivity.
Qed.

Lemma query_new_like id u t ty z :
  Like.query u t ty (Like.new_like id u t ty z) = true.
Proof. destruct ty; unfold Like.query; simpl; now rewrite !Nat.eqb_refl. Qed.

Lemma same_key_new_like id u t ty z x :
  Like.query u t ty x = true ->
  Like.same_key (Like.new_like id u t ty z) x = true.
Proof.
  unfold Like.same_key, Like.query, oid_is.
  intros H. apply andb_true_iff in H as [Hu Ht].
  apply Nat.eqb_eq in Hu. rewrite Hu.
  destruct ty; simpl; rewrite Nat.eqb_refl; simpl.
  - destruct (like_story x) as [s|]; [|discriminate].
    now rewrite (Nat.eqb_sym t), Ht.
  - destruct (like_chapter x) as [c|]; [|discriminate].
    rewrite (Nat.eqb_sym t), Ht. now rewrite orb_true_r.
  - destruct (like_comment x) as [c|]; [|discriminate].
    rewrite (Nat.eqb_sym t), Ht. now rewrite !orb_true_r.
Qed.

Lemma same_key_new_like_user id u t ty z x :
  Like.same_key (Like.new_like id u t ty z) x = true -> like_user x = u.
Proof.
  unfold Like.same_key. intros H. apply andb_true_iff in H as [Hu _].
  destruct ty; simpl in Hu; apply Nat.eqb_eq in Hu; congruence.
Qed.

(** Two rows of one user with one target each share a null target: they
    collide in one of the three indexes. *)
Lemma same_key_new_like_row id u t ty z x :
  like_user x = u ->
  List.length (filter truthy [like_story x; like_chapter x; like_comment x]) = 1 ->
  Like.same_key (Like.new_like id u t ty z) x = true.
Proof.
  unfold Like.same_key. intros Hu H1.
  destruct x as [i xu [s|] [c|] [m|] xty xz]; simpl in *; try discriminate H1;
    subst xu; destruct ty; simpl; rewrite Nat.eqb_refl; simpl;
    rewrite ?orb_true_r; reflexivity.
Qed.

Lemma pre_save_new_like id u t ty z d :
  Like.pre_save (Like.new_like id u t ty z) d =
  (Ok (Like.new_like id u t ty z), d).
Proof. destruct ty; reflexivity. Qed.

Lemma like_id_new_like id u t ty z : like_id (Like.new_like id u t ty z) = id.
Proof. now destruct ty. Qed.

Lemma existsb_same_key_liked id u t ty z d :
  Like.isLikedBy u t ty d = true ->
  existsb (Like.same_key (Like.new_like id u t ty z)) (likes d) = true.
Proof.
  unfold Like.isLikedBy. intros H.
  apply existsb_exists in H as (x & Hx & Hq).
  apply existsb_exists. exists x. split; [exact Hx|].
  now apply same_key_new_like.
Qed.

Lemma existsb_same_key_holds id u t ty z d :
  existsb (Like.same_key (Like.new_like id u t ty z)) (likes d) = true ->
  holds_like u d = true.
Proof.
  intros H. apply existsb_exists in H as (x & Hx & Hk).
  apply existsb_exists. exists x. split; [exact Hx|].
  apply Nat.eqb_eq. now apply same_key_new_like_user in Hk.
Qed.

Lemma holds_like_none id u t ty z d :
  holds_like u d = false ->
  existsb (Like.same_key (Like.new_like id u t ty z)) (likes d) = false /\
  Like.isLikedBy u t ty d = false.
Proof.
  intros H. split; apply not_true_is_false; intros He.
  - apply existsb_same_key_holds in He. congruence.
  - apply (existsb_same_key_liked id u t ty z) in He.
    apply existsb_same_key_holds in He. congruence.
Qed.

Lemma save_new_like id u t ty z d :
  existsb (Like.same_key (Like.new_like id u t ty z)) (likes d) = false ->
  Like.save (Like.new_like id u t ty z) d =
  (Ok tt, snd (Like.post_save (Like.new_like id u t ty z)
                 (like_inserted (Like.new_like id u t ty z) d))).
Proof.
  intros H. unfold Like.save.
  rewrite (bind_ok _ (pre_save_new_like id u t ty z d)).
  erewrite bind_ok; [apply post_hook_run|].
  unfold Like.insert. now rewrite H.
Qed.

Lemma save_new_like_collision id u t ty z d :
  existsb (Like.same_key (Like.new_like id u t ty z)) (likes d) = true ->
  Like.save (Like.new_like id u t ty z) d = (Throw (DuplicateKey CLike), d).
Proof.
  intros H. unfold Like.save.
  rewrite (bind_ok _ (pre_save_new_like id u t ty z d)).
  apply bind_throw. unfold Like.insert. now rewrite H.
Qed.

Lemma save_new_like_duplicate id u t ty z d :
  Like.isLikedBy u t ty d = true ->
  Like.save (Like.new_like id u t ty z) d = (Throw (DuplicateKey CLike), d).
Proof.
  intros H. now apply save_new_like_collision, existsb_same_key_liked.
Qed.

Lemma remove_run l d :
  Like.remove l d = (Ok tt, snd (Like.post_remove l (like_deleted l d))).
Proof.
  unfold Like.remove. erewrite bind_ok; [apply post_hook_run|reflexivity].
Qed.

Lemma toggleLike_fresh_key u t ty d :
  find (Like.query u t ty) (likes d) = None ->
  existsb (Like.same_key (Like.new_like (next_id d) u t ty (now d))) (likes d) = false ->
  Like.toggleLike u t ty d =
  (Ok (Like.mkToggle true "Liked successfully"), after_like u t ty d).
Proof.
  intros Hf Hno. unfold Like.toggleLike, Like.toggleLike_at.
  erewrite bind_ok; [|unfold Like.findOne, read; rewrite Hf; reflexivity].
  do 3 (erewrite bind_ok; [|reflexivity]).
  erewrite bind_ok; [reflexivity|].
  now apply save_new_like.
Qed.

Lemma toggleLike_refused u t ty d :
  find (Like.query u t ty) (likes d) = None ->
  existsb (Like.same_key (Like.new_like (next_id d) u t ty (now d))) (likes d) = true ->
  Like.toggleLike u t ty d = (Throw (DuplicateKey CLike), like_refused d).
Proof.
  intros Hf Hyes. unfold Like.toggleLike, Like.toggleLike_at.
  erewrite bind_ok; [|unfold Like.findOne, read; rewrite Hf; reflexivity].
  do 3 (erewrite bind_ok; [|reflexivity]).
  apply bind_throw. now apply save_new_like_collision.
Qed.

Lemma toggleLike_like u t ty d :
  holds_like u d = false ->
  Like.toggleLike u t ty d =
  (Ok (Like.mkToggle true "Liked successfully"), after_like u t ty d).
Proof.
  intros Hno.
  destruct (holds_like_none (next_id d) u t ty (now d) d Hno) as [Hk Hl].
  apply toggleLike_fresh_key; [|exact Hk].
  now apply find_none_existsb.
Qed.

Lemma toggleLike_unlike u t ty d l :
  find (Like.query u t ty) (likes d) = Some l ->
  Like.toggleLike u t ty d =
  (Ok (Like.mkToggle false "Unliked successfully"), after_unlike l d).
Proof.
  intros Hf. unfold Like.toggleLike, Like.toggleLike_at.
  erewrite bind_ok; [|unfold Like.findOne, read; rewrite Hf; reflexivity].
  erewrite bind_ok; [|reflexivity].
  erewrite bind_ok; [reflexivity|apply remove_run].
Qed.

Lemma likes_after_like u t ty d :
  likes (after_like u t ty d) =
  likes d ++ [Like.new_like (next_id d) u t ty (now d)].
Proof. unfold after_like, Like.post_save. now rewrite likes_post_hook. Qed.

Lemma likes_after_unlike l d :
  likes (after_unlike l d) = delete_by_id like_id (like_id l) (likes d).
Proof. unfold after_unlike, Like.post_remove. now rewrite likes_post_hook. Qed.

Lemma next_id_post_hook k l d : next_id (snd (Like.post_hook k l d)) = next_id d.
Proof.
  unfold Like.post_hook.
  destruct (like_type l), (like_story l), (like_chapter l), (like_comment l);
    reflexivity.
Qed.

(** Toggling keeps the ids of the Like rows below the id source. *)
Lemma likes_fresh_after_like u t ty d :
  likes_fresh d -> likes_fresh (after_like u t ty d).
Proof.
  unfold likes_fresh. intros H. rewrite likes_after_like.
  unfold after_like, Like.post_save. rewrite next_id_post_hook. simpl.
  apply Forall_app. split.
  - eapply Forall_impl; [|exact H]. simpl. intros; lia.
  - constructor; [|constructor]. rewrite like_id_new_like. lia.
Qed.

Lemma delete_by_id_Forall A (id_of : A -> ObjectId) (P : A -> Prop) id l :
  Forall P l -> Forall P (delete_by_id id_of id l).
Proof.
  induction 1 as [|x r Hx Hr IH]; simpl; [constructor|].
  destruct (id_of x =? id); [exact Hr|now constructor].
Qed.

Lemma likes_fresh_after_unlike l d :
  likes_fresh d -> likes_fresh (after_unlike l d).
Proof.
  unfold likes_fresh. intros H. rewrite likes_after_unlike.
  unfold after_unlike, Like.post_remove. rewrite next_id_post_hook. simpl.
  now apply delete_by_id_Forall.
Qed.

(** The first like of a user.  From a store in which user [u] holds no
    Like row, two successive calls of [toggleLike] return [liked = true] and
    then [liked = false], and [isLikedBy] is [true] after the first call and
    [false] after the second; the Like rows are then those of the start. *)
Lemma toggleLike_twice_first_item (u t : ObjectId) (ty : TargetType) (d : Db) :
  likes_fresh d ->
  holds_like u d = false ->
  exists m1 m2 d1 d2,
    Like.toggleLike u t ty d = (Ok (Like.mkToggle true m1), d1) /\
    Like.isLikedBy u t ty d1 = true /\
    Like.toggleLike u t ty d1 = (Ok (Like.mkToggle false m2), d2) /\
    Like.isLikedBy u t ty d2 = false /\
    likes d2 = likes d /\
    likes_fresh d2.
Proof.
  intros Hfr Hno.
  set (l0 := Like.new_like (next_id d) u t ty (now d)).
  assert (Hl1 : likes (after_like u t ty d) = likes d ++ [l0])
    by apply likes_after_like.
  assert (Hq : Like.query u t ty l0 = true) by apply query_new_like.
  assert (Hdel : delete_by_id like_id (like_id l0) (likes d ++ [l0]) = likes d).
  { apply delete_by_id_app_last. unfold l0. rewrite like_id_new_like. exact Hfr. }
  destruct (holds_like_none (next_id d) u t ty (now d) d Hno) as [_ Hnl].
  exists "Liked successfully"%string, "Unliked successfully"%string,
    (after_like u t ty d), (after_unlike l0 (after_like u t ty d)).
  split; [now apply toggleLike_like|].
  split.
  { unfold Like.isLikedBy. rewrite Hl1, existsb_app. simpl.
    now rewrite Hq, !orb_true_r. }
  split.
  { apply toggleLike_unlike. rewrite Hl1. now apply find_app_last. }
  cut (likes (after_unlike l0 (after_like u t ty d)) = likes d).
  { intros Hl2. split; [unfold Like.isLikedBy; now rewrite Hl2|].
    split; [exact Hl2|].
    now apply likes_fresh_after_unlike, likes_fresh_after_like. }
  now rewrite likes_after_unlike, Hl1.
Qed.

(** C1, the defect.  A user who holds a Like row cannot like a second item.
    When the store has a row of user [u] with one target, and [u] does not
    like the target [t], [toggleLike] finds no row for [(u, t)], builds the
    new row and [save] fails on a unique index: the new row and the stored
    one have the same user and, each having one target only, a target field
    that is null in both.  The call throws [DuplicateKey] instead of
    returning [liked = true]; nothing is written, so a second call fails the
    same way and [isLikedBy] stays [false]. *)
Theorem toggleLike_second_item_is_refused (u t : ObjectId) (ty : TargetType)
        (d : Db) (x : LikeDoc) :
  In x (likes d) -> like_user x = u -> single_target x ->
  Like.isLikedBy u t ty d = false ->
  Like.toggleLike u t ty d = (Throw (DuplicateKey CLike), like_refused d) /\
  likes (like_refused d) = likes d /\
  Like.isLikedBy u t ty (like_refused d) = false /\
  Like.toggleLike u t ty (like_refused d) =
    (Throw (DuplicateKey CLike), like_refused (like_refused d)) /\
  ~ (exists m d1, Like.toggleLike u t ty d = (Ok (Like.mkToggle true m), d1)).
Proof.
  intros Hx Hu Hs Hno.
  assert (Hf : find (Like.query u t ty) (likes d) = None)
    by now apply find_none_existsb.
  assert (Hk : forall id z,
             existsb (Like.same_key (Like.new_like id u t ty z)) (likes d) = true).
  { intros id z. apply existsb_exists. exists x. split; [exact Hx|].
    now apply same_key_new_like_row. }
  assert (H1 : Like.toggleLike u t ty d =
               (Throw (DuplicateKey CLike), like_refused d))
    by (apply toggleLike_refused; [exact Hf|apply Hk]).
  split; [exact H1|]. split; [reflexivity|]. split; [exact Hno|]. split.
  - apply toggleLike_refused; [exact Hf|apply Hk].
  - intros (m & d1 & H). rewrite H1 in H. discriminate H.
Qed.

(** ** Like controller: notifications *)

Lemma find_target_docs ty t d owner d' :
  LikeController.find_target ty t d = (Ok (Some owner), d') ->
  d' = d /\ target_docs ty t d = true.
Proof.
  unfold target_docs.
  destruct ty;
    cbv beta iota zeta delta
      [LikeController.find_target bind read ret Notification.prop throw].
  - destruct (findById story_id t (stories d)) as [s|]; [|discriminate].
    destruct (findById user_id (author s) (users d)); [|discriminate].
    cbv beta iota. intros H; inversion H; auto.
  - destruct (findById chapter_id t (chapters d)) as [c|]; [|discriminate].
    destruct (findById story_id (chapter_story c) (stories d)) as [s|]; [|discriminate].
    destruct (findById user_id (author s) (users d)); [|discriminate].
    cbv beta iota. intros H; inversion H; auto.
  - destruct (findById comment_id t (comments d)) as [c|]; [|discriminate].
    destruct (findById user_id (comment_user c) (users d)); [|discriminate].
    cbv beta iota. intros H; inversion H; auto.
Qed.

Lemma users_post_hook k l d : users (snd (Like.post_hook k l d)) = users d.
Proof.
  unfold Like.post_hook.
  destruct (like_type l), (like_story l), (like_chapter l), (like_comment l);
    reflexivity.
Qed.
Lemma notifications_post_hook k l d :
  notifications (snd (Like.post_hook k l d)) = notifications d.
Proof.
  unfold Like.post_hook.
  destruct (like_type l), (like_story l), (like_chapter l), (like_comment l);
    reflexivity.
Qed.

Lemma is_some_findById_update A (id_of : A -> ObjectId) f id id' l :
  (forall x, id_of (f x) = id_of x) ->
  is_some (findById id_of id' (update_by_id id_of id f l)) =
  is_some (findById id_of id' l).
Proof.
  intros Hf. rewrite findById_update_by_id by exact Hf.
  destruct (id' =? id); [|reflexivity]. now destruct (findById id_of id' l).
Qed.

Lemma target_docs_post_hook ty t k l d :
  target_docs ty t (snd (Like.post_hook k l d)) = target_docs ty t d.
Proof.
  unfold Like.post_hook.
  destruct (like_type l), (like_story l) as [s|], (like_chapter l) as [c|],
    (like_comment l) as [m|];
    try reflexivity; destruct ty; try reflexivity; simpl.
  all: try (apply is_some_findById_update; reflexivity).
  all: try (destruct (findById chapter_id t (chapters d));
            [apply is_some_findById_update; reflexivity | reflexivity]).
  all: rewrite findById_update_by_id by reflexivity.
  all: destruct (t =? c); [|reflexivity].
  all: now destruct (findById chapter_id t (chapters d)).
Qed.

Lemma createNotification_run x d :
  Notification.createNotification x d =
  (Ok (Notification.build x (next_id d) (now d)),
   log_write (InsertOne CNotification (next_id d))
     (set_notifications
        (notifications d ++ [Notification.build x (next_id d) (now d)])
        (set_next_id (S (next_id d)) d))).
Proof. reflexivity. Qed.

Lemma createLikeNotification_ok userId targetId ty owner u d :
  userId <> owner ->
  findById user_id userId (users d) = Some u ->
  target_docs ty targetId d = true ->
  exists n d',
    Notification.createLikeNotification userId targetId ty owner d =
      (Ok (Some n), d') /\
    like_data_ok n userId targetId ty owner /\
    notifications d' = notifications d ++ [n] /\
    writes d' = writes d ++ [InsertOne CNotification (notification_id n)].
Proof.
  intros Hne Hu Ht. unfold Notification.createLikeNotification.
  destruct (Nat.eqb_spec userId owner) as [|_]; [contradiction|].
  erewrite bind_ok; [|unfold read; rewrite Hu; reflexivity].
  unfold target_docs in Ht.
  destruct ty.
  - destruct (findById story_id targetId (stories d)) as [s|] eqn:Hs; [|discriminate].
    erewrite bind_ok.
    2:{ erewrite bind_ok; [|unfold read; rewrite Hs; reflexivity]. reflexivity. }
    erewrite bind_ok; [|apply createNotification_run].
    eexists _, _. split; [reflexivity|]. repeat split.
  - destruct (findById chapter_id targetId (chapters d)) as [c|] eqn:Hc;
      [|discriminate].
    destruct (findById story_id (chapter_story c) (stories d)) as [s|] eqn:Hs;
      [|discriminate].
    erewrite bind_ok.
    2:{ erewrite bind_ok; [|unfold read; rewrite Hc; reflexivity].
        erewrite bind_ok; [|unfold read; rewrite Hs; reflexivity]. reflexivity. }
    erewrite bind_ok; [|apply createNotification_run].
    eexists _, _. split; [reflexivity|]. repeat split.
  - erewrite bind_ok; [|reflexivity].
    erewrite bind_ok; [|apply createNotification_run].
    eexists _, _. split; [reflexivity|]. repeat split.
Qed.

Lemma createLikeNotification_no_user u t ty owner d :
  u <> owner ->
  findById user_id u (users d) = None ->
  Notification.createLikeNotification u t ty owner d = (Throw TypeError, d).
Proof.
  intros Hne Hu. unfold Notification.createLikeNotification.
  destruct (Nat.eqb_spec u owner) as [|_]; [contradiction|].
  destruct ty;
    cbv beta iota zeta delta [bind read ret Notification.prop throw];
    rewrite Hu; cbv beta iota.
  - now destruct (findById story_id t (stories d)).
  - destruct (findById chapter_id t (chapters d)) as [c|]; [|reflexivity].
    now destruct (findById story_id (chapter_story c) (stories d)).
  - reflexivity.
Qed.

Lemma toggleLike_body_found yield tstr ty t u owner d :
  LikeController.target_of_string tstr = Some ty ->
  LikeController.find_target ty t d = (Ok (Some owner), d) ->
  LikeController.toggleLike_body yield tstr t u d =
  bind (Like.toggleLike_at yield u t ty)
       (fun result =>
          (if Like.liked result && negb (owner =? u) then
             Notification.createLikeNotification u t ty owner ;; ret tt
           else ret tt) ;;
          ret (200, LikeController.mkBody true (Like.toggle_message result)
                      (Some (Like.liked result)))) d.
Proof.
  intros Hs Hf. unfold LikeController.toggleLike_body. rewrite Hs.
  now rewrite (bind_ok _ Hf).
Qed.

Lemma isLikedBy_find u t ty d :
  Like.isLikedBy u t ty d = true ->
  exists l, find (Like.query u t ty) (likes d) = Some l.
Proof.
  unfold Like.isLikedBy. intros H.
  destruct (find (Like.query u t ty) (likes d)) eqn:E; [eauto|].
  apply existsb_exists in H as (x & Hx & Hq).
  now rewrite (find_none _ _ E x Hx) in Hq.
Qed.

Lemma notifications_after_like u t ty d :
  notifications (after_like u t ty d) = notifications d.
Proof. unfold after_like, Like.post_save. now rewrite notifications_post_hook. Qed.
Lemma notifications_after_unlike l d :
  notifications (after_unlike l d) = notifications d.
Proof. unfold after_unlike, Like.post_remove. now rewrite notifications_post_hook. Qed.
Lemma users_after_like u t ty d : users (after_like u t ty d) = users d.
Proof. unfold after_like, Like.post_save. now rewrite users_post_hook. Qed.
Lemma target_docs_after_like ty' t' u t ty d :
  target_docs ty' t' (after_like u t ty d) = target_docs ty' t' d.
Proof. unfold after_like, Like.post_save. now rewrite target_docs_post_hook. Qed.

(** The outcomes of the like controller on an existing target: it unlikes;
    or the unique indexes refuse the like; or it likes, and then the actor is
    the owner, or the actor has no user document, or one notification is
    written. *)
Lemma toggleLike_outcomes tstr ty t u owner d :
  LikeController.target_of_string tstr = Some ty ->
  LikeController.find_target ty t d = (Ok (Some owner), d) ->
  (exists l,
     find (Like.query u t ty) (likes d) = Some l /\
     LikeController.toggleLike tstr t u d =
       (LikeController.Json 200
          (LikeController.mkBody true "Unliked successfully" (Some false)),
        after_unlike l d)) \/
  (find (Like.query u t ty) (likes d) = None /\
   existsb (Like.same_key (Like.new_like (next_id d) u t ty (now d))) (likes d) = true /\
   LikeController.toggleLike tstr t u d =
     (LikeController.Next (DuplicateKey CLike), like_refused d)) \/
  (find (Like.query u t ty) (likes d) = None /\
   existsb (Like.same_key (Like.new_like (next_id d) u t ty (now d))) (likes d) = false /\
   ((owner = u /\
     LikeController.toggleLike tstr t u d =
       (LikeController.Json 200
          (LikeController.mkBody true "Liked successfully" (Some true)),
        after_like u t ty d)) \/
    (owner <> u /\ findById user_id u (users d) = None /\
     LikeController.toggleLike tstr t u d =
       (LikeController.Next TypeError, after_like u t ty d)) \/
    (owner <> u /\ findById user_id u (users d) <> None /\
     exists n d',
       Notification.createLikeNotification u t ty owner (after_like u t ty d) =
         (Ok (Some n), d') /\
       LikeController.toggleLike tstr t u d =
         (LikeController.Json 200
            (LikeController.mkBody true "Liked successfully" (Some true)), d') /\
       like_data_ok n u t ty owner /\
       notifications d' = notifications d ++ [n]))).
Proof.
  intros Hs Hf.
  unfold LikeController.toggleLike, LikeController.toggleLike_at, LikeController.handle.
  rewrite toggleLike_body_found with (ty := ty) (owner := owner) by assumption.
  fold Like.toggleLike.
  destruct (find (Like.query u t ty) (likes d)) as [l|] eqn:Hfind.
  { left. exists l. split; [reflexivity|].
    erewrite bind_ok; [|apply toggleLike_unlike; exact Hfind]. reflexivity. }
  right.
  destruct (existsb (Like.same_key (Like.new_like (next_id d) u t ty (now d)))
                    (likes d)) eqn:Hk.
  { left. split; [reflexivity|]. split; [reflexivity|].
    erewrite bind_throw; [reflexivity|]. now apply toggleLike_refused. }
  right. split; [reflexivity|]. split; [reflexivity|].
  erewrite bind_ok; [|apply toggleLike_fresh_key; assumption].
  cbn [Like.liked Like.toggle_message andb].
  destruct (Nat.eqb_spec owner u) as [He|Hne]; cbn [negb].
  { left. split; [exact He|]. reflexivity. }
  right.
  destruct (findById user_id u (users d)) as [udoc|] eqn:Eu.
  - right. split; [exact Hne|]. split; [discriminate|].
    destruct (@createLikeNotification_ok u t ty owner udoc (after_like u t ty d))
      as (n & d' & Hc & Hdata & Hn & _).
    { congruence. }
    { now rewrite users_after_like. }
    { rewrite target_docs_after_like. eapply find_target_docs; eauto. }
    exists n, d'. split; [exact Hc|].
    erewrite bind_ok; [|erewrite bind_ok; [reflexivity|exact Hc]].
    split; [reflexivity|]. split; [exact Hdata|].
    now rewrite Hn, notifications_after_like.
  - left. split; [exact Hne|]. split; [reflexivity|].
    erewrite bind_throw; [reflexivity|].
    apply bind_throw. apply createLikeNotification_no_user; [congruence|].
    now rewrite users_after_like.
Qed.

(** C9.  A toggle of the like controller on an existing target.  What each
    outcome writes: a response with [liked: false] writes no notification; a
    response with [liked: true] writes exactly one, to the owner of the
    target and from the actor, when the actor is not the owner, and none when
    the actor is the owner; a toggle that ends in an error writes none.  When
    the outcomes occur: the toggle of a liked target answers [liked: false],
    and the first like of a user answers [liked: true]. *)
Theorem like_toggle_notification tstr ty targetId userId owner d :
  LikeController.target_of_string tstr = Some ty ->
  LikeController.find_target ty targetId d = (Ok (Some owner), d) ->
  let r := LikeController.toggleLike tstr targetId userId d in
  (forall st b,
     fst r = LikeController.Json st b ->
     LikeController.body_liked b = Some false ->
     notifications (snd r) = notifications d) /\
  (forall st b,
     fst r = LikeController.Json st b ->
     LikeController.body_liked b = Some true -> owner <> userId ->
     exists n,
       notifications (snd r) = notifications d ++ [n] /\
       recipient n = owner /\ sender n = Some userId /\
       ntype n = Notification.like_type_of ty) /\
  (forall st b,
     fst r = LikeController.Json st b ->
     LikeController.body_liked b = Some true -> owner = userId ->
     notifications (snd r) = notifications d) /\
  (forall e,
     fst r = LikeController.Next e -> notifications (snd r) = notifications d) /\
  (Like.isLikedBy userId targetId ty d = true ->
     exists m,
       fst r = LikeController.Json 200 (LikeController.mkBody true m (Some false))) /\
  (holds_like userId d = false ->
     owner = userId \/ findById user_id userId (users d) <> None ->
     exists m,
       fst r = LikeController.Json 200 (LikeController.mkBody true m (Some true))).
Proof.
  intros Hs Hf r. subst r.
  destruct (@toggleLike_outcomes tstr ty targetId userId owner d Hs Hf)
    as [(l & Hfind & Hr)
       |[(Hfind & Hk & Hr)
        |(Hfind & Hk & [(He & Hr)|[(Hne & Hu & Hr)|(Hne & Hu & n & d' & _ & Hr & Hdata & Hn)]])]];
    rewrite Hr; cbn [fst snd].
  - repeat split.
    + intros. apply notifications_after_unlike.
    + intros st b H Hb. injection H as <- <-. discriminate Hb.
    + intros st b H Hb. injection H as <- <-. discriminate Hb.
    + intros e H. discriminate H.
    + intros _. now eexists.
    + intros Hno _. exfalso.
      destruct (holds_like_none (next_id d) userId targetId ty (now d) d Hno) as [_ Hl].
      apply find_some in Hfind as [Hin Hq].
      assert (Like.isLikedBy userId targetId ty d = true); [|congruence].
      apply existsb_exists. now exists l.
  - repeat split; try (intros st b H; discriminate H).
    + intros Hl. exfalso. apply isLikedBy_find in Hl as [l Hl]. congruence.
    + intros Hno _. exfalso.
      destruct (holds_like_none (next_id d) userId targetId ty (now d) d Hno) as [Hk' _].
      congruence.
  - repeat split.
    + intros st b H Hb. injection H as <- <-. discriminate Hb.
    + intros st b H Hb Hne. contradiction.
    + intros. apply notifications_after_like.
    + intros e H. discriminate H.
    + intros Hl. exfalso. apply isLikedBy_find in Hl as [l Hl]. congruence.
    + intros _ _. now eexists.
  - repeat split; try (intros st b H; discriminate H).
    + intros. apply notifications_after_like.
    + intros Hl. exfalso. apply isLikedBy_find in Hl as [l Hl]. congruence.
    + intros _ [He|Hu']; [contradiction|congruence].
  - destruct Hdata as (Hrc & Hsd & Hty). repeat split.
    + intros st b H Hb. injection H as <- <-. discriminate Hb.
    + intros st b H Hb _. exists n. auto.
    + intros st b H Hb He. contradiction.
    + intros e H. discriminate H.
    + intros Hl. exfalso. apply isLikedBy_find in Hl as [l Hl]. congruence.
    + intros _ _. now eexists.
Qed.

(** ** Like controller: the duplicate-key race *)

Lemma toggleLike_at_duplicate yield u t ty d d1 :
  Like.isLikedBy u t ty d = false ->
  yield d = (Ok tt, d1) ->
  Like.isLikedBy u t ty d1 = true ->
  Like.toggleLike_at yield u t ty d =
  (Throw (DuplicateKey CLike), set_next_id (S (next_id d1)) d1).
Proof.
  intros Hno Hy Hdup. unfold Like.toggleLike_at.
  erewrite bind_ok;
    [|unfold Like.findOne, read; rewrite (find_none_existsb _ _ Hno); reflexivity].
  erewrite bind_ok; [|exact Hy].
  do 2 (erewrite bind_ok; [|reflexivity]).
  apply bind_throw. now apply save_new_like_duplicate.
Qed.

(** C2, counterexample.  The reader's first request finds no Like row; the
    second request creates it; the first request's [save] then fails on the
    unique index, and the handler passes the error to [next] instead of
    answering [liked = true]. *)
Lemma toggleLike_race_surfaces_duplicate_key :
  Like.isLikedBy 1 10 TStory race_db = false /\
  fst (Like.toggleLike_at race_yield 1 10 TStory race_db) =
    Throw (DuplicateKey CLike) /\
  fst (LikeController.toggleLike_at race_yield "story" 10 1 race_db) =
    LikeController.Next (DuplicateKey CLike) /\
  ~ (exists status b,
       fst (LikeController.toggleLike_at race_yield "story" 10 1 race_db) =
         LikeController.Json status b /\
       LikeController.body_liked b = Some true).
Proof.
  assert (H : fst (LikeController.toggleLike_at race_yield "story" 10 1 race_db) =
              LikeController.Next (DuplicateKey CLike)) by (vm_compute; reflexivity).
  repeat split; try (vm_compute; reflexivity); try exact H.
  intros (status & b & Hj & _). rewrite H in Hj. discriminate.
Qed.

(** C2, amended.  When the create step of a toggle fails on the unique index
    because the row appeared while the call was suspended, [Like.toggleLike]
    throws the duplicate-key error and the handler passes it to [next]; the
    store keeps the state the other requests left, but for the id drawn for
    the document that was not inserted. *)
Theorem toggleLike_duplicate_key_is_forwarded
        yield tstr ty targetId userId owner d d1 :
  LikeController.target_of_string tstr = Some ty ->
  LikeController.find_target ty targetId d = (Ok (Some owner), d) ->
  Like.isLikedBy userId targetId ty d = false ->
  yield d = (Ok tt, d1) ->
  Like.isLikedBy userId targetId ty d1 = true ->
  Like.toggleLike_at yield userId targetId ty d =
    (Throw (DuplicateKey CLike), set_next_id (S (next_id d1)) d1) /\
  LikeController.toggleLike_at yield tstr targetId userId d =
    (LikeController.Next (DuplicateKey CLike), set_next_id (S (next_id d1)) d1).
Proof.
  intros Hs Hf Hno Hy Hdup.
  assert (Ht : Like.toggleLike_at yield userId targetId ty d =
               (Throw (DuplicateKey CLike), set_next_id (S (next_id d1)) d1))
    by (apply toggleLike_at_duplicate; assumption).
  split; [exact Ht|].
  unfold LikeController.toggleLike_at, LikeController.handle.
  rewrite toggleLike_body_found with (ty := ty) (owner := owner) by assumption.
  now rewrite (bind_throw _ Ht).
Qed.

Lemma toggleLike_duplicate_key_is_forwarded_witness :
  Like.toggleLike_at race_yield 1 10 TStory race_db =
    (Throw (DuplicateKey CLike),
     set_next_id (S (next_id (snd (race_yield race_db)))) (snd (race_yield race_db))) /\
  LikeController.toggleLike_at race_yield "story" 10 1 race_db =
    (LikeController.Next (DuplicateKey CLike),
     set_next_id (S (next_id (snd (race_yield race_db)))) (snd (race_yield race_db))).
Proof.
  apply (@toggleLike_duplicate_key_is_forwarded
           race_yield "story" TStory 10 1 2 race_db (snd (race_yield race_db)));
    vm_compute; reflexivity.
Defined.

(** C1 at the failing input: user 3 likes story 10 and then asks to like
    chapter 20. *)
Lemma toggleLike_second_item_is_refused_witness :
  In liked_row (likes liked_db) /\ like_user liked_row = 3 /\
  single_target liked_row /\
  Like.isLikedBy 3 10 TStory liked_db = true /\
  Like.isLikedBy 3 20 TChapter liked_db = false /\
  Like.toggleLike 3 20 TChapter liked_db =
    (Throw (DuplicateKey CLike), like_refused liked_db) /\
  Like.toggleLike 3 20 TChapter (like_refused liked_db) =
    (Throw (DuplicateKey CLike), like_refused (like_refused liked_db)) /\
  ~ (exists m d1,
       Like.toggleLike 3 20 TChapter liked_db = (Ok (Like.mkToggle true m), d1)).
Proof.
  assert (H1 : In liked_row (likes liked_db)) by (left; reflexivity).
  assert (H2 : like_user liked_row = 3) by reflexivity.
  assert (H3 : single_target liked_row) by reflexivity.
  assert (H4 : Like.isLikedBy 3 20 TChapter liked_db = false)
    by (vm_compute; reflexivity).
  destruct (@toggleLike_second_item_is_refused 3 20 TChapter liked_db liked_row
              H1 H2 H3 H4) as (Ha & _ & _ & Hb & Hc).
  split; [exact H1|]. split; [exact H2|]. split; [exact H3|].
  split; [vm_compute; reflexivity|]. split; [exact H4|].
  split; [exact Ha|]. split; [exact Hb|exact Hc].
Defined.

Lemma like_toggle_notification_witness :
  LikeController.target_of_string "chapter" = Some TChapter /\
  LikeController.find_target TChapter 20 liked_db = (Ok (Some 2), liked_db) /\
  holds_like 1 liked_db = false /\
  exists m n,
    fst (LikeController.toggleLike "chapter" 20 1 liked_db) =
      LikeController.Json 200 (LikeController.mkBody true m (Some true)) /\
    notifications (snd (LikeController.toggleLike "chapter" 20 1 liked_db)) =
      notifications liked_db ++ [n] /\
    recipient n = 2 /\ sender n = Some 1 /\
    ntype n = Notification.like_type_of TChapter.
Proof.
  assert (H1 : LikeController.target_of_string "chapter" = Some TChapter)
    by (vm_compute; reflexivity).
  assert (H2 : LikeController.find_target TChapter 20 liked_db =
               (Ok (Some 2), liked_db)) by (vm_compute; reflexivity).
  assert (H3 : holds_like 1 liked_db = false) by (vm_compute; reflexivity).
  split; [exact H1|]. split; [exact H2|]. split; [exact H3|].
  destruct (@like_toggle_notification "chapter" TChapter 20 1 2 liked_db H1 H2)
    as (_ & Hone & _ & _ & _ & Hlike).
  destruct (Hlike H3) as [m Hm]; [right; discriminate|].
  destruct (Hone 200 _ Hm eq_refl) as (n & Hn); [discriminate|].
  now exists m, n.
Defined.

(** ** Frames: what a computation leaves untouched *)

Section Frame.
Variable X : Type.
Variable proj : Db -> X.

Lemma keeps_ret A (a : A) : keeps proj (ret a).
Proof. intros d; reflexivity. Qed.

Lemma keeps_throw A e : keeps proj (@throw A e).
Proof. intros d; reflexivity. Qed.

Lemma keeps_read A (f : Db -> A) : keeps proj (read f).
Proof. intros d; reflexivity. Qed.

Lemma keeps_modify (f : Db -> Db) :
  (forall d, proj (f d) = proj d) -> keeps proj (modify f).
Proof. intros H d; apply H. Qed.

Lemma keeps_bind A B (c : M A) (k : A -> M B) :
  keeps proj c -> (forall a, keeps proj (k a)) -> keeps proj (bind c k).
Proof.
  intros Hc Hk d. unfold bind. specialize (Hc d).
  destruct (c d) as [[a|e] d1]; simpl in *; [|exact Hc].
  now rewrite Hk.
Qed.

Lemma keeps_prop A B (o : option A) (f : A -> B) :
  keeps proj (Notification.prop o f).
Proof. destruct o; [apply keeps_ret|apply keeps_throw]. Qed.

End Frame.

Ltac frame_step :=
  match goal with
  | |- keeps _ (bind _ _) => apply keeps_bind; [|intros]
  | |- keeps _ (ret _) => apply keeps_ret
  | |- keeps _ (throw _) => apply keeps_throw
  | |- keeps _ (read _) => apply keeps_read
  | |- keeps _ (Notification.prop _ _) => apply keeps_prop
  | |- keeps _ (modify _) => apply keeps_modify; intros; reflexivity
  | |- keeps _ (match ?x with _ => _ end) => destruct x
  end.
Ltac frame := repeat frame_step; try (intros ?; reflexivity).

Lemma follows_like_post_hook k l : keeps follows (Like.post_hook k l).
Proof.
  unfold Like.post_hook, Story_findByIdAndUpdate, Chapter_findByIdAndUpdate,
    Comment_findByIdAndUpdate.
  frame.
Qed.

Lemma follows_like_insert l : keeps follows (Like.insert l).
Proof. intros d. unfold Like.insert. now destruct (existsb _ _). Qed.

Lemma follows_toggleLike_at yield u t ty :
  keeps follows yield -> keeps follows (Like.toggleLike_at yield u t ty).
Proof.
  intros Hy.
  unfold Like.toggleLike_at, Like.findOne, Like.remove, Like.save, Like.pre_save,
    Like.post_save, Like.post_remove.
  frame; auto using follows_like_post_hook, follows_like_insert.
Qed.

Lemma follows_createLikeNotification u t ty o :
  keeps follows (Notification.createLikeNotification u t ty o).
Proof.
  unfold Notification.createLikeNotification, Notification.createNotification. frame.
Qed.

Lemma follows_find_target ty t : keeps follows (LikeController.find_target ty t).
Proof. unfold LikeController.find_target. frame. Qed.

Lemma snd_handle body d : snd (LikeController.handle body d) = snd (body d).
Proof.
  unfold LikeController.handle. destruct (body d) as [[[st b]|e] d']; reflexivity.
Qed.

Lemma follows_controller_toggleLike tstr t u d :
  follows (snd (LikeController.toggleLike tstr t u d)) = follows d.
Proof.
  unfold LikeController.toggleLike, LikeController.toggleLike_at.
  rewrite snd_handle. revert d.
  change (keeps follows (LikeController.toggleLike_body (ret tt) tstr t u)).
  unfold LikeController.toggleLike_body.
  frame; auto using follows_find_target, follows_createLikeNotification.
  apply follows_toggleLike_at. apply keeps_ret.
Qed.

Lemma follows_checkLikeStatus tstr t u d :
  follows (snd (LikeController.checkLikeStatus tstr t u d)) = follows d.
Proof.
  unfold LikeController.checkLikeStatus. rewrite snd_handle.
  destruct (LikeController.target_of_string tstr); reflexivity.
Qed.

Lemma follows_story_save s : keeps follows (Story.save s).
Proof. unfold Story.save, Story.pre_save. frame. Qed.

Lemma follows_calculateAverageRating s :
  keeps follows (Story.calculateAverageRating s).
Proof. unfold Story.calculateAverageRating. frame; apply follows_story_save. Qed.

Lemma follows_rating_post_hook r : keeps follows (Rating.post_hook r).
Proof. unfold Rating.post_hook. frame. Qed.

Lemma follows_rating_create u s v : keeps follows (Rating.create u s v).
Proof.
  unfold Rating.create. frame; auto using follows_rating_post_hook.
  intros d. now destruct (existsb _ _).
Qed.

Lemma follows_rating_update r v : keeps follows (Rating.update r v).
Proof. unfold Rating.update. frame; auto using follows_rating_post_hook. Qed.

Lemma follows_rating_remove r : keeps follows (Rating.remove r).
Proof. unfold Rating.remove. frame; auto using follows_rating_post_hook. Qed.

Lemma follows_comment_save o c : keeps follows (Comment.save o c).
Proof. unfold Comment.save, Comment.pre_save. frame. Qed.

Lemma follows_comment_remove c : keeps follows (Comment.remove c).
Proof.
  unfold Comment.remove, Comment.post_remove, Story_findByIdAndUpdate,
    Chapter_findByIdAndUpdate, Comment_findByIdAndUpdate. frame.
Qed.

Lemma follows_insertMany xs : keeps follows (Notification.insertMany xs).
Proof. destruct xs as [|x r]; intros d; reflexivity. Qed.

Lemma follows_createNewChapterNotification a s c :
  keeps follows (Notification.createNewChapterNotification a s c).
Proof.
  unfold Notification.createNewChapterNotification. frame; apply follows_insertMany.
Qed.

Lemma follows_softDelete c : keeps follows (Comment.softDelete c).
Proof.
  unfold Comment.softDelete.
  apply keeps_bind; [apply keeps_read|intros; apply follows_comment_save].
Qed.

(** Only [ToggleFollow] writes Follow rows. *)
Lemma exec_keeps_follows op d :
  (forall a b, op <> Engine.ToggleFollow a b) ->
  follows (Engine.exec op d) = follows d.
Proof.
  intros Hop. destruct op; simpl.
  - now contradiction (Hop followerId followingId).
  - apply follows_controller_toggleLike.
  - apply follows_checkLikeStatus.
  - apply follows_rating_create.
  - apply follows_rating_update.
  - apply follows_rating_remove.
  - apply follows_softDelete.
  - apply follows_comment_remove.
  - apply follows_comment_save.
  - apply follows_comment_save.
  - apply follows_createNewChapterNotification.
Qed.

(** ** Follow: the rows a toggle leaves *)

Lemma follows_follow_post_save f : keeps follows (Follow.post_save f).
Proof. unfold Follow.post_save, User_findByIdAndUpdate. frame. Qed.

Lemma follows_follow_post_remove f : keeps follows (Follow.post_remove f).
Proof. unfold Follow.post_remove, User_findByIdAndUpdate. frame. Qed.

Lemma delete_by_id_incl A (id_of : A -> ObjectId) id l :
  incl (delete_by_id id_of id l) l.
Proof.
  induction l as [|x r IH]; simpl; [apply incl_refl|].
  destruct (id_of x =? id).
  - apply incl_tl, incl_refl.
  - apply incl_cons; [now left|]. now apply incl_tl.
Qed.

Lemma delete_by_id_NoDup_map A B (id_of : A -> ObjectId) (g : A -> B) id l :
  NoDup (map g l) -> NoDup (map g (delete_by_id id_of id l)).
Proof.
  induction l as [|x r IH]; simpl; intros H; [exact H|].
  inversion H as [|? ? Hx Hr]; subst.
  destruct (id_of x =? id); [exact Hr|].
  simpl. constructor; [|auto].
  intros Hin. apply Hx. apply in_map_iff in Hin as (y & Hy & Hin).
  apply in_map_iff. exists y. split; [exact Hy|].
  eapply delete_by_id_incl; eauto.
Qed.

Lemma follow_same_key_find a b id t l :
  existsb (Follow.same_key (Follow.new_follow id a b t)) l =
  existsb (fun f => (follower f =? a) && (following f =? b)) l.
Proof.
  induction l as [|x r IH]; simpl; [reflexivity|].
  rewrite IH. unfold Follow.same_key. simpl.
  now rewrite (Nat.eqb_sym a), (Nat.eqb_sym b).
Qed.

Lemma follows_after_toggleFollow a b d :
  follows (snd (Follow.toggleFollow a b d)) =
  if a =? b then follows d
  else match find (fun f => (follower f =? a) && (following f =? b)) (follows d) with
       | Some f => delete_by_id follow_id (follow_id f) (follows d)
       | None => follows d ++ [Follow.new_follow (next_id d) a b (now d)]
       end.
Proof.
  unfold Follow.toggleFollow, Follow.toggleFollow_at.
  destruct (Nat.eqb_spec a b) as [E|E]; [reflexivity|].
  unfold bind at 1, Follow.findOne at 1, read at 1.
  destruct (find _ (follows d)) as [f|] eqn:Hf.
  - unfold bind at 1, ret at 1. unfold Follow.remove.
    unfold bind at 1. unfold bind at 1, modify at 1.
    match goal with
    | |- context [Follow.post_remove ?f ?d] =>
        pose proof (follows_follow_post_remove f d) as H;
        destruct (Follow.post_remove f d) as [[[]|e] d']
    end; simpl in *; exact H.
  - unfold bind at 1, ret at 1. unfold bind at 1, fresh_id at 1.
    unfold bind at 1, read at 1. cbn [now set_next_id].
    unfold bind at 1. unfold Follow.save.
    unfold bind at 1, Follow.pre_save at 1. cbn [follower following Follow.new_follow].
    destruct (Nat.eqb_spec a b) as [|_]; [contradiction|]. unfold ret at 1.
    unfold bind at 1, Follow.insert at 1.
    rewrite follow_same_key_find. cbn [follows set_next_id].
    assert (Hex : existsb (fun f => (follower f =? a) && (following f =? b))
                          (follows d) = false).
    { apply not_true_is_false. intros He.
      apply existsb_exists in He as (x & Hx & Hq).
      now rewrite (find_none _ _ Hf x Hx) in Hq. }
    rewrite Hex.
    match goal with
    | |- context [Follow.post_save ?f ?d] =>
        pose proof (follows_follow_post_save f d) as H;
        destruct (Follow.post_save f d) as [[[]|e] d']
    end; simpl in *; exact H.
Qed.

Lemma follows_ok_ext d d' : follows d' = follows d -> follows_ok d -> follows_ok d'.
Proof. unfold follows_ok. now intros ->. Qed.

Lemma toggleFollow_follows_ok a b d :
  follows_ok d -> follows_ok (snd (Follow.toggleFollow a b d)).
Proof.
  intros [Hall Hnd]. unfold follows_ok. rewrite follows_after_toggleFollow.
  destruct (Nat.eqb_spec a b) as [E|E]; [now split|].
  destruct (find _ (follows d)) as [f|] eqn:Hf.
  - split.
    + eapply incl_Forall; [apply delete_by_id_incl|exact Hall].
    + now apply delete_by_id_NoDup_map.
  - split.
    + apply Forall_app. split; [exact Hall|].
      constructor; [|constructor]. split; [reflexivity|exact E].
    + rewrite map_app. simpl.
      apply (Permutation.Permutation_NoDup
               (l := (a, b) :: map (fun f => (follower f, following f)) (follows d))).
      { apply Permutation.Permutation_cons_append. }
      constructor; [|exact Hnd].
      intros Hin. apply in_map_iff in Hin as (x & Hx & Hin).
      pose proof (find_none _ _ Hf x Hin) as Hq. simpl in Hq.
      inversion Hx; subst. now rewrite !Nat.eqb_refl in Hq.
Qed.

Lemma reachable_follows_ok d : Engine.reachable d -> follows_ok d.
Proof.
  induction 1 as [d H0|d d' _ IH Hstep].
  - unfold follows_ok. rewrite H0. split; constructor.
  - destruct Hstep as [op d|d d' Hsame].
    + destruct op;
        try (eapply follows_ok_ext;
             [apply exec_keeps_follows; discriminate|exact IH]).
      now apply toggleFollow_follows_ok.
    + eapply follows_ok_ext; eauto.
Qed.

Lemma filter_active (q : FollowDoc -> bool) l :
  Forall (fun f => isActive f = true) l ->
  filter (fun f => q f && Bool.eqb (isActive f) true) l = filter q l.
Proof.
  induction 1 as [|x r Hx _ IH]; simpl; [reflexivity|].
  now rewrite Hx, andb_true_r, IH.
Qed.

Lemma existsb_active (q : FollowDoc -> bool) l :
  Forall (fun f => isActive f = true) l ->
  existsb (fun f => q f && Bool.eqb (isActive f) true) l = existsb q l.
Proof.
  induction 1 as [|x r Hx _ IH]; simpl; [reflexivity|].
  now rewrite Hx, andb_true_r, IH.
Qed.

Lemma reachable_active d :
  Engine.reachable d -> Forall (fun f => isActive f = true) (follows d).
Proof.
  intros H. apply reachable_follows_ok in H as [Hall _].
  eapply Forall_impl; [|exact Hall]. now intros f [Ha _].
Qed.

(** C10.  In every store reached by the engine all Follow rows have
    [isActive = true], so [isFollowing], [getFollowers] and [getFollowing],
    which filter on [isActive: true], return what the same queries return
    without that filter. *)
Theorem reachable_follows_are_active d :
  Engine.reachable d ->
  Forall (fun f => isActive f = true) (follows d) /\
  (forall a b, Follow.isFollowing a b d = Follow.isFollowing_unfiltered a b d) /\
  (forall u limit skip,
     Follow.getFollowers u limit skip d =
     Follow.getFollowers_unfiltered u limit skip d) /\
  (forall u limit skip,
     Follow.getFollowing u limit skip d =
     Follow.getFollowing_unfiltered u limit skip d).
Proof.
  intros Hr. pose proof (reachable_active Hr) as Ha.
  split; [exact Ha|]. split; [|split].
  - intros a b. unfold Follow.isFollowing, Follow.isFollowing_unfiltered.
    now apply (existsb_active (fun f => (follower f =? a) && (following f =? b))).
  - intros u limit skip.
    unfold Follow.getFollowers, Follow.getFollowers_unfiltered, Follow.page.
    now rewrite (filter_active (fun f => following f =? u)).
  - intros u limit skip.
    unfold Follow.getFollowing, Follow.getFollowing_unfiltered, Follow.page.
    now rewrite (filter_active (fun f => follower f =? u)).
Qed.

(** C8.  [toggleFollow] of a user on themselves throws the self-follow
    error and leaves the store as it was: no Follow row is created or removed,
    no counter changes and no write is sent, whatever other requests do.  The
    [pre('save')] hook rejects such a row in the same way. *)
Theorem toggleFollow_self_is_rejected (yield : M unit) (u : ObjectId) (d : Db) :
  Follow.toggleFollow_at yield u u d = (Throw Follow.self_follow_error, d) /\
  (forall id t,
     Follow.save (Follow.new_follow id u u t) d = (Throw Follow.self_follow_error, d)).
Proof.
  split.
  - unfold Follow.toggleFollow_at. now rewrite Nat.eqb_refl.
  - intros id t. unfold Follow.save. apply bind_throw.
    unfold Follow.pre_save. simpl. now rewrite Nat.eqb_refl.
Qed.

(** ** Notification fan-out *)

Lemma map_recipient_build_many xs id t :
  map recipient (Notification.build_many xs id t) =
  map Notification.d_recipient xs.
Proof.
  revert id. induction xs as [|x r IH]; intros id; simpl; [reflexivity|].
  now rewrite IH.
Qed.

Lemma insertMany_run xs d :
  exists d',
    Notification.insertMany xs d =
      (Ok (Notification.build_many xs (next_id d) (now d)), d') /\
    notifications d' =
      notifications d ++ Notification.build_many xs (next_id d) (now d) /\
    writes d' =
      writes d ++
      match xs with
      | [] => []
      | _ :: _ => [InsertMany CNotification
                     (map notification_id (Notification.build_many xs (next_id d) (now d)))]
      end.
Proof.
  destruct xs as [|x r].
  - exists d. simpl. now rewrite !app_nil_r.
  - eexists. split; [reflexivity|]. split; reflexivity.
Qed.

Lemma NoDup_followers_of A l :
  NoDup (map (fun f => (follower f, following f)) l) ->
  NoDup (map follower (filter (fun f => following f =? A) l)).
Proof.
  induction l as [|x r IH]; simpl; intros H; [constructor|].
  inversion H as [|? ? Hx Hr]; subst.
  destruct (Nat.eqb_spec (following x) A) as [E|E]; [|auto].
  simpl. constructor; [|auto].
  intros Hin. apply Hx. apply in_map_iff in Hin as (y & Hy & Hin).
  apply filter_In in Hin as [Hin Hq]. apply Nat.eqb_eq in Hq.
  apply in_map_iff. exists y. split; [congruence|exact Hin].
Qed.

(** C5.  For an author [A] of a reached store, [createNewChapterNotification]
    writes one notification per active follower of [A], with the follower as
    recipient and each follower once, none of them to [A], all in one
    [insertMany]; with no active follower it writes nothing. *)
Theorem new_chapter_fanout (d : Db) (A S C : ObjectId) :
  Engine.reachable d ->
  findById user_id A (users d) <> None ->
  findById story_id S (stories d) <> None ->
  findById chapter_id C (chapters d) <> None ->
  let active :=
    filter (fun f => (following f =? A) && Bool.eqb (isActive f) true) (follows d) in
  exists docs d',
    Notification.createNewChapterNotification A S C d = (Ok docs, d') /\
    map recipient docs = map follower active /\
    List.length docs = List.length active /\
    NoDup (map recipient docs) /\
    Forall (fun n => recipient n <> A) docs /\
    notifications d' = notifications d ++ docs /\
    writes d' =
      writes d ++
      match docs with
      | [] => []
      | _ :: _ => [InsertMany CNotification (map notification_id docs)]
      end.
Proof.
  intros Hr Ha Hs Hc active.
  destruct (findById user_id A (users d)) as [a|] eqn:Ea; [clear Ha|congruence].
  destruct (findById story_id S (stories d)) as [s|] eqn:Es; [clear Hs|congruence].
  destruct (findById chapter_id C (chapters d)) as [c|] eqn:Ec; [clear Hc|congruence].
  pose proof (reachable_follows_ok Hr) as [Hall Hnd].
  assert (Hact : active = filter (fun f => following f =? A) (follows d)).
  { apply (filter_active (fun f => following f =? A)). now apply reachable_active. }
  set (mk := fun follow : FollowDoc =>
    Notification.mkData (follower follow) (Some A) NNewChapter "New Chapter"
      (Notification.display_name a ++ " published Chapter " ++
       Notification.number_to_string (chapterNumber c) ++ ": " ++
       Notification.quoted (chapter_title c) ++ " in " ++
       Notification.quoted (story_title s))%string
      (Some S) (Some C) None (Some A)
      (Some ("/story/" ++ Notification.oid_to_string S ++ "/chapter/" ++
             Notification.oid_to_string C)%string)).
  destruct (insertMany_run (map mk active) d) as (d' & Hrun & Hn & Hw).
  set (docs := Notification.build_many (map mk active) (next_id d) (now d)) in *.
  assert (Hrec : map recipient docs = map follower active).
  { unfold docs. rewrite map_recipient_build_many, map_map. reflexivity. }
  exists docs, d'. split.
  { unfold Notification.createNewChapterNotification.
    do 4 (erewrite bind_ok; [|unfold read; rewrite ?Ea, ?Es, ?Ec; reflexivity]).
    fold active in Hact. rewrite <- Hact.
    erewrite bind_ok; [exact Hrun|].
    destruct active as [|f r]; [reflexivity|]. reflexivity. }
  split; [exact Hrec|].
  split. { rewrite <- (length_map recipient), Hrec. apply length_map. }
  split. { rewrite Hrec, Hact. now apply NoDup_followers_of. }
  split.
  { apply Forall_forall. intros n Hn' HA.
    assert (Hin : In (recipient n) (map follower active)).
    { rewrite <- Hrec. now apply in_map. }
    apply in_map_iff in Hin as (f & Hf & Hin). rewrite Hact in Hin.
    apply filter_In in Hin as [Hin Hq]. apply Nat.eqb_eq in Hq.
    rewrite Forall_forall in Hall. destruct (Hall f Hin) as [_ Hself].
    congruence. }
  split; [exact Hn|].
  rewrite Hw. unfold docs. destruct active; reflexivity.
Qed.

(** ** Counters *)

Lemma findById_update_hit A (id_of : A -> ObjectId) (f : A -> A) id l x :
  (forall y, id_of (f y) = id_of y) ->
  findById id_of id l = Some x ->
  findById id_of id (update_by_id id_of id f l) = Some (f x).
Proof.
  intros Hf Hx. rewrite findById_update_by_id by exact Hf.
  now rewrite Nat.eqb_refl, Hx.
Qed.

Lemma findById_update_field A B (id_of : A -> ObjectId) (p : A -> B)
      (f : A -> A) id id' l :
  (forall y, id_of (f y) = id_of y) ->
  (forall y, p (f y) = p y) ->
  option_map p (findById id_of id' (update_by_id id_of id f l)) =
  option_map p (findById id_of id' l).
Proof.
  intros Hf Hp. rewrite findById_update_by_id by exact Hf.
  destruct (id' =? id); [|reflexivity].
  destruct (findById id_of id' l); simpl; [now rewrite Hp|reflexivity].
Qed.

Lemma like_hook_story k l d sid s :
  like_type l = TStory -> like_story l = Some sid ->
  findById story_id sid (stories d) = Some s ->
  counter_of story_id totalLikes sid (stories (snd (Like.post_hook k l d))) =
  Some (totalLikes s + k)%Z.
Proof.
  intros Ht Hs Hf. unfold Like.post_hook. rewrite Ht, Hs. simpl.
  unfold counter_of. now erewrite findById_update_hit by (reflexivity || eassumption).
Qed.

Lemma like_hook_chapter k l d cid c :
  like_type l = TChapter -> like_chapter l = Some cid ->
  findById chapter_id cid (chapters d) = Some c ->
  counter_of chapter_id chapter_likes cid (chapters (snd (Like.post_hook k l d))) =
  Some (chapter_likes c + k)%Z.
Proof.
  intros Ht Hs Hf. unfold Like.post_hook. rewrite Ht, Hs.
  destruct (like_story l); simpl;
    unfold counter_of; now erewrite findById_update_hit by (reflexivity || eassumption).
Qed.

Lemma follow_post_save_following f d u :
  isActive f = true ->
  findById user_id (follower f) (users d) = Some u ->
  counter_of user_id followingCount (follower f) (users (snd (Follow.post_save f d))) =
  Some (followingCount u + 1)%Z.
Proof.
  intros Ha Hu. unfold Follow.post_save. rewrite Ha. simpl. unfold counter_of.
  rewrite findById_update_field by reflexivity.
  now erewrite findById_update_hit by (reflexivity || eassumption).
Qed.

Lemma follow_post_save_followers f d u :
  isActive f = true ->
  findById user_id (following f) (users d) = Some u ->
  counter_of user_id followersCount (following f) (users (snd (Follow.post_save f d))) =
  Some (followersCount u + 1)%Z.
Proof.
  intros Ha Hu. unfold Follow.post_save. rewrite Ha. simpl. unfold counter_of.
  assert (H : option_map followersCount
                (findById user_id (following f)
                   (update_by_id user_id (follower f)
                      (Follow.upd_following 1 (Follow.addToSet (following f))) (users d))) =
              Some (followersCount u)).
  { rewrite findById_update_field by reflexivity. now rewrite Hu. }
  destruct (findById user_id (following f) (update_by_id _ _ _ (users d))) as [u'|] eqn:E;
    [|discriminate].
  erewrite findById_update_hit by (reflexivity || eassumption).
  simpl in *. congruence.
Qed.

Lemma follow_post_remove_following f d u :
  findById user_id (follower f) (users d) = Some u ->
  counter_of user_id followingCount (follower f) (users (snd (Follow.post_remove f d))) =
  Some (followingCount u + -1)%Z.
Proof.
  intros Hu. unfold Follow.post_remove. simpl. unfold counter_of.
  rewrite findById_update_field by reflexivity.
  now erewrite findById_update_hit by (reflexivity || eassumption).
Qed.

Lemma follow_post_remove_followers f d u :
  findById user_id (following f) (users d) = Some u ->
  counter_of user_id followersCount (following f) (users (snd (Follow.post_remove f d))) =
  Some (followersCount u + -1)%Z.
Proof.
  intros Hu. unfold Follow.post_remove. simpl. unfold counter_of.
  assert (H : option_map followersCount
                (findById user_id (following f)
                   (update_by_id user_id (follower f)
                      (Follow.upd_following (-1) (Follow.pull (following f))) (users d))) =
              Some (followersCount u)).
  { rewrite findById_update_field by reflexivity. now rewrite Hu. }
  destruct (findById user_id (following f) (update_by_id _ _ _ (users d))) as [u'|] eqn:E;
    [|discriminate].
  erewrite findById_update_hit by (reflexivity || eassumption).
  simpl in *. congruence.
Qed.

Lemma comment_post_remove_story c d s :
  findById story_id (comment_story c) (stories d) = Some s ->
  counter_of story_id totalComments (comment_story c)
    (stories (snd (Comment.post_remove c d))) = Some (totalComments s + -1)%Z.
Proof.
  intros Hs. unfold Comment.post_remove.
  destruct (comment_chapter c), (parentComment c); simpl; unfold counter_of;
    now erewrite findById_update_hit by (reflexivity || eassumption).
Qed.

Lemma comment_post_remove_chapter c d cid ch :
  comment_chapter c = Some cid ->
  findById chapter_id cid (chapters d) = Some ch ->
  counter_of chapter_id commentsCount cid
    (chapters (snd (Comment.post_remove c d))) = Some (commentsCount ch + -1)%Z.
Proof.
  intros Hc Hs. unfold Comment.post_remove. rewrite Hc.
  destruct (parentComment c); simpl; unfold counter_of;
    now erewrite findById_update_hit by (reflexivity || eassumption).
Qed.

Lemma decrementLikes_clamps c d :
  findById comment_id (comment_id c) (comments d) = Some c ->
  counter_of comment_id comment_likes (comment_id c)
    (comments (snd (Comment.decrementLikes c d))) =
  Some (Z.max 0 (comment_likes c - 1)).
Proof.
  intros Hc. unfold Comment.decrementLikes, Comment.save, Comment.pre_save.
  simpl. rewrite String.eqb_refl. simpl. unfold counter_of.
  now erewrite findById_update_hit by (reflexivity || eassumption).
Qed.

Lemma counter_of_some A (id_of : A -> ObjectId) (field : A -> Z) id l v :
  counter_of id_of field id l = Some v ->
  exists x, findById id_of id l = Some x /\ field x = v.
Proof.
  unfold counter_of. destruct (findById id_of id l) as [x|]; [|discriminate].
  simpl. intros H; inversion H. eauto.
Qed.

(** C4, amended.  A hook that applies a delta to [totalLikes] of a story,
    [likes] of a chapter, [totalComments], [commentsCount], [followersCount]
    or [followingCount] leaves the field at [current + delta]: the [$inc] is
    not clamped, and a decrement of a counter at 0 gives -1.  The method
    [decrementLikes] of a comment writes [max 0 (likes - 1)]. *)
Theorem counter_delta_is_not_clamped hook fld id delta d v :
  applies hook fld id delta ->
  counter fld id d = Some v ->
  counter fld id (snd (hook d)) = Some (v + delta)%Z /\
  (forall c,
     findById comment_id (comment_id c) (comments d) = Some c ->
     counter FCommentLikes (comment_id c) (snd (Comment.decrementLikes c d)) =
     Some (Z.max 0 (comment_likes c - 1))).
Proof.
  intros Happ Hv. split; [|intros c Hc; now apply decrementLikes_clamps].
  destruct Happ; simpl in Hv |- *;
    apply counter_of_some in Hv as (x & Hx & <-).
  - eapply like_hook_story; eauto.
  - eapply like_hook_chapter; eauto.
  - now apply follow_post_save_following.
  - now apply follow_post_save_followers.
  - now apply follow_post_remove_following.
  - now apply follow_post_remove_followers.
  - now apply comment_post_remove_story.
  - eapply comment_post_remove_chapter; eauto.
Qed.

(** C4, counterexample.  Story 10 has one like, of user 3.  Two unlike
    requests of user 3 overlap: both find the row, the second removes it and
    brings [totalLikes] to 0, and the [post('remove')] hook of the first
    then decrements the counter at 0 to -1, where the claim has 0. *)
Lemma like_counter_goes_negative :
  counter FTotalLikes 10 liked_db = Some 1%Z /\
  counter FTotalLikes 10 (snd (unlike_yield liked_db)) = Some 0%Z /\
  counter FTotalLikes 10
    (snd (Like.post_remove liked_row (snd (unlike_yield liked_db)))) = Some (-1)%Z /\
  counter FTotalLikes 10
    (snd (Like.toggleLike_at unlike_yield 3 10 TStory liked_db)) = Some (-1)%Z /\
  Some (-1)%Z <> Some (Z.max 0 (0 + -1)).
Proof. repeat split; try (vm_compute; reflexivity). discriminate. Qed.

Lemma counter_delta_is_not_clamped_witness :
  applies (Like.post_remove liked_row) FTotalLikes 10 (-1) /\
  counter FTotalLikes 10 (snd (unlike_yield liked_db)) = Some 0%Z /\
  counter FTotalLikes 10
    (snd (Like.post_remove liked_row (snd (unlike_yield liked_db)))) =
    Some (0 + -1)%Z.
Proof.
  assert (Ha : applies (Like.post_remove liked_row) FTotalLikes 10 (-1))
    by (apply app_like_story; reflexivity).
  assert (Hv : counter FTotalLikes 10 (snd (unlike_yield liked_db)) = Some 0%Z)
    by reflexivity.
  split; [exact Ha|]. split; [exact Hv|].
  exact (proj1 (@counter_delta_is_not_clamped
                  (Like.post_remove liked_row) FTotalLikes 10 (-1)
                  (snd (unlike_yield liked_db)) 0 Ha Hv)).
Defined.

(** ** Sorting, limit and skip *)

Section SortFacts.
Variable A : Type.
Variable key : A -> Z.

Lemma insert_asc_perm x l : Permutation (insert_asc key x l) (x :: l).
Proof.
  induction l as [|y r IH]; simpl; [reflexivity|].
  destruct (key x <=? key y)%Z; [reflexivity|].
  rewrite IH. apply perm_swap.
Qed.

Lemma sort_asc_perm l : Permutation (sort_asc key l) l.
Proof.
  induction l as [|x r IH]; simpl; [reflexivity|].
  rewrite insert_asc_perm. now constructor.
Qed.

Lemma insert_desc_perm x l : Permutation (insert_desc key x l) (x :: l).
Proof.
  induction l as [|y r IH]; simpl; [reflexivity|].
  destruct (key y <=? key x)%Z; [reflexivity|].
  rewrite IH. apply perm_swap.
Qed.

Lemma sort_desc_perm l : Permutation (sort_desc key l) l.
Proof.
  induction l as [|x r IH]; simpl; [reflexivity|].
  rewrite insert_desc_perm. now constructor.
Qed.

Lemma insert_asc_sorted x l :
  StronglySorted (asc key) l -> StronglySorted (asc key) (insert_asc key x l).
Proof.
  induction 1 as [|y r Hr IH Hy]; simpl; [repeat constructor|].
  destruct (Z.leb_spec (key x) (key y)) as [Hle|Hlt].
  - constructor; [now constructor|].
    constructor; [exact Hle|].
    eapply Forall_impl; [|exact Hy]. unfold asc. intros; lia.
  - constructor; [exact IH|].
    eapply Permutation_Forall; [symmetry; apply insert_asc_perm|].
    constructor; [unfold asc; lia|exact Hy].
Qed.

Lemma sort_asc_sorted l : StronglySorted (asc key) (sort_asc key l).
Proof.
  induction l as [|x r IH]; simpl; [constructor|]. now apply insert_asc_sorted.
Qed.

Lemma insert_desc_sorted x l :
  StronglySorted (desc key) l -> StronglySorted (desc key) (insert_desc key x l).
Proof.
  induction 1 as [|y r Hr IH Hy]; simpl; [repeat constructor|].
  destruct (Z.leb_spec (key y) (key x)) as [Hle|Hlt].
  - constructor; [now constructor|].
    constructor; [exact Hle|].
    eapply Forall_impl; [|exact Hy]. unfold desc. intros; lia.
  - constructor; [exact IH|].
    eapply Permutation_Forall; [symmetry; apply insert_desc_perm|].
    constructor; [unfold desc; lia|exact Hy].
Qed.

Lemma sort_desc_sorted l : StronglySorted (desc key) (sort_desc key l).
Proof.
  induction l as [|x r IH]; simpl; [constructor|]. now apply insert_desc_sorted.
Qed.

End SortFacts.

Section Slices.
Variable A : Type.
Variable R : A -> A -> Prop.

Lemma firstn_incl n (l : list A) : incl (firstn n l) l.
Proof.
  intros x Hx. rewrite <- (firstn_skipn n l). apply in_or_app. now left.
Qed.

Lemma skipn_incl n (l : list A) : incl (skipn n l) l.
Proof.
  intros x Hx. rewrite <- (firstn_skipn n l). apply in_or_app. now right.
Qed.

Lemma limit_to_incl n (l : list A) : incl (limit_to n l) l.
Proof. unfold limit_to. destruct (n =? 0); [apply incl_refl|apply firstn_incl]. Qed.

Lemma StronglySorted_app_inv (l1 l2 : list A) :
  StronglySorted R (l1 ++ l2) ->
  StronglySorted R l1 /\ StronglySorted R l2 /\
  (forall a b, In a l1 -> In b l2 -> R a b).
Proof.
  induction l1 as [|x r IH]; simpl; intros H.
  - repeat split; [constructor|exact H|contradiction].
  - inversion H as [|? ? Hr Hx]; subst.
    destruct (IH Hr) as (H1 & H2 & H12).
    apply Forall_app in Hx as [Hx1 Hx2].
    repeat split; [now constructor|exact H2|].
    intros a b [<-|Ha] Hb; [|now apply H12].
    rewrite Forall_forall in Hx2. now apply Hx2.
Qed.

Lemma firstn_sorted n l : StronglySorted R l -> StronglySorted R (firstn n l).
Proof.
  intros H. rewrite <- (firstn_skipn n l) in H.
  now apply StronglySorted_app_inv in H.
Qed.

Lemma skipn_sorted n l : StronglySorted R l -> StronglySorted R (skipn n l).
Proof.
  intros H. rewrite <- (firstn_skipn n l) in H.
  now apply StronglySorted_app_inv in H.
Qed.

Lemma limit_to_sorted n l : StronglySorted R l -> StronglySorted R (limit_to n l).
Proof. unfold limit_to. destruct (n =? 0); [auto|apply firstn_sorted]. Qed.

Lemma firstn_before_rest n l a b :
  StronglySorted R l -> In a (firstn n l) -> In b (skipn n l) -> R a b.
Proof.
  intros H. rewrite <- (firstn_skipn n l) in H.
  apply StronglySorted_app_inv in H as (_ & _ & H). apply H.
Qed.

Lemma filter_sorted (p : A -> bool) l :
  StronglySorted R l -> StronglySorted R (filter p l).
Proof.
  induction 1 as [|x r Hr IH Hx]; simpl; [constructor|].
  destruct (p x); [|exact IH].
  constructor; [exact IH|].
  apply Forall_forall. intros y Hy. apply filter_In in Hy as [Hy _].
  rewrite Forall_forall in Hx. now apply Hx.
Qed.

Lemma filter_perm (p : A -> bool) l l' :
  Permutation l l' -> Permutation (filter p l) (filter p l').
Proof.
  induction 1 as [|x l l' H IH|x y l|l l' l'' H1 IH1 H2 IH2]; simpl.
  - constructor.
  - destruct (p x); [now constructor|exact IH].
  - destruct (p x), (p y); try reflexivity. apply perm_swap.
  - now transitivity (filter p l').
Qed.

Lemma filter_and (p q : A -> bool) l :
  filter p (filter q l) = filter (fun x => p x && q x) l.
Proof.
  induction l as [|x r IH]; simpl; [reflexivity|].
  destruct (q x); simpl.
  - rewrite andb_true_r. destruct (p x); now rewrite IH.
  - now rewrite andb_false_r.
Qed.

Lemma filter_all (p : A -> bool) l :
  (forall x, In x l -> p x = true) -> filter p l = l.
Proof.
  induction l as [|x r IH]; simpl; intros H; [reflexivity|].
  rewrite (H x (or_introl eq_refl)). f_equal. apply IH. intros y Hy. apply H. now right.
Qed.

(** The matching elements of a prefix are a prefix of the matching
    elements. *)
Lemma filter_firstn (p : A -> bool) n l :
  filter p (firstn n l) =
  firstn (List.length (filter p (firstn n l))) (filter p l).
Proof.
  rewrite <- (firstn_skipn n l) at 3. rewrite filter_app.
  rewrite firstn_app, Nat.sub_diag, firstn_all. simpl. now rewrite app_nil_r.
Qed.

Lemma StronglySorted_map B (f : B -> A) (l : list B) :
  StronglySorted (fun a b => R (f a) (f b)) l -> StronglySorted R (map f l).
Proof.
  induction 1 as [|x r Hr IH Hx]; simpl; constructor; [exact IH|].
  apply Forall_map. exact Hx.
Qed.

End Slices.

(** ** Comment threads *)

Lemma opt_eqb_eq a b : Comment.opt_eqb a b = true <-> a = b.
Proof.
  destruct a as [x|], b as [y|]; simpl; split; intros H;
    try discriminate; try reflexivity.
  - apply Nat.eqb_eq in H. now subst.
  - inversion H. apply Nat.eqb_refl.
Qed.

Lemma live_reply_of_spec c r :
  live_reply_of c r = true <->
  parentComment r = Some (comment_id c) /\ isDeleted r = false.
Proof.
  unfold live_reply_of. rewrite andb_true_iff, opt_eqb_eq.
  destruct (isDeleted r); simpl; intuition congruence.
Qed.

Lemma live_reply_of_listed_query tops r :
  existsb (fun c => Comment.opt_eqb (parentComment r) (Some (comment_id c))) tops
  && Bool.eqb (isDeleted r) false =
  live_reply_of_listed tops r.
Proof.
  unfold live_reply_of_listed, live_reply_of.
  induction tops as [|c tops IH]; simpl; [reflexivity|].
  rewrite <- IH.
  destruct (Comment.opt_eqb _ _), (existsb _ tops), (Bool.eqb _ _); reflexivity.
Qed.

Lemma reply_of_listed c tops r :
  In c tops ->
  reply_of c r && live_reply_of_listed tops r = live_reply_of c r.
Proof.
  intros Hc. unfold live_reply_of_listed.
  destruct (live_reply_of c r) eqn:E.
  - pose proof E as E'. unfold live_reply_of in E'.
    apply andb_true_iff in E' as [E' _]. unfold reply_of. rewrite E'. simpl.
    apply existsb_exists. now exists c.
  - unfold live_reply_of, reply_of in *.
    destruct (Comment.opt_eqb (parentComment r) (Some (comment_id c))); [|reflexivity].
    simpl in *. clear Hc. induction tops as [|c' tops IH]; simpl; [reflexivity|].
    rewrite IH, E. now rewrite andb_false_r.
Qed.

(** The replies fetched for a non-empty listing: the first
    [5 * length tops] live replies of the listed comments, oldest first. *)
Lemma nestedReplies_query_window tops d :
  tops <> [] ->
  Comment.nestedReplies_query tops d =
  firstn (5 * List.length tops)
    (sort_asc comment_createdAt (filter (live_reply_of_listed tops) (comments d))).
Proof.
  intros Hne. unfold Comment.nestedReplies_query, limit_to.
  destruct tops as [|c tops]; [congruence|].
  cbn [List.length]. replace (5 * S (List.length tops) =? 0) with false
    by (symmetry; apply Nat.eqb_neq; lia).
  f_equal. f_equal. apply filter_ext. intros r. apply live_reply_of_listed_query.
Qed.

Lemma replies_of_populate tops d c :
  map Comment.reply (Comment.populate_nestedReplies tops d c) =
  firstn 5 (filter (reply_of c) (Comment.nestedReplies_query tops d)).
Proof.
  unfold Comment.populate_nestedReplies. rewrite map_map. simpl.
  rewrite map_id. reflexivity.
Qed.

Lemma in_nestedReplies_query tops d r :
  In r (Comment.nestedReplies_query tops d) ->
  In r (comments d) /\ isDeleted r = false.
Proof.
  unfold Comment.nestedReplies_query. intros H.
  apply limit_to_incl in H.
  apply (Permutation_in _ (sort_asc_perm comment_createdAt _)) in H.
  apply filter_In in H as [Hin H]. apply andb_true_iff in H as [_ H].
  split; [exact Hin|]. now destruct (isDeleted r).
Qed.

Lemma listing_tops s ch limit skip d :
  map Comment.top (Comment.getCommentsWithReplies s ch limit skip d) =
  limit_to (default 20 limit)
    (skipn (default 0 skip)
       (sort_desc comment_createdAt
          (filter (Comment.top_query s ch) (comments d)))).
Proof.
  unfold Comment.getCommentsWithReplies. cbv zeta.
  rewrite map_map. simpl. apply map_id.
Qed.

Lemma top_in_listing s ch limit skip d v :
  In v (Comment.getCommentsWithReplies s ch limit skip d) ->
  In (Comment.top v) (comments d) /\
  Comment.top_query s ch (Comment.top v) = true /\
  Comment.nestedReplies v =
    Comment.populate_nestedReplies
      (map Comment.top (Comment.getCommentsWithReplies s ch limit skip d)) d
      (Comment.top v).
Proof.
  rewrite listing_tops.
  unfold Comment.getCommentsWithReplies. cbv zeta. intros H.
  apply in_map_iff in H as (c & <- & Hc). simpl.
  apply limit_to_incl, skipn_incl in Hc.
  apply (Permutation_in _ (sort_desc_perm comment_createdAt _)) in Hc.
  apply filter_In in Hc. tauto.
Qed.

(** C7, amended.  [getCommentsWithReplies] returns a page of the non-deleted
    top-level comments of the story (and chapter) in newest-first order:
    [limit] comments after skipping [skip].  The replies come from one
    window for the whole page: the first [5 * (number of listed comments)]
    live replies of the listed comments in oldest-first order; each listed
    comment carries the replies of that window that name it as parent, at
    most 5 of them.  So each comment carries, oldest first, a prefix of at
    most 5 of its own live replies in oldest-first order; it is the full
    five oldest when the page holds one comment, or when the window holds
    every live reply of the listed comments. *)
Theorem thread_listing_order d s ch limit skip :
  let views := Comment.getCommentsWithReplies s ch limit skip d in
  let tops := map Comment.top views in
  let replies v := map Comment.reply (Comment.nestedReplies v) in
  (exists S,
      Permutation S (filter (Comment.top_query s ch) (comments d)) /\
      StronglySorted (desc comment_createdAt) S /\
      tops = limit_to (default 20 limit) (skipn (default 0 skip) S)) /\
  (exists R,
      Permutation R (filter (live_reply_of_listed tops) (comments d)) /\
      StronglySorted (asc comment_createdAt) R /\
      Forall (fun v =>
                replies v =
                firstn 5 (filter (reply_of (Comment.top v))
                                 (firstn (5 * List.length views) R)))
             views) /\
  Forall (fun v =>
            exists Rc,
              Permutation Rc (filter (live_reply_of (Comment.top v)) (comments d)) /\
              StronglySorted (asc comment_createdAt) Rc /\
              (exists j, j <= 5 /\ replies v = firstn j Rc) /\
              (List.length views = 1 \/
               List.length (filter (live_reply_of_listed tops) (comments d))
                 <= 5 * List.length views ->
               replies v = firstn 5 Rc))
         views.
Proof.
  intros views tops replies.
  set (R := sort_asc comment_createdAt
              (filter (live_reply_of_listed tops) (comments d))).
  assert (HR : Permutation R (filter (live_reply_of_listed tops) (comments d)))
    by apply sort_asc_perm.
  assert (HRs : StronglySorted (asc comment_createdAt) R) by apply sort_asc_sorted.
  assert (Hlen : List.length tops = List.length views) by apply length_map.
  assert (Hrep : forall v, In v views ->
            replies v =
            firstn 5 (filter (reply_of (Comment.top v))
                             (firstn (5 * List.length views) R))).
  { intros v Hv.
    destruct (top_in_listing _ _ _ _ _ _ Hv) as (_ & _ & Hn).
    unfold replies. rewrite Hn, replies_of_populate.
    fold views. fold tops.
    rewrite nestedReplies_query_window.
    - now rewrite Hlen.
    - intros E. unfold tops in E. apply map_eq_nil in E.
      rewrite E in Hv. contradiction. }
  split; [|split].
  - exists (sort_desc comment_createdAt (filter (Comment.top_query s ch) (comments d))).
    split; [apply sort_desc_perm|]. split; [apply sort_desc_sorted|].
    apply listing_tops.
  - exists R. split; [exact HR|]. split; [exact HRs|].
    apply Forall_forall. exact Hrep.
  - apply Forall_forall. intros v Hv.
    set (c := Comment.top v).
    assert (Hc : In c tops) by (unfold tops, c; now apply in_map).
    exists (filter (reply_of c) R).
    split; [|split; [|split]].
    + etransitivity; [apply filter_perm; exact HR|].
      rewrite filter_and.
      erewrite filter_ext; [reflexivity|].
      intros r. now apply reply_of_listed.
    + now apply filter_sorted.
    + rewrite (Hrep v Hv). fold c.
      rewrite filter_firstn, firstn_firstn.
      eexists. split; [|reflexivity]. apply Nat.le_min_l.
    + intros [H1|Hall]; rewrite (Hrep v Hv); fold c.
      * rewrite H1. change (5 * 1) with 5.
        assert (Hall : forall r, In r R -> reply_of c r = true).
        { intros r Hr. apply (Permutation_in _ HR) in Hr.
          apply filter_In in Hr as [_ Hr].
          unfold live_reply_of_listed in Hr.
          apply existsb_exists in Hr as (c' & Hc' & Hr).
          assert (Ec : c' = c).
          { rewrite <- Hlen in H1. destruct tops as [|c0 [|c1 tl]]; try discriminate.
            destruct Hc as [<-|[]], Hc' as [<-|[]]. reflexivity. }
          subst c'. unfold live_reply_of in Hr.
          now apply andb_true_iff in Hr as [Hr _]. }
        rewrite (filter_all _ _ Hall).
        rewrite filter_all by (intros r Hr; apply Hall; now apply firstn_incl in Hr).
        rewrite firstn_firstn. reflexivity.
      * assert (Hw : firstn (5 * List.length views) R = R).
        { apply firstn_all2. now rewrite (Permutation_length HR). }
        now rewrite Hw.
Qed.

(** ** Soft delete *)


Lemma in_update_by_id_other A (id_of : A -> ObjectId) (f : A -> A) id l x :
  (forall y, id_of (f y) = id_of y) ->
  id_of x <> id ->
  In x (update_by_id id_of id f l) <-> In x l.
Proof.
  intros Hf Hx. induction l as [|y r IH]; simpl; [tauto|].
  destruct (Nat.eqb_spec (id_of y) id) as [E|E]; simpl.
  - split; intros [H|H]; auto; exfalso; subst; [rewrite Hf in Hx|]; congruence.
  - rewrite IH. tauto.
Qed.

Lemma findById_NoDup A (id_of : A -> ObjectId) l x :
  NoDup (map id_of l) -> In x l -> findById id_of (id_of x) l = Some x.
Proof.
  unfold findById. induction l as [|y r IH]; simpl; intros Hnd Hin; [contradiction|].
  inversion Hnd as [|? ? Hy Hr]; subst.
  destruct Hin as [->|Hin]; [now rewrite Nat.eqb_refl|].
  destruct (Nat.eqb_spec (id_of y) (id_of x)) as [E|E]; [|auto].
  exfalso. apply Hy. rewrite E. now apply in_map.
Qed.




(** C7, counterexample.  Comment 30 has six live replies, created at times
    1 to 6.  The listing carries the replies 31 to 35, the five oldest; the
    five most recent are 32 to 36. *)
Lemma listing_returns_oldest_replies :
  listing_ids (Comment.getCommentsWithReplies 10 None None None busy_db) =
    [(30, [31; 32; 33; 34; 35])] /\
  map comment_id (most_recent_replies_spec busy_parent busy_db) =
    [32; 33; 34; 35; 36] /\
  map (fun v => map Comment.reply (Comment.nestedReplies v))
      (Comment.getCommentsWithReplies 10 None None None busy_db) <>
    [most_recent_replies_spec busy_parent busy_db].
Proof.
  split; [vm_compute; reflexivity|]. split; [vm_compute; reflexivity|].
  vm_compute. discriminate.
Qed.

(** The window of replies is shared by the listed comments.  In
    [crowded_db] two comments are listed, so the window holds the ten oldest
    live replies of both: the seven of comment 30 and three of comment 40.
    Comment 30 carries its five oldest; comment 40 carries three of its four
    live replies.  Listed alone, comment 40 carries all four. *)
Lemma listing_shares_reply_window :
  listing_ids (Comment.getCommentsWithReplies 10 None None None crowded_db) =
    [(40, [41; 42; 43]); (30, [31; 32; 33; 34; 35])] /\
  listing_ids (Comment.getCommentsWithReplies 10 None (Some 1) None crowded_db) =
    [(40, [41; 42; 43; 44])].
Proof. split; vm_compute; reflexivity. Qed.

(** ** Rating aggregate *)


(** [rounded_tenths] is the nearest number of tenths, the upper one of
    two. *)
Lemma rounded_tenths_nearest sum n :
  (0 < n)%Z ->
  (2 * (10 * sum) - n < 2 * n * rounded_tenths sum n <= 2 * (10 * sum) + n)%Z.
Proof.
  intros Hn. unfold rounded_tenths.
  pose proof (Z.mul_div_le (20 * sum + n) (2 * n) ltac:(lia)).
  pose proof (Z.mul_succ_div_gt (20 * sum + n) (2 * n) ltac:(lia)).
  lia.
Qed.



















(** ** The engine at work *)

Lemma followed_db_reachable : Engine.reachable followed_db.
Proof.
  unfold followed_db.
  apply Engine.reachable_step with (d := Engine.exec (Engine.ToggleFollow 1 2) base_db);
    [|apply Engine.step_op].
  apply Engine.reachable_step with (d := base_db); [|apply Engine.step_op].
  apply Engine.reachable_init. reflexivity.
Defined.

Lemma reachable_follows_are_active_witness :
  Engine.reachable followed_db /\
  map (fun f => (follower f, following f, isActive f)) (follows followed_db) =
    [(1, 2, true); (3, 2, true)] /\
  Forall (fun f => isActive f = true) (follows followed_db) /\
  (forall a b,
     Follow.isFollowing a b followed_db =
     Follow.isFollowing_unfiltered a b followed_db).
Proof.
  split; [exact followed_db_reachable|]. split; [reflexivity|].
  pose proof (reachable_follows_are_active followed_db_reachable) as (Ha & Hq & _).
  split; [exact Ha|exact Hq].
Defined.

Lemma new_chapter_fanout_witness :
  Engine.reachable followed_db /\
  exists docs d',
    Notification.createNewChapterNotification 2 10 20 followed_db = (Ok docs, d') /\
    map recipient docs = [1; 3] /\
    List.length docs = 2 /\
    writes d' = writes followed_db ++
                [InsertMany CNotification (map notification_id docs)].
Proof.
  split; [exact followed_db_reachable|].
  destruct (@new_chapter_fanout followed_db 2 10 20 followed_db_reachable)
    as (docs & d' & Hrun & Hrec & Hlen & _ & _ & _ & Hw);
    try discriminate.
  exists docs, d'. split; [exact Hrun|]. split; [exact Hrec|].
  split; [exact Hlen|].
  rewrite Hw. destruct docs as [|n r]; [discriminate Hlen|reflexivity].
Defined.


(** * Further properties *)

(** ** Follow rows and counters *)

Lemma toggleFollow_follow a b d :
  a <> b ->
  Follow.isFollowing_unfiltered a b d = false ->
  Follow.toggleFollow a b d =
  (Ok (Follow.mkToggle true "Followed successfully"), after_follow a b d).
Proof.
  intros Hab Hno. unfold Follow.toggleFollow, Follow.toggleFollow_at.
  destruct (Nat.eqb_spec a b) as [|_]; [contradiction|].
  erewrite bind_ok;
    [|unfold Follow.findOne, read;
      rewrite (find_none_existsb _ _ Hno); reflexivity].
  do 3 (erewrite bind_ok; [|reflexivity]).
  erewrite bind_ok; [reflexivity|].
  unfold Follow.save.
  erewrite bind_ok.
  2:{ unfold Follow.pre_save. simpl.
      destruct (Nat.eqb_spec a b) as [|_]; [contradiction|reflexivity]. }
  erewrite bind_ok; [reflexivity|].
  unfold Follow.insert. rewrite follow_same_key_find. simpl.
  unfold Follow.isFollowing_unfiltered in Hno. now rewrite Hno.
Qed.

Lemma toggleFollow_unfollow a b d f :
  a <> b ->
  find (fun f => (follower f =? a) && (following f =? b)) (follows d) = Some f ->
  Follow.toggleFollow a b d =
  (Ok (Follow.mkToggle false "Unfollowed successfully"), after_unfollow f d).
Proof.
  intros Hab Hf. unfold Follow.toggleFollow, Follow.toggleFollow_at.
  destruct (Nat.eqb_spec a b) as [|_]; [contradiction|].
  erewrite bind_ok; [|unfold Follow.findOne, read; rewrite Hf; reflexivity].
  erewrite bind_ok; [|reflexivity].
  erewrite bind_ok; [reflexivity|reflexivity].
Qed.

Lemma users_after_follow a b d :
  users (after_follow a b d) =
  update_by_id user_id b (Follow.upd_followers 1 (Follow.addToSet a))
    (update_by_id user_id a (Follow.upd_following 1 (Follow.addToSet b)) (users d)).
Proof. reflexivity. Qed.

Lemma users_after_unfollow f d :
  users (after_unfollow f d) =
  update_by_id user_id (following f)
    (Follow.upd_followers (-1) (Follow.pull (follower f)))
    (update_by_id user_id (follower f)
       (Follow.upd_following (-1) (Follow.pull (following f))) (users d)).
Proof. reflexivity. Qed.

Lemma follows_after_follow a b d :
  follows (after_follow a b d) =
  follows d ++ [Follow.new_follow (next_id d) a b (now d)].
Proof. reflexivity. Qed.

Lemma follows_after_unfollow f d :
  follows (after_unfollow f d) = delete_by_id follow_id (follow_id f) (follows d).
Proof. reflexivity. Qed.

(** The counters of a user after the two updates of a follow hook. *)
Lemma follow_hook_counters a b k fa fb u l doc' :
  findById user_id u
    (update_by_id user_id b (Follow.upd_followers k fb)
       (update_by_id user_id a (Follow.upd_following k fa) l)) = Some doc' ->
  exists doc,
    findById user_id u l = Some doc /\
    followersCount doc' = (followersCount doc + if Nat.eqb u b then k else 0)%Z /\
    followingCount doc' = (followingCount doc + if Nat.eqb u a then k else 0)%Z.
Proof.
  rewrite !findById_update_by_id by reflexivity.
  destruct (findById user_id u l) as [doc|]; [|now destruct (u =? a), (u =? b)].
  intros H. exists doc. split; [reflexivity|].
  destruct (u =? a), (u =? b); simpl in H; inversion H; subst; simpl; lia.
Qed.

Lemma filter_delete_by_id A (id_of : A -> ObjectId) (p : A -> bool) l x :
  NoDup (map id_of l) -> In x l ->
  List.length (filter p (delete_by_id id_of (id_of x) l)) + (if p x then 1 else 0) =
  List.length (filter p l).
Proof.
  induction l as [|y r IH]; simpl; intros Hnd Hin; [contradiction|].
  inversion Hnd as [|? ? Hy Hr]; subst.
  destruct (Nat.eqb_spec (id_of y) (id_of x)) as [E|E].
  - assert (y = x).
    { destruct Hin as [|Hin]; [assumption|].
      exfalso. apply Hy. rewrite E. now apply in_map. }
    subst. destruct (p x); simpl; lia.
  - destruct Hin as [|Hin]; [congruence|].
    simpl. specialize (IH Hr Hin). destruct (p y); simpl; lia.
Qed.

Lemma follow_ids_after_follow a b d :
  follow_ids_ok d -> follow_ids_ok (after_follow a b d).
Proof.
  intros [Hnd Hfr]. unfold follow_ids_ok. rewrite follows_after_follow.
  change (next_id (after_follow a b d)) with (S (next_id d)).
  split.
  - rewrite map_app. simpl.
    apply (Permutation_NoDup (l := next_id d :: map follow_id (follows d)));
      [apply Permutation_cons_append|].
    constructor; [|exact Hnd].
    intros Hin. apply in_map_iff in Hin as (f & Hf & Hin).
    rewrite Forall_forall in Hfr. specialize (Hfr f Hin). lia.
  - apply Forall_app. split.
    + eapply Forall_impl; [|exact Hfr]. simpl. intros; lia.
    + constructor; [simpl; lia|constructor].
Qed.

Lemma follow_ids_after_unfollow f d :
  follow_ids_ok d -> follow_ids_ok (after_unfollow f d).
Proof.
  intros [Hnd Hfr]. unfold follow_ids_ok. rewrite follows_after_unfollow.
  change (next_id (after_unfollow f d)) with (next_id d).
  split; [now apply delete_by_id_NoDup_map|now apply delete_by_id_Forall].
Qed.

Lemma follow_counters_after_follow a b d :
  follow_counters_ok d -> follow_counters_ok (after_follow a b d).
Proof.
  intros Hok u doc' Hdoc'. rewrite users_after_follow in Hdoc'.
  apply follow_hook_counters in Hdoc' as (doc & Hdoc & Hfs & Hfg).
  destruct (Hok u doc Hdoc) as [H1 H2].
  unfold followers_count, following_count. rewrite follows_after_follow.
  rewrite !filter_app, !length_app. simpl.
  rewrite Hfs, Hfg, H1, H2. unfold followers_count, following_count.
  rewrite (Nat.eqb_sym b u), (Nat.eqb_sym a u).
  destruct (u =? a), (u =? b); simpl; lia.
Qed.

Lemma follow_counters_after_unfollow f d :
  NoDup (map follow_id (follows d)) -> In f (follows d) ->
  follow_counters_ok d -> follow_counters_ok (after_unfollow f d).
Proof.
  intros Hnd Hin Hok u doc' Hdoc'. rewrite users_after_unfollow in Hdoc'.
  apply follow_hook_counters in Hdoc' as (doc & Hdoc & Hfs & Hfg).
  destruct (Hok u doc Hdoc) as [H1 H2].
  unfold followers_count, following_count in *. rewrite follows_after_unfollow.
  pose proof (@filter_delete_by_id _ follow_id (fun g => following g =? u)
                _ f Hnd Hin) as E1.
  pose proof (@filter_delete_by_id _ follow_id (fun g => follower g =? u)
                _ f Hnd Hin) as E2.
  simpl in E1, E2.
  rewrite Hfs, Hfg, H1, H2.
  rewrite (Nat.eqb_sym u (following f)), (Nat.eqb_sym u (follower f)).
  destruct (following f =? u), (follower f =? u); lia.
Qed.

(** X7.  [toggleFollow] keeps [followersCount] and [followingCount] of
    every user equal to the numbers of Follow rows that name the user, and
    keeps the ids of the rows distinct; this holds for the follow, the
    unfollow and the rejected self-follow. *)
Theorem toggleFollow_keeps_counters a b d :
  follow_ids_ok d ->
  follow_counters_ok d ->
  follow_ids_ok (snd (Follow.toggleFollow a b d)) /\
  follow_counters_ok (snd (Follow.toggleFollow a b d)).
Proof.
  intros Hids Hok.
  destruct (Nat.eqb_spec a b) as [E|E].
  { subst. unfold Follow.toggleFollow, Follow.toggleFollow_at.
    rewrite Nat.eqb_refl. now split. }
  destruct (find (fun f => (follower f =? a) && (following f =? b)) (follows d))
    as [f|] eqn:Hf.
  - rewrite toggleFollow_unfollow with (f := f) by assumption. simpl.
    apply find_some in Hf as [Hin _].
    split; [now apply follow_ids_after_unfollow|].
    apply follow_counters_after_unfollow; auto. apply Hids.
  - assert (Hno : Follow.isFollowing_unfiltered a b d = false).
    { unfold Follow.isFollowing_unfiltered. apply not_true_is_false. intros He.
      apply existsb_exists in He as (x & Hx & Hq).
      now rewrite (find_none _ _ Hf x Hx) in Hq. }
    rewrite toggleFollow_follow by assumption. simpl.
    split; [now apply follow_ids_after_follow|now apply follow_counters_after_follow].
Qed.

(** ** Updates by id *)

Lemma update_by_id_fuse A (id_of : A -> ObjectId) (f g : A -> A) a l :
  (forall x, id_of (f x) = id_of x) ->
  update_by_id id_of a g (update_by_id id_of a f l) =
  update_by_id id_of a (fun x => g (f x)) l.
Proof.
  intros Hf. induction l as [|x r IH]; simpl; [reflexivity|].
  destruct (Nat.eqb_spec (id_of x) a) as [E|E]; simpl.
  - now rewrite Hf, E, Nat.eqb_refl.
  - destruct (Nat.eqb_spec (id_of x) a); [contradiction|]. now rewrite IH.
Qed.

Lemma update_by_id_comm A (id_of : A -> ObjectId) (f g : A -> A) a b l :
  a <> b ->
  (forall x, id_of (f x) = id_of x) ->
  (forall x, id_of (g x) = id_of x) ->
  update_by_id id_of a f (update_by_id id_of b g l) =
  update_by_id id_of b g (update_by_id id_of a f l).
Proof.
  intros Hab Hf Hg. induction l as [|x r IH]; simpl; [reflexivity|].
  destruct (Nat.eqb_spec (id_of x) b) as [Eb|Eb];
    destruct (Nat.eqb_spec (id_of x) a) as [Ea|Ea]; simpl.
  - congruence.
  - rewrite Hg. destruct (Nat.eqb_spec (id_of x) a); [contradiction|].
    destruct (Nat.eqb_spec (id_of x) b); [reflexivity|contradiction].
  - rewrite Hf. destruct (Nat.eqb_spec (id_of x) a); [|contradiction].
    destruct (Nat.eqb_spec (id_of x) b); [contradiction|reflexivity].
  - destruct (Nat.eqb_spec (id_of x) a); [contradiction|].
    destruct (Nat.eqb_spec (id_of x) b); [contradiction|]. now rewrite IH.
Qed.

Lemma update_by_id_fixed A (id_of : A -> ObjectId) (f : A -> A) a l :
  (forall x, findById id_of a l = Some x -> f x = x) ->
  update_by_id id_of a f l = l.
Proof.
  unfold findById. induction l as [|x r IH]; simpl; intros H; [reflexivity|].
  destruct (id_of x =? a); [now rewrite H|]. now rewrite IH.
Qed.

Lemma pull_absent x l : ~ In x l -> Follow.pull x l = l.
Proof.
  unfold Follow.pull. induction l as [|y r IH]; simpl; intros Hx; [reflexivity|].
  destruct (Nat.eqb_spec y x) as [E|E]; simpl.
  - exfalso. apply Hx. now left.
  - rewrite IH; [reflexivity|]. intros Hin. apply Hx. now right.
Qed.

Lemma pull_app x l r : Follow.pull x (l ++ r) = Follow.pull x l ++ Follow.pull x r.
Proof. unfold Follow.pull. apply filter_app. Qed.

Lemma pull_addToSet x l :
  ~ In x l -> Follow.pull x (Follow.addToSet x l) = l.
Proof.
  intros Hx. unfold Follow.addToSet.
  destruct (existsb (Nat.eqb x) l) eqn:He.
  - now apply pull_absent.
  - rewrite pull_app, pull_absent by exact Hx.
    unfold Follow.pull. simpl. rewrite Nat.eqb_refl. simpl. apply app_nil_r.
Qed.

(** X6.  Following and then unfollowing is a round trip: from a store
    where [a] does not follow [b], the first toggle answers [following: true]
    and [isFollowing] holds, the second answers [following: false], and the
    Follow rows and all user documents, counters and arrays included, are
    again what they were. *)
Theorem toggleFollow_twice (a b : ObjectId) (d : Db) :
  a <> b ->
  Forall (fun f => follow_id f < next_id d) (follows d) ->
  Follow.isFollowing_unfiltered a b d = false ->
  (forall doc, findById user_id a (users d) = Some doc -> ~ In b (user_following doc)) ->
  (forall doc, findById user_id b (users d) = Some doc -> ~ In a (user_followers doc)) ->
  exists m1 m2 d1 d2,
    Follow.toggleFollow a b d = (Ok (Follow.mkToggle true m1), d1) /\
    Follow.isFollowing a b d1 = true /\
    Follow.toggleFollow a b d1 = (Ok (Follow.mkToggle false m2), d2) /\
    Follow.isFollowing a b d2 = false /\
    follows d2 = follows d /\
    users d2 = users d.
Proof.
  intros Hab Hfr Hno Ha Hb.
  set (f0 := Follow.new_follow (next_id d) a b (now d)).
  set (q := fun f => (follower f =? a) && (following f =? b)).
  assert (Hq : q f0 = true) by (unfold q; simpl; now rewrite !Nat.eqb_refl).
  assert (Hfind : find q (follows (after_follow a b d)) = Some f0).
  { rewrite follows_after_follow. now apply find_app_last. }
  assert (Hf2 : follows (after_unfollow f0 (after_follow a b d)) = follows d).
  { rewrite follows_after_unfollow, follows_after_follow.
    apply delete_by_id_app_last. exact Hfr. }
  exists "Followed successfully"%string, "Unfollowed successfully"%string,
    (after_follow a b d), (after_unfollow f0 (after_follow a b d)).
  split; [now apply toggleFollow_follow|].
  split.
  { unfold Follow.isFollowing. rewrite follows_after_follow, existsb_app. simpl.
    rewrite !Nat.eqb_refl. simpl. now rewrite orb_true_r. }
  split; [now apply toggleFollow_unfollow|].
  split.
  { unfold Follow.isFollowing. rewrite Hf2.
    apply not_true_is_false. intros He.
    apply existsb_exists in He as (x & Hx & Hx').
    apply andb_true_iff in Hx' as [Hx' _].
    unfold Follow.isFollowing_unfiltered in Hno.
    assert (existsb q (follows d) = true) by (apply existsb_exists; eauto).
    unfold q in *. congruence. }
  split; [exact Hf2|].
  rewrite users_after_unfollow, users_after_follow. simpl.
  rewrite (update_by_id_comm user_id
             (Follow.upd_following (-1) (Follow.pull b))
             (Follow.upd_followers 1 (Follow.addToSet a))) by (auto || reflexivity).
  rewrite !update_by_id_fuse by reflexivity.
  rewrite (update_by_id_fixed user_id _ a (users d)).
  - apply update_by_id_fixed. intros x Hx. specialize (Hb x Hx).
    destruct x; unfold Follow.upd_followers; simpl in *.
    rewrite pull_addToSet by exact Hb. f_equal. lia.
  - intros x Hx. specialize (Ha x Hx).
    destruct x; unfold Follow.upd_following; simpl in *.
    rewrite pull_addToSet by exact Ha. f_equal. lia.
Qed.

(** ** Like rows and counters *)

Lemma type_eqb_refl ty : type_eqb ty ty = true.
Proof. now destruct ty. Qed.

Lemma like_target_new_like id u t ty z :
  like_target (Like.new_like id u t ty z) = Some (ty, t).
Proof. now destruct ty. Qed.

Lemma stories_post_hook k l d s' doc' :
  findById story_id s' (stories (snd (Like.post_hook k l d))) = Some doc' ->
  exists doc,
    findById story_id s' (stories d) = Some doc /\
    totalLikes doc' = (totalLikes doc + if targets TStory s' l then k else 0)%Z.
Proof.
  unfold Like.post_hook, targets, like_target.
  destruct (like_type l), (like_story l) as [s|], (like_chapter l) as [c|],
    (like_comment l) as [m|]; simpl;
    try (intros H; exists doc'; split; [exact H|lia]).
  all: rewrite findById_update_by_id by reflexivity.
  all: rewrite (Nat.eqb_sym s s').
  all: destruct (s' =? s); [|intros H; exists doc'; split; [exact H|lia]].
  all: destruct (findById story_id s' (stories d)) as [doc|]; [|discriminate].
  all: simpl; intros H; inversion H; subst; exists doc; split; [reflexivity|].
  all: reflexivity.
Qed.

Lemma chapters_post_hook k l d c' doc' :
  findById chapter_id c' (chapters (snd (Like.post_hook k l d))) = Some doc' ->
  exists doc,
    findById chapter_id c' (chapters d) = Some doc /\
    chapter_likes doc' = (chapter_likes doc + if targets TChapter c' l then k else 0)%Z.
Proof.
  unfold Like.post_hook, targets, like_target.
  destruct (like_type l), (like_story l) as [s|], (like_chapter l) as [c|],
    (like_comment l) as [m|]; simpl;
    try (intros H; exists doc'; split; [exact H|lia]).
  all: rewrite findById_update_by_id by reflexivity.
  all: rewrite (Nat.eqb_sym c c').
  all: destruct (c' =? c); [|intros H; exists doc'; split; [exact H|lia]].
  all: destruct (findById chapter_id c' (chapters d)) as [doc|]; [|discriminate].
  all: simpl; intros H; inversion H; subst; exists doc; split; [reflexivity|].
  all: reflexivity.
Qed.

Lemma comments_post_hook k l d c' doc' :
  findById comment_id c' (comments (snd (Like.post_hook k l d))) = Some doc' ->
  exists doc,
    findById comment_id c' (comments d) = Some doc /\
    comment_likes doc' = (comment_likes doc + if targets TComment c' l then k else 0)%Z.
Proof.
  unfold Like.post_hook, targets, like_target.
  destruct (like_type l), (like_story l) as [s|], (like_chapter l) as [c|],
    (like_comment l) as [m|]; simpl;
    try (intros H; exists doc'; split; [exact H|lia]).
  all: rewrite findById_update_by_id by reflexivity.
  all: rewrite (Nat.eqb_sym m c').
  all: destruct (c' =? m); [|intros H; exists doc'; split; [exact H|lia]].
  all: destruct (findById comment_id c' (comments d)) as [doc|]; [|discriminate].
  all: simpl; intros H; inversion H; subst; exists doc; split; [reflexivity|].
  all: reflexivity.
Qed.

Lemma like_count_after_like ty' id' u t ty d :
  like_count ty' id' (after_like u t ty d) =
  like_count ty' id' d +
  (if targets ty' id' (Like.new_like (next_id d) u t ty (now d)) then 1 else 0).
Proof.
  unfold like_count. rewrite likes_after_like, filter_app, length_app. simpl.
  now destruct (targets ty' id' _).
Qed.

Lemma like_count_after_unlike ty' id' l d :
  NoDup (map like_id (likes d)) -> In l (likes d) ->
  like_count ty' id' (after_unlike l d) + (if targets ty' id' l then 1 else 0) =
  like_count ty' id' d.
Proof.
  intros Hnd Hin. unfold like_count. rewrite likes_after_unlike.
  now apply filter_delete_by_id.
Qed.

Lemma like_counters_after_like u t ty d :
  like_counters_ok d -> like_counters_ok (after_like u t ty d).
Proof.
  intros (Hs & Hc & Hm).
  set (l := Like.new_like (next_id d) u t ty (now d)).
  unfold like_counters_ok. repeat split; intros id doc' Hdoc';
    rewrite like_count_after_like; fold l;
    unfold after_like, Like.post_save in Hdoc'; fold l in Hdoc'.
  - apply stories_post_hook in Hdoc' as (doc & Hdoc & ->).
    rewrite (Hs id doc Hdoc). destruct (targets TStory id l); lia.
  - apply chapters_post_hook in Hdoc' as (doc & Hdoc & ->).
    rewrite (Hc id doc Hdoc). destruct (targets TChapter id l); lia.
  - apply comments_post_hook in Hdoc' as (doc & Hdoc & ->).
    rewrite (Hm id doc Hdoc). destruct (targets TComment id l); lia.
Qed.

Lemma like_counters_after_unlike l d :
  NoDup (map like_id (likes d)) -> In l (likes d) ->
  like_counters_ok d -> like_counters_ok (after_unlike l d).
Proof.
  intros Hnd Hin (Hs & Hc & Hm).
  unfold like_counters_ok. repeat split; intros id doc' Hdoc';
    unfold after_unlike, Like.post_remove in Hdoc'.
  - apply stories_post_hook in Hdoc' as (doc & Hdoc & ->).
    pose proof (@like_count_after_unlike TStory id l d Hnd Hin) as E.
    rewrite (Hs id doc Hdoc). destruct (targets TStory id l); lia.
  - apply chapters_post_hook in Hdoc' as (doc & Hdoc & ->).
    pose proof (@like_count_after_unlike TChapter id l d Hnd Hin) as E.
    rewrite (Hc id doc Hdoc). destruct (targets TChapter id l); lia.
  - apply comments_post_hook in Hdoc' as (doc & Hdoc & ->).
    pose proof (@like_count_after_unlike TComment id l d Hnd Hin) as E.
    rewrite (Hm id doc Hdoc). destruct (targets TComment id l); lia.
Qed.

Lemma like_ids_after_like u t ty d :
  like_ids_ok d -> like_ids_ok (after_like u t ty d).
Proof.
  intros [Hnd Hfr]. split; [|now apply likes_fresh_after_like].
  rewrite likes_after_like, map_app. simpl. rewrite like_id_new_like.
  apply (Permutation_NoDup (l := next_id d :: map like_id (likes d)));
    [apply Permutation_cons_append|].
  constructor; [|exact Hnd].
  intros Hin. apply in_map_iff in Hin as (f & Hf & Hin).
  unfold likes_fresh in Hfr. rewrite Forall_forall in Hfr.
  specialize (Hfr f Hin). lia.
Qed.

Lemma like_ids_after_unlike l d :
  like_ids_ok d -> like_ids_ok (after_unlike l d).
Proof.
  intros [Hnd Hfr]. split; [|now apply likes_fresh_after_unlike].
  rewrite likes_after_unlike. now apply delete_by_id_NoDup_map.
Qed.

Lemma like_ids_refused d : like_ids_ok d -> like_ids_ok (like_refused d).
Proof.
  intros [Hnd Hfr]. split; [exact Hnd|].
  unfold likes_fresh in *. simpl.
  eapply Forall_impl; [|exact Hfr]. simpl. intros; lia.
Qed.

(** X2.  [toggleLike] keeps every like counter equal to the number of
    Like rows of its entity: when [totalLikes] of each story, [likes] of each
    chapter and [likes] of each comment count the rows that target them, and
    the ids of the rows are distinct, the same holds after a toggle, whether
    it likes or unlikes. *)
Theorem toggleLike_keeps_counters u t ty d :
  like_ids_ok d ->
  like_counters_ok d ->
  like_ids_ok (snd (Like.toggleLike u t ty d)) /\
  like_counters_ok (snd (Like.toggleLike u t ty d)).
Proof.
  intros Hids Hok.
  destruct (find (Like.query u t ty) (likes d)) as [l|] eqn:Hf.
  - rewrite toggleLike_unlike with (l := l) by exact Hf. simpl.
    apply find_some in Hf as [Hin _].
    split; [now apply like_ids_after_unlike|].
    apply like_counters_after_unlike; auto. apply Hids.
  - destruct (existsb (Like.same_key (Like.new_like (next_id d) u t ty (now d)))
                      (likes d)) eqn:Hk.
    + rewrite toggleLike_refused by assumption. simpl.
      split; [now apply like_ids_refused|exact Hok].
    + rewrite toggleLike_fresh_key by assumption. simpl.
      split; [now apply like_ids_after_like|now apply like_counters_after_like].
Qed.

(** ** Like rows and the unique indexes *)

Lemma query_key u t ty l :
  single_target l ->
  Like.query u t ty l = true <-> like_key l = key_of u t ty.
Proof.
  unfold single_target, Like.query, like_key, key_of, oid_is.
  destruct l as [i lu ls lc lm lty z]; simpl.
  destruct ty, ls as [s|], lc as [c|], lm as [m|]; simpl; intros H;
    try discriminate H;
    rewrite ?andb_true_iff, ?Nat.eqb_eq;
    (split; [intros [-> E]; try discriminate E; try (subst; reflexivity)
            |intros E; inversion E; subst; try (split; reflexivity)]).
Qed.

Lemma key_of_inj u t ty u' t' ty' :
  key_of u t ty = key_of u' t' ty' -> (u, t, ty) = (u', t', ty').
Proof. unfold key_of, like_key; destruct ty, ty'; simpl; intros E; inversion E; reflexivity. Qed.

Lemma single_target_new_like id u t ty z : single_target (Like.new_like id u t ty z).
Proof. now destruct ty. Qed.

Lemma like_key_new_like id u t ty z : like_key (Like.new_like id u t ty z) = key_of u t ty.
Proof. now destruct ty. Qed.

Lemma isLikedBy_key u t ty d :
  Forall single_target (likes d) ->
  Like.isLikedBy u t ty d = true <-> In (key_of u t ty) (map like_key (likes d)).
Proof.
  intros Hs. unfold Like.isLikedBy. rewrite existsb_exists, in_map_iff.
  rewrite Forall_forall in Hs.
  split; intros (x & H1 & H2).
  - exists x. split; [|exact H1]. now apply query_key; [apply Hs|].
  - exists x. split; [exact H2|]. now apply query_key; [apply Hs|].
Qed.

Lemma NoDup_map_eq A B (f : A -> B) l x y :
  NoDup (map f l) -> In x l -> In y l -> f x = f y -> x = y.
Proof.
  induction l as [|z r IH]; simpl; intros Hnd Hx Hy E; [contradiction|].
  inversion Hnd as [|? ? Hz Hr]; subst.
  destruct Hx as [->|Hx], Hy as [->|Hy]; auto.
  - exfalso. apply Hz. rewrite E. now apply in_map.
  - exfalso. apply Hz. rewrite <- E. now apply in_map.
Qed.

Lemma in_delete_by_id A (id_of : A -> ObjectId) id l x :
  NoDup (map id_of l) ->
  In x (delete_by_id id_of id l) <-> In x l /\ id_of x <> id.
Proof.
  induction l as [|y r IH]; simpl; intros Hnd; [tauto|].
  inversion Hnd as [|? ? Hy Hr]; subst.
  destruct (Nat.eqb_spec (id_of y) id) as [E|E].
  - split.
    + intros Hin. split; [now right|]. intros Ex. apply Hy.
      rewrite E, <- Ex. now apply in_map.
    + intros [[->|Hin] Hx]; [contradiction|exact Hin].
  - simpl. rewrite (IH Hr). split.
    + intros [->|[Hin Hx]]; [split; [now left|exact E]|split; [now right|exact Hx]].
    + intros [[->|Hin] Hx]; [now left|right; now split].
Qed.

Lemma likes_wf_after_like u t ty d :
  likes_wf d -> Like.isLikedBy u t ty d = false -> likes_wf (after_like u t ty d).
Proof.
  intros (Hids & Hs & Hk) Hno. split; [now apply like_ids_after_like|].
  rewrite likes_after_like. split.
  - apply Forall_app. split; [exact Hs|]. constructor; [|constructor].
    apply single_target_new_like.
  - rewrite map_app. simpl. rewrite like_key_new_like.
    apply (Permutation_NoDup (l := key_of u t ty :: map like_key (likes d)));
      [apply Permutation_cons_append|].
    constructor; [|exact Hk].
    intros Hin. apply (isLikedBy_key u t ty _ Hs) in Hin. congruence.
Qed.

Lemma likes_wf_after_unlike l d : likes_wf d -> likes_wf (after_unlike l d).
Proof.
  intros (Hids & Hs & Hk). split; [now apply like_ids_after_unlike|].
  rewrite likes_after_unlike. split.
  - now apply delete_by_id_Forall.
  - now apply delete_by_id_NoDup_map.
Qed.

Lemma find_query_none u t ty d :
  find (Like.query u t ty) (likes d) = None -> Like.isLikedBy u t ty d = false.
Proof.
  intros Hf. unfold Like.isLikedBy. apply not_true_is_false. intros He.
  apply existsb_exists in He as (x & Hx & Hq).
  now rewrite (find_none _ _ Hf x Hx) in Hq.
Qed.

Lemma find_query_some u t ty d l :
  find (Like.query u t ty) (likes d) = Some l -> Like.isLikedBy u t ty d = true.
Proof.
  intros Hf. apply find_some in Hf as [Hin Hq].
  unfold Like.isLikedBy. apply existsb_exists. now exists l.
Qed.

(** X3.  [toggleLike] keeps the Like collection within its unique
    indexes: distinct ids, one target per row, and no two rows of one user for
    one target. *)
Theorem toggleLike_keeps_rows_unique u t ty d :
  likes_wf d -> likes_wf (snd (Like.toggleLike u t ty d)).
Proof.
  intros Hwf.
  destruct (find (Like.query u t ty) (likes d)) as [l|] eqn:Hf.
  - rewrite toggleLike_unlike with (l := l) by exact Hf. simpl.
    now apply likes_wf_after_unlike.
  - destruct (existsb (Like.same_key (Like.new_like (next_id d) u t ty (now d)))
                      (likes d)) eqn:Hk.
    + rewrite toggleLike_refused by assumption. simpl.
      destruct Hwf as (Hids & Hs & Hkeys).
      split; [now apply like_ids_refused|]. split; assumption.
    + rewrite toggleLike_fresh_key by assumption. simpl.
      apply likes_wf_after_like; [exact Hwf|now apply find_query_none].
Qed.

Lemma keys_after_unlike u t ty l d :
  likes_wf d -> In l (likes d) -> like_key l = key_of u t ty ->
  forall K,
    In K (map like_key (likes (after_unlike l d))) <->
    In K (map like_key (likes d)) /\ K <> key_of u t ty.
Proof.
  intros (Hids & Hs & Hk) Hin Hkl K.
  rewrite likes_after_unlike, !in_map_iff. split.
  - intros (x & Hx & Hxin).
    apply in_delete_by_id in Hxin as [Hxin Hne]; [|apply Hids].
    split; [now exists x|]. intros HK. apply Hne.
    assert (x = l); [|now subst].
    apply (@NoDup_map_eq _ _ like_key (likes d)); auto. congruence.
  - intros [(x & Hx & Hxin) HK]. exists x. split; [exact Hx|].
    apply in_delete_by_id; [apply Hids|]. split; [exact Hxin|].
    intros He. apply HK. rewrite <- Hx, <- Hkl. f_equal.
    apply (@NoDup_map_eq _ _ like_id (likes d)); auto. apply Hids.
Qed.

Lemma keys_after_like u t ty d K :
  In K (map like_key (likes (after_like u t ty d))) <->
  In K (map like_key (likes d)) \/ K = key_of u t ty.
Proof.
  rewrite likes_after_like, map_app, in_app_iff. simpl.
  rewrite like_key_new_like. intuition congruence.
Qed.

Lemma find_query_key u t ty d l :
  likes_wf d -> find (Like.query u t ty) (likes d) = Some l ->
  In l (likes d) /\ like_key l = key_of u t ty.
Proof.
  intros (_ & Hs & _) Hf. apply find_some in Hf as [Hin Hq].
  split; [exact Hin|]. apply query_key; [|exact Hq].
  rewrite Forall_forall in Hs. now apply Hs.
Qed.

Lemma holds_like_collision id u t ty z d :
  Forall single_target (likes d) ->
  holds_like u d = true ->
  existsb (Like.same_key (Like.new_like id u t ty z)) (likes d) = true.
Proof.
  intros Hs H. apply existsb_exists in H as (x & Hx & Hu).
  apply existsb_exists. exists x. split; [exact Hx|].
  apply Nat.eqb_eq in Hu. apply same_key_new_like_row; [exact Hu|].
  rewrite Forall_forall in Hs. now apply Hs.
Qed.

(** The three courses of a toggle in a well-formed Like collection. *)
Lemma toggleLike_cases u t ty d :
  likes_wf d ->
  (exists l,
     In l (likes d) /\ like_key l = key_of u t ty /\
     Like.isLikedBy u t ty d = true /\ holds_like u d = true /\
     Like.toggleLike u t ty d =
       (Ok (Like.mkToggle false "Unliked successfully"), after_unlike l d)) \/
  (Like.isLikedBy u t ty d = false /\ holds_like u d = true /\
   Like.toggleLike u t ty d = (Throw (DuplicateKey CLike), like_refused d)) \/
  (Like.isLikedBy u t ty d = false /\ holds_like u d = false /\
   Like.toggleLike u t ty d =
     (Ok (Like.mkToggle true "Liked successfully"), after_like u t ty d)).
Proof.
  intros Hwf. pose proof Hwf as (_ & Hs & _).
  destruct (find (Like.query u t ty) (likes d)) as [l|] eqn:Hf.
  - left. exists l.
    destruct (@find_query_key u t ty d l Hwf Hf) as [Hin Hkl].
    split; [exact Hin|]. split; [exact Hkl|].
    split; [now apply (find_query_some _ _ _ _ Hf)|].
    split; [|now apply toggleLike_unlike].
    apply existsb_exists. exists l. split; [exact Hin|].
    apply find_some in Hf as [_ Hq]. unfold Like.query in Hq.
    now apply andb_true_iff in Hq as [Hq _].
  - right. pose proof (find_query_none _ _ _ _ Hf) as Hno.
    destruct (holds_like u d) eqn:Hh.
    + left. split; [exact Hno|]. split; [reflexivity|].
      apply toggleLike_refused; [exact Hf|].
      now apply holds_like_collision.
    + right. split; [exact Hno|]. split; [reflexivity|].
      now apply toggleLike_like.
Qed.

Lemma isLikedBy_after_unlike u t ty l d :
  likes_wf d -> In l (likes d) -> like_key l = key_of u t ty ->
  Like.isLikedBy u t ty (after_unlike l d) = false.
Proof.
  intros Hwf Hin Hkl.
  pose proof (@likes_wf_after_unlike l d Hwf) as (_ & Hs' & _).
  apply not_true_is_false. intros He.
  apply (isLikedBy_key u t ty _ Hs') in He.
  apply (@keys_after_unlike u t ty l d Hwf Hin Hkl) in He. tauto.
Qed.

Lemma isLikedBy_after_like u t ty d :
  Like.isLikedBy u t ty (after_like u t ty d) = true.
Proof.
  unfold Like.isLikedBy. rewrite likes_after_like, existsb_app. simpl.
  rewrite query_new_like. now rewrite orb_true_r.
Qed.

(** The status after a toggle that returns is the one it reports. *)
Lemma toggleLike_ok_status u t ty d r d1 :
  likes_wf d ->
  Like.toggleLike u t ty d = (Ok r, d1) ->
  Like.liked r = negb (Like.isLikedBy u t ty d) /\
  Like.isLikedBy u t ty d1 = Like.liked r.
Proof.
  intros Hwf H.
  destruct (toggleLike_cases u t ty Hwf)
    as [(l & Hin & Hkl & Hl & _ & Hr)|[(_ & _ & Hr)|(Hl & _ & Hr)]];
    rewrite Hr in H; [|discriminate H|]; injection H as <- <-; rewrite Hl; simpl.
  - split; [reflexivity|]. now apply isLikedBy_after_unlike.
  - split; [reflexivity|]. apply isLikedBy_after_like.
Qed.

(** X4.  A toggle in a well-formed Like collection takes one of three
    courses.  On a liked target it answers [liked: false]; for a user who
    holds no Like row it answers [liked: true]; for a user who holds a row
    for another target it throws [DuplicateKey] and writes no row.  A toggle
    that returns reports the negation of the status it found, and
    [isLikedBy] then answers what it reported.  Whatever the course,
    [isLikedBy] of every other user, target or type answers what it answered
    before. *)
Theorem toggleLike_flips_one_status u t ty d :
  likes_wf d ->
  (Like.isLikedBy u t ty d = true ->
   exists m, fst (Like.toggleLike u t ty d) = Ok (Like.mkToggle false m)) /\
  (holds_like u d = false ->
   exists m, fst (Like.toggleLike u t ty d) = Ok (Like.mkToggle true m)) /\
  (Like.isLikedBy u t ty d = false -> holds_like u d = true ->
   fst (Like.toggleLike u t ty d) = Throw (DuplicateKey CLike) /\
   likes (snd (Like.toggleLike u t ty d)) = likes d) /\
  (forall r d1,
     Like.toggleLike u t ty d = (Ok r, d1) ->
     Like.liked r = negb (Like.isLikedBy u t ty d) /\
     Like.isLikedBy u t ty d1 = Like.liked r) /\
  (forall u' t' ty',
     (u', t', ty') <> (u, t, ty) ->
     Like.isLikedBy u' t' ty' (snd (Like.toggleLike u t ty d)) =
     Like.isLikedBy u' t' ty' d).
Proof.
  intros Hwf. pose proof Hwf as (_ & Hs & _).
  split; [|split; [|split; [|split]]].
  - intros Hl.
    destruct (toggleLike_cases u t ty Hwf)
      as [(l & _ & _ & _ & _ & Hr)|[(Hl' & _)|(Hl' & _)]]; try congruence.
    rewrite Hr. now eexists.
  - intros Hh.
    destruct (toggleLike_cases u t ty Hwf)
      as [(l & _ & _ & _ & Hh' & _)|[(_ & Hh' & _)|(_ & _ & Hr)]]; try congruence.
    rewrite Hr. now eexists.
  - intros Hl Hh.
    destruct (toggleLike_cases u t ty Hwf)
      as [(l & _ & _ & Hl' & _)|[(_ & _ & Hr)|(_ & Hh' & _)]]; try congruence.
    rewrite Hr. now split.
  - intros r d1. now apply toggleLike_ok_status.
  - intros u' t' ty' Hne.
    destruct (toggleLike_cases u t ty Hwf)
      as [(l & Hin & Hkl & _ & _ & Hr)|[(_ & _ & Hr)|(Hl & _ & Hr)]];
      rewrite Hr; cbn [snd]; [| reflexivity |]; apply eq_iff_eq_true.
    + pose proof (@likes_wf_after_unlike l d Hwf) as (_ & Hs' & _).
      rewrite (isLikedBy_key u' t' ty' _ Hs'), (isLikedBy_key u' t' ty' _ Hs).
      rewrite (@keys_after_unlike u t ty l d Hwf Hin Hkl).
      split; [tauto|]. intros H. split; [exact H|].
      intros E. apply key_of_inj in E. contradiction.
    + pose proof (@likes_wf_after_like u t ty d Hwf Hl) as (_ & Hs' & _).
      rewrite (isLikedBy_key u' t' ty' _ Hs'), (isLikedBy_key u' t' ty' _ Hs).
      rewrite keys_after_like.
      split; [|tauto]. intros [H|E]; [exact H|].
      apply key_of_inj in E. contradiction.
Qed.

(** ** Follow: a second request between the lookup and the insert *)

Lemma save_new_follow_duplicate id a b t d :
  a <> b ->
  Follow.isFollowing_unfiltered a b d = true ->
  Follow.save (Follow.new_follow id a b t) d = (Throw (DuplicateKey CFollow), d).
Proof.
  intros Hab Hyes. unfold Follow.save.
  erewrite bind_ok.
  2:{ unfold Follow.pre_save. simpl.
      destruct (Nat.eqb_spec a b) as [|_]; [contradiction|reflexivity]. }
  apply bind_throw.
  unfold Follow.insert. rewrite follow_same_key_find.
  unfold Follow.isFollowing_unfiltered in Hyes. now rewrite Hyes.
Qed.

(** X8.  When another request stores the Follow row between the lookup
    and the insert of [toggleFollow], the insert fails on the unique index:
    the call throws [DuplicateKey], the post-save hook does not run, and the
    Follow rows and the users are those the other request left. *)
Theorem toggleFollow_race_is_duplicate_key yield a b d d1 :
  a <> b ->
  Follow.isFollowing_unfiltered a b d = false ->
  yield d = (Ok tt, d1) ->
  Follow.isFollowing_unfiltered a b d1 = true ->
  Follow.toggleFollow_at yield a b d =
    (Throw (DuplicateKey CFollow), set_next_id (S (next_id d1)) d1) /\
  users (snd (Follow.toggleFollow_at yield a b d)) = users d1 /\
  follows (snd (Follow.toggleFollow_at yield a b d)) = follows d1.
Proof.
  intros Hab Hno Hy Hyes.
  assert (E : Follow.toggleFollow_at yield a b d =
              (Throw (DuplicateKey CFollow), set_next_id (S (next_id d1)) d1)).
  { unfold Follow.toggleFollow_at.
    destruct (Nat.eqb_spec a b) as [|_]; [contradiction|].
    erewrite bind_ok;
      [|unfold Follow.findOne, read;
        rewrite (find_none_existsb _ _ Hno); reflexivity].
    erewrite bind_ok; [|exact Hy].
    do 2 (erewrite bind_ok; [|reflexivity]).
    apply bind_throw. now apply save_new_follow_duplicate. }
  rewrite E. now repeat split.
Qed.

(** ** Follow: listings *)

Lemma firstn_add A n m (l : list A) :
  firstn (n + m) l = firstn n l ++ firstn m (skipn n l).
Proof.
  revert l. induction n as [|n IH]; intros [|x r]; simpl;
    rewrite ?firstn_nil; try reflexivity.
  now rewrite IH.
Qed.

Lemma limit_skip_pages A n m k (l : list A) :
  0 < n -> 0 < m ->
  limit_to n (skipn k l) ++ limit_to m (skipn (k + n) l) =
  limit_to (n + m) (skipn k l).
Proof.
  intros Hn Hm. unfold limit_to.
  destruct (Nat.eqb_spec n 0); [lia|].
  destruct (Nat.eqb_spec m 0); [lia|].
  destruct (Nat.eqb_spec (n + m) 0); [lia|].
  rewrite firstn_add, skipn_skipn. do 3 f_equal. lia.
Qed.

Lemma map_fst_pair A B (g : A -> B) (l : list A) :
  map fst (map (fun x => (x, g x)) l) = l.
Proof. rewrite map_map. simpl. apply map_id. Qed.

(** Rows of distinct keys have one newest-first order. *)
Lemma sorted_perm_unique A (key : A -> Z) (l S S' : list A) :
  NoDup (map key l) ->
  Permutation S l -> Permutation S' l ->
  StronglySorted (desc key) S -> StronglySorted (desc key) S' ->
  S = S'.
Proof.
  intros Hnd HS. revert l Hnd HS S'.
  induction S as [|x r IH]; intros l Hnd HS S' HS' Hs Hs'.
  - apply Permutation_nil in HS. subst l.
    apply Permutation_sym, Permutation_nil in HS'. now subst S'.
  - destruct S' as [|y r'].
    + apply Permutation_nil in HS'. subst l.
      apply Permutation_sym, Permutation_nil_cons in HS. contradiction.
    + assert (HSS : Permutation (x :: r) (y :: r'))
        by (etransitivity; [exact HS|symmetry; exact HS']).
      inversion Hs as [|? ? Hr Hx]; subst. inversion Hs' as [|? ? Hr' Hy]; subst.
      rewrite Forall_forall in Hx, Hy.
      assert (Exy : x = y).
      { destruct (Permutation_in x HSS (or_introl eq_refl)) as [E|Hin]; [now symmetry|].
        destruct (Permutation_in y (Permutation_sym HSS) (or_introl eq_refl))
          as [E|Hin']; [exact E|].
        apply (@NoDup_map_eq _ _ key l x y Hnd).
        - apply (Permutation_in x HS). now left.
        - apply (Permutation_in y HS'). now left.
        - pose proof (Hx y Hin'). pose proof (Hy x Hin). unfold desc in *. lia. }
      subst y. f_equal.
      apply (IH r); [|reflexivity| |exact Hr|exact Hr'].
      * assert (Hnd' : NoDup (map key (x :: r))).
        { apply (Permutation_NoDup (l := map key l)); [|exact Hnd].
          apply Permutation_map. now symmetry. }
        now inversion Hnd'.
      * symmetry. now apply Permutation_cons_inv in HSS.
Qed.

(** X10.  The pages of [getFollowers] and [getFollowing] are pages of a
    newest-first order of the active rows that name the user.  When the
    matching rows of a query have distinct [createdAt], consecutive pages
    tile the listing whatever order the store picks for each request: a page
    of [n] rows after [k], followed by a page of [m] rows after [k + n], is
    the page of [n + m] rows after [k].  The store skips before it limits,
    although the code calls [limit] first. *)
Theorem follow_pages_compose userId n m k d :
  0 < n -> 0 < m ->
  newest_first_page (followers_query userId) n k d
    (map fst (Follow.getFollowers userId (Some n) (Some k) d)) /\
  newest_first_page (following_query userId) n k d
    (map fst (Follow.getFollowing userId (Some n) (Some k) d)) /\
  (forall q,
      NoDup (map follow_createdAt (filter q (follows d))) ->
      forall p1 p2 p12,
        newest_first_page q n k d p1 ->
        newest_first_page q m (k + n) d p2 ->
        newest_first_page q (n + m) k d p12 ->
        p1 ++ p2 = p12).
Proof.
  intros Hn Hm. split; [|split].
  - unfold Follow.getFollowers, Follow.page. rewrite map_fst_pair.
    eexists. split; [apply sort_desc_perm|]. split; [apply sort_desc_sorted|].
    reflexivity.
  - unfold Follow.getFollowing, Follow.page. rewrite map_fst_pair.
    eexists. split; [apply sort_desc_perm|]. split; [apply sort_desc_sorted|].
    reflexivity.
  - intros q Hnd p1 p2 p12 (S1 & HP1 & HS1 & ->) (S2 & HP2 & HS2 & ->)
           (S3 & HP3 & HS3 & ->).
    assert (E2 : S2 = S1) by (eapply sorted_perm_unique; eassumption).
    assert (E3 : S3 = S1) by (eapply sorted_perm_unique; eassumption).
    subst S2 S3. now apply limit_skip_pages.
Qed.

(** With rows of equal [createdAt] the pages need not tile: in [tied_db] the
    first row of one newest-first order and the second row of the other are
    the same row. *)
Lemma tied_pages_overlap :
  newest_first_page (followers_query 2) 1 0 tied_db [mkFollow 100 1 2 true 5] /\
  newest_first_page (followers_query 2) 1 1 tied_db [mkFollow 100 1 2 true 5] /\
  forall p12, newest_first_page (followers_query 2) 2 0 tied_db p12 ->
              [mkFollow 100 1 2 true 5] ++ [mkFollow 100 1 2 true 5] <> p12.
Proof.
  split; [|split].
  - exists [mkFollow 100 1 2 true 5; mkFollow 101 3 2 true 5].
    split; [reflexivity|]. split; [|reflexivity].
    repeat constructor; unfold desc; simpl; lia.
  - exists [mkFollow 101 3 2 true 5; mkFollow 100 1 2 true 5].
    split; [apply perm_swap|]. split; [|reflexivity].
    repeat constructor; unfold desc; simpl; lia.
  - intros p12 (S & HP & _ & ->) E.
    change (filter (followers_query 2) (follows tied_db))
      with [mkFollow 100 1 2 true 5; mkFollow 101 3 2 true 5] in HP.
    pose proof (Permutation_length HP) as Hl.
    destruct S as [|a [|b [|c S]]]; try discriminate Hl.
    cbv in E. injection E as <- <-.
    apply Permutation_sym in HP.
    pose proof (Permutation_in (mkFollow 101 3 2 true 5) HP
                  (or_intror (or_introl eq_refl))) as Hin.
    destruct Hin as [Hin|[Hin|[]]]; discriminate Hin.
Qed.

Lemma limit_to_length A n (l : list A) :
  List.length (limit_to n l) <= (if n =? 0 then List.length l else n).
Proof.
  unfold limit_to. destruct (n =? 0); [lia|]. rewrite length_firstn. lia.
Qed.

Lemma page_rows q path limit skip d :
  Forall (fun r => In (fst r) (follows d) /\ q (fst r) = true /\
                   snd r = findById user_id (path (fst r)) (users d))
         (Follow.page q path limit skip d) /\
  StronglySorted (desc follow_createdAt)
                 (map fst (Follow.page q path limit skip d)) /\
  List.length (Follow.page q path limit skip d) <=
    (if default 20 limit =? 0 then List.length (follows d) else default 20 limit).
Proof.
  unfold Follow.page. repeat split.
  - apply Forall_map. apply Forall_forall. intros f Hf. simpl.
    apply limit_to_incl, skipn_incl in Hf.
    apply (Permutation_in _ (sort_desc_perm _ _)) in Hf.
    apply filter_In in Hf. tauto.
  - rewrite map_fst_pair.
    apply limit_to_sorted, skipn_sorted, sort_desc_sorted.
  - rewrite length_map.
    etransitivity; [apply limit_to_length|].
    destruct (default 20 limit =? 0); [|lia].
    rewrite length_skipn.
    rewrite (Permutation_length (sort_desc_perm _ _)).
    pose proof (filter_length_le q (follows d)). lia.
Qed.

(** X9.  [getFollowers] and [getFollowing] return only active rows of
    the user asked for, each with its populated user read from the store,
    newest first; without a limit they return at most 20 rows, and with limit
    0 and no skip [getFollowers] returns every active follower row. *)
Theorem follow_page_rows userId limit skip d :
  Forall (fun r => In (fst r) (follows d) /\
                   following (fst r) = userId /\ isActive (fst r) = true /\
                   snd r = findById user_id (follower (fst r)) (users d))
         (Follow.getFollowers userId limit skip d) /\
  Forall (fun r => In (fst r) (follows d) /\
                   follower (fst r) = userId /\ isActive (fst r) = true /\
                   snd r = findById user_id (following (fst r)) (users d))
         (Follow.getFollowing userId limit skip d) /\
  StronglySorted (desc follow_createdAt)
                 (map fst (Follow.getFollowers userId limit skip d)) /\
  StronglySorted (desc follow_createdAt)
                 (map fst (Follow.getFollowing userId limit skip d)) /\
  List.length (Follow.getFollowers userId None skip d) <= 20 /\
  List.length (Follow.getFollowing userId None skip d) <= 20 /\
  Permutation (map fst (Follow.getFollowers userId (Some 0) None d))
              (filter (fun f => (following f =? userId) && Bool.eqb (isActive f) true)
                      (follows d)).
Proof.
  unfold Follow.getFollowers, Follow.getFollowing.
  repeat split.
  - eapply Forall_impl; [|apply page_rows]. simpl.
    intros r (Hin & Hq & Hp). apply andb_true_iff in Hq as [H1 H2].
    apply Nat.eqb_eq in H1. apply eqb_prop in H2. tauto.
  - eapply Forall_impl; [|apply page_rows]. simpl.
    intros r (Hin & Hq & Hp). apply andb_true_iff in Hq as [H1 H2].
    apply Nat.eqb_eq in H1. apply eqb_prop in H2. tauto.
  - apply page_rows.
  - apply page_rows.
  - apply (page_rows _ follower None skip d).
  - apply (page_rows _ following None skip d).
  - unfold Follow.page. rewrite map_fst_pair. simpl. apply sort_desc_perm.
Qed.

Lemma id_in_map_following userId x l :
  FollowStatics.id_in (map following (filter (fun f => follower f =? userId) l)) x =
  existsb (fun f => (follower f =? userId) && (following f =? x)) l.
Proof.
  unfold FollowStatics.id_in.
  induction l as [|f r IH]; simpl; [reflexivity|].
  destruct (follower f =? userId); simpl; [|exact IH].
  now rewrite IH, (Nat.eqb_sym x).
Qed.

(** X11.  [getMutualFollows] returns exactly the rows in which someone
    the user follows follows the user back, whatever [isActive] says, each
    with its follower populated, newest first. *)
Theorem getMutualFollows_rows userId d :
  (forall f,
     In f (map fst (FollowStatics.getMutualFollows userId d)) <->
     In f (follows d) /\ following f = userId /\
     Follow.isFollowing_unfiltered userId (follower f) d = true) /\
  Forall (fun r => snd r = findById user_id (follower (fst r)) (users d))
         (FollowStatics.getMutualFollows userId d) /\
  StronglySorted (desc follow_createdAt)
                 (map fst (FollowStatics.getMutualFollows userId d)).
Proof.
  unfold FollowStatics.getMutualFollows. split; [|split].
  - intros f. rewrite map_fst_pair. split.
    + intros Hin.
      apply (Permutation_in _ (sort_desc_perm _ _)) in Hin.
      apply filter_In in Hin as [Hin H]. apply andb_true_iff in H as [H1 H2].
      rewrite id_in_map_following in H1. apply Nat.eqb_eq in H2. tauto.
    + intros (Hin & Hu & Hf).
      apply (Permutation_in _ (Permutation_sym (sort_desc_perm _ _))).
      apply filter_In. split; [exact Hin|].
      rewrite id_in_map_following. apply andb_true_iff. split; [exact Hf|].
      now apply Nat.eqb_eq.
  - apply Forall_map. apply Forall_forall. reflexivity.
  - rewrite map_fst_pair. apply sort_desc_sorted.
Qed.

(** ** Follow: suggestions *)

Lemma all_populated_some A B (l : list (A * option B)) rows :
  FollowStatics.all_populated l = Some rows ->
  l = map (fun r => (fst r, Some (snd r))) rows.
Proof.
  revert rows. induction l as [|[a [b|]] r IH]; simpl; intros rows H.
  - now inversion H.
  - destruct (FollowStatics.all_populated r) as [r'|]; [|discriminate].
    inversion H; subst. simpl. f_equal. now apply IH.
  - discriminate.
Qed.

Lemma all_populated_none A B (l : list (A * option B)) :
  FollowStatics.all_populated l = None <-> In None (map snd l).
Proof.
  induction l as [|[a [b|]] r IH]; simpl.
  - split; [discriminate|contradiction].
  - destruct (FollowStatics.all_populated r) as [r'|].
    + split; [discriminate|]. intros [H|H]; [discriminate|].
      now apply IH in H.
    + split; [|reflexivity]. intros _. right. now apply IH.
  - split; [now left|reflexivity].
Qed.

(** X12.  What [getSuggestedUsers] returns.  It writes nothing and never
    suggests the user themselves.  For a user without followers it returns
    active users by descending [followersCount].  For a user with followers it
    returns at most [limit] users, each followed by one of the user's
    followers and none already followed by the user. *)
Theorem getSuggestedUsers_sound (user_isActive : UserDoc -> bool)
        userId limit d us d' :
  FollowStatics.getSuggestedUsers user_isActive userId limit d = (Ok us, d') ->
  d' = d /\
  Forall (fun u => In u (users d) /\ user_id u <> userId) us /\
  match filter (fun f => following f =? userId) (follows d) with
  | [] =>
      Forall (fun u => user_isActive u = true) us /\
      StronglySorted (desc followersCount) us
  | _ :: _ =>
      List.length us <= default 10 limit /\
      Forall (fun u =>
                Follow.isFollowing_unfiltered userId (user_id u) d = false /\
                exists f g,
                  In f (follows d) /\ In g (follows d) /\
                  following g = userId /\ follower f = follower g /\
                  following f = user_id u) us
  end.
Proof.
  unfold FollowStatics.getSuggestedUsers, bind, read. rewrite length_map.
  destruct (filter (fun f => following f =? userId) (follows d)) as [|g0 gs] eqn:Hfl.
  - simpl. intros H. injection H as Hus Hd. subst us d'.
    split; [reflexivity|]. split; [|split].
    + apply Forall_forall. intros u Hu.
      apply limit_to_incl in Hu.
      apply (Permutation_in _ (sort_desc_perm _ _)) in Hu.
      apply filter_In in Hu as [Hin Hq]. split; [exact Hin|].
      apply andb_true_iff in Hq as [Hq _].
      apply negb_true_iff, Nat.eqb_neq in Hq. exact Hq.
    + apply Forall_forall. intros u Hu.
      apply limit_to_incl in Hu.
      apply (Permutation_in _ (sort_desc_perm _ _)) in Hu.
      apply filter_In in Hu as [_ Hq].
      now apply andb_true_iff in Hq as [_ Hq].
    + apply limit_to_sorted, sort_desc_sorted.
  - change (List.length (g0 :: gs) =? 0) with false. cbv beta iota.
    rewrite <- Hfl.
    match goal with
    | |- context [FollowStatics.all_populated ?l] =>
        destruct (FollowStatics.all_populated l) as [rows|] eqn:Hall
    end; [|unfold throw; discriminate].
    unfold ret. intros H. injection H as Hus Hd. subst us d'.
    split; [reflexivity|].
    apply all_populated_some in Hall.
    assert (Hrow : forall r, In r rows ->
              In (fst r) (follows d) /\
              FollowStatics.id_in
                (map follower (filter (fun g => following g =? userId) (follows d)))
                (follower (fst r)) = true /\
              following (fst r) <> userId /\
              findById user_id (following (fst r)) (users d) = Some (snd r)).
    { intros r Hr.
      assert (Hin : In (fst r, Some (snd r))
                       (map (fun r => (fst r, Some (snd r))) rows))
        by (apply in_map_iff; now exists r).
      rewrite <- Hall in Hin. apply in_map_iff in Hin as (f & Hf & Hin).
      injection Hf as Hf1 Hf2. rewrite <- Hf1, <- Hf2.
      apply limit_to_incl in Hin. apply filter_In in Hin as [Hin Hq].
      apply andb_true_iff in Hq as [Hq1 Hq2].
      apply negb_true_iff, Nat.eqb_neq in Hq2. tauto. }
    assert (Hsel : forall u,
              In u (map snd
                      (firstn (default 10 limit)
                         (filter (fun s => negb (FollowStatics.id_in
                                     (map following
                                        (filter (fun f => follower f =? userId) (follows d)))
                                     (user_id (snd s)))) rows))) ->
              exists r, In r rows /\ snd r = u /\
                Follow.isFollowing_unfiltered userId (user_id u) d = false).
    { intros u Hu. apply in_map_iff in Hu as (r & <- & Hr).
      apply firstn_incl, filter_In in Hr as [Hr Hq].
      exists r. split; [exact Hr|]. split; [reflexivity|].
      apply negb_true_iff in Hq. now rewrite id_in_map_following in Hq. }
    split; [|split].
    + apply Forall_forall. intros u Hu.
      apply Hsel in Hu as (r & Hr & <- & _).
      destruct (Hrow r Hr) as (_ & _ & Hne & Hfind).
      apply findById_id in Hfind as [Hid Hin]. split; [exact Hin|]. congruence.
    + rewrite length_map, length_firstn. lia.
    + apply Forall_forall. intros u Hu.
      apply Hsel in Hu as (r & Hr & <- & Hnf). split; [exact Hnf|].
      destruct (Hrow r Hr) as (Hin & Hid & _ & Hfind).
      apply findById_id in Hfind as [Hu _].
      unfold FollowStatics.id_in in Hid.
      apply existsb_exists in Hid as (x & Hx & Hxe).
      apply in_map_iff in Hx as (g & <- & Hg).
      apply filter_In in Hg as [Hg Hgq].
      apply Nat.eqb_eq in Hgq, Hxe.
      exists (fst r), g. repeat split; auto.
Qed.

(** X13.  [getSuggestedUsers] throws a TypeError, and writes nothing,
    when one of the rows its second query reads names a user whose document is
    gone: the callback reads [_id] of the populated [following], which is
    null. *)
Theorem getSuggestedUsers_null_reference (user_isActive : UserDoc -> bool)
        userId limit d f :
  In f (suggestion_rows userId limit d) ->
  findById user_id (following f) (users d) = None ->
  FollowStatics.getSuggestedUsers user_isActive userId limit d = (Throw TypeError, d).
Proof.
  unfold suggestion_rows. intros Hin Hnone.
  unfold FollowStatics.getSuggestedUsers, bind, read. rewrite length_map.
  destruct (filter (fun f => following f =? userId) (follows d)) as [|g0 gs] eqn:Hfl.
  - exfalso. simpl in Hin. apply limit_to_incl, filter_In in Hin as [_ Hq].
    discriminate Hq.
  - change (List.length (g0 :: gs) =? 0) with false. cbv beta iota.
    rewrite <- Hfl. rewrite <- Hfl in Hin.
    match goal with
    | |- context [FollowStatics.all_populated ?l] =>
        destruct (FollowStatics.all_populated l) as [rows|] eqn:Hall
    end; [|reflexivity].
    exfalso.
    assert (Hn : FollowStatics.all_populated
                   (map (fun f => (f, findById user_id (following f) (users d)))
                      (limit_to (default 10 limit * 2)
                         (filter (fun f =>
                            FollowStatics.id_in
                              (map follower (filter (fun g => following g =? userId) (follows d)))
                              (follower f) && negb (following f =? userId))
                            (follows d)))) = None).
    { apply all_populated_none. rewrite map_map. simpl.
      apply in_map_iff. exists f. split; [exact Hnone|exact Hin]. }
    rewrite Hn in Hall. discriminate.
Qed.

(** ** Like controller: responses *)

Lemma find_target_keeps ty t d : snd (LikeController.find_target ty t d) = d.
Proof.
  revert d. change (keeps (fun d => d) (LikeController.find_target ty t)).
  unfold LikeController.find_target. frame.
Qed.

Lemma find_target_missing ty t d :
  target_found ty t d = false ->
  LikeController.find_target ty t d = (Ok None, d).
Proof.
  unfold target_found.
  destruct ty;
    cbv beta iota zeta delta
      [LikeController.find_target bind read ret Notification.prop throw];
    match goal with |- context [findById ?i t ?l] => destruct (findById i t l) end;
    simpl; (discriminate || reflexivity).
Qed.

Lemma find_target_owner_gone ty t d :
  target_found ty t d = true ->
  target_owner ty t d = None ->
  LikeController.find_target ty t d = (Throw TypeError, d).
Proof.
  unfold target_found, target_owner.
  destruct ty;
    cbv beta iota zeta delta
      [LikeController.find_target bind read ret Notification.prop throw].
  - destruct (findById story_id t (stories d)) as [s|]; [|discriminate].
    intros _ ->. reflexivity.
  - destruct (findById chapter_id t (chapters d)) as [c|]; [|discriminate].
    destruct (findById story_id (chapter_story c) (stories d)) as [s|];
      [|reflexivity].
    intros _ ->. reflexivity.
  - destruct (findById comment_id t (comments d)) as [c|]; [|discriminate].
    intros _ ->. reflexivity.
Qed.

Lemma find_target_owner ty t d o :
  target_owner ty t d = Some o ->
  LikeController.find_target ty t d = (Ok (Some (user_id o)), d).
Proof.
  unfold target_owner.
  destruct ty;
    cbv beta iota zeta delta
      [LikeController.find_target bind read ret Notification.prop throw].
  - destruct (findById story_id t (stories d)) as [s|]; [|discriminate].
    intros ->. reflexivity.
  - destruct (findById chapter_id t (chapters d)) as [c|]; [|discriminate].
    destruct (findById story_id (chapter_story c) (stories d)) as [s|];
      [|discriminate].
    intros ->. reflexivity.
  - destruct (findById comment_id t (comments d)) as [c|]; [|discriminate].
    intros ->. reflexivity.
Qed.

Lemma toggleLike_body_not_200 yield tstr t u d status b d' :
  LikeController.toggleLike_body yield tstr t u d = (Ok (status, b), d') ->
  status <> 200 ->
  d' = d /\ LikeController.success b = false /\ LikeController.body_liked b = None.
Proof.
  unfold LikeController.toggleLike_body.
  destruct (LikeController.target_of_string tstr) as [ty|].
  - unfold bind at 1. pose proof (find_target_keeps ty t d) as Hk.
    destruct (LikeController.find_target ty t d) as [[[o|]|e] d1]; simpl in Hk; subst d1.
    + unfold bind at 1.
      destruct (Like.toggleLike_at yield u t ty d) as [[r|e] d2]; [|discriminate].
      unfold bind at 1.
      match goal with |- context [?c d2] =>
        match c with
        | (if _ then _ else _) => destruct (c d2) as [[x|e] d3]
        end
      end; [|discriminate].
      unfold ret. intros H Hs. injection H as H1 H2 H3. congruence.
    + unfold ret. intros H Hs. injection H as H1 H2 H3. subst. auto.
    + discriminate.
  - unfold ret. intros H Hs. injection H as H1 H2 H3. subst. auto.
Qed.

(** X14.  The error responses of the like controller.  A target type
    other than story, chapter or comment gives 400; a target that is not in
    its collection gives 404; and every response whose status is not 200
    leaves the store as it was, with [success: false] and no [liked]
    field. *)
Theorem toggleLike_error_responses yield tstr t u d :
  (LikeController.target_of_string tstr = None ->
   LikeController.toggleLike_at yield tstr t u d =
   (LikeController.Json 400
      (LikeController.mkBody false
         "Invalid target type. Must be story, chapter, or comment" None), d)) /\
  (forall ty,
     LikeController.target_of_string tstr = Some ty ->
     target_found ty t d = false ->
     LikeController.toggleLike_at yield tstr t u d =
     (LikeController.Json 404
        (LikeController.mkBody false (tstr ++ " not found")%string None), d)) /\
  (forall status b d',
     LikeController.toggleLike_at yield tstr t u d = (LikeController.Json status b, d') ->
     status <> 200 ->
     d' = d /\ LikeController.success b = false /\
     LikeController.body_liked b = None).
Proof.
  unfold LikeController.toggleLike_at, LikeController.handle.
  split; [|split].
  - intros Hs. unfold LikeController.toggleLike_body. now rewrite Hs.
  - intros ty Hs Hm. unfold LikeController.toggleLike_body. rewrite Hs.
    now rewrite (bind_ok _ (find_target_missing ty t d Hm)).
  - intros status b d'.
    destruct (LikeController.toggleLike_body yield tstr t u d)
      as [[[st b0]|e] d1] eqn:Hb; [|discriminate].
    intros H Hs. injection H as H1 H2 H3. subst.
    now apply (toggleLike_body_not_200 _ _ _ _ _ Hb).
Qed.

(** X15.  When the target exists and the user document of its owner does
    not, the controller reads [_id] of null: the error goes to [next], no 404
    is sent, and nothing is written. *)
Theorem toggleLike_owner_gone yield tstr ty t u d :
  LikeController.target_of_string tstr = Some ty ->
  target_found ty t d = true ->
  target_owner ty t d = None ->
  LikeController.toggleLike_at yield tstr t u d = (LikeController.Next TypeError, d).
Proof.
  intros Hs Hf Ho.
  unfold LikeController.toggleLike_at, LikeController.handle,
    LikeController.toggleLike_body.
  rewrite Hs. now rewrite (bind_throw _ (find_target_owner_gone ty t d Hf Ho)).
Qed.

(** X16.  When the liking user has no user document and holds no Like
    row, the like is stored and the counter updated before
    [createLikeNotification] throws: the request ends in [next(TypeError)],
    yet the store is the one after the like, [isLikedBy] holds, and no
    notification is written. *)
Theorem toggleLike_actor_gone tstr ty t u o d :
  LikeController.target_of_string tstr = Some ty ->
  target_owner ty t d = Some o ->
  user_id o <> u ->
  findById user_id u (users d) = None ->
  holds_like u d = false ->
  LikeController.toggleLike tstr t u d =
    (LikeController.Next TypeError, after_like u t ty d) /\
  Like.isLikedBy u t ty (after_like u t ty d) = true /\
  notifications (after_like u t ty d) = notifications d.
Proof.
  intros Hs Ho Hne Hu Hno.
  split; [|split].
  - unfold LikeController.toggleLike, LikeController.toggleLike_at,
      LikeController.handle.
    rewrite toggleLike_body_found with (ty := ty) (owner := user_id o);
      [|exact Hs|now apply find_target_owner].
    erewrite bind_ok; [|apply toggleLike_like; exact Hno].
    simpl Like.liked.
    destruct (Nat.eqb_spec (user_id o) u) as [|_]; [contradiction|].
    simpl andb. cbv iota.
    erewrite bind_throw; [reflexivity|].
    apply bind_throw. apply createLikeNotification_no_user; [congruence|].
    now rewrite users_after_like.
  - unfold Like.isLikedBy. rewrite likes_after_like, existsb_app. simpl.
    rewrite query_new_like. now rewrite orb_true_r.
  - apply notifications_after_like.
Qed.

Lemma likes_createLikeNotification u t ty o :
  keeps likes (Notification.createLikeNotification u t ty o).
Proof.
  unfold Notification.createLikeNotification, Notification.createNotification. frame.
Qed.

(** X17.  The [liked] field of a 200 response of [toggleLike] is the
    negation of the status before, and [checkLikeStatus] on the store it
    leaves answers the same value. *)
Theorem toggleLike_then_checkLikeStatus tstr t u d b d' :
  likes_wf d ->
  LikeController.toggleLike tstr t u d = (LikeController.Json 200 b, d') ->
  LikeController.checkLikeStatus tstr t u d' =
    (LikeController.Json 200
       (LikeController.mkBody true EmptyString (LikeController.body_liked b)), d') /\
  exists ty,
    LikeController.target_of_string tstr = Some ty /\
    LikeController.body_liked b = Some (negb (Like.isLikedBy u t ty d)).
Proof.
  intros Hwf.
  unfold LikeController.toggleLike, LikeController.toggleLike_at,
    LikeController.checkLikeStatus, LikeController.handle,
    LikeController.toggleLike_body.
  destruct (LikeController.target_of_string tstr) as [ty|]; [|discriminate].
  unfold bind at 1. pose proof (find_target_keeps ty t d) as Hk.
  destruct (LikeController.find_target ty t d) as [[[o|]|e] d1];
    simpl in Hk; subst d1; [|discriminate|discriminate].
  fold (Like.toggleLike u t ty).
  unfold bind at 1.
  destruct (Like.toggleLike u t ty d) as [[r|e] d1] eqn:Ht; [|discriminate].
  destruct (@toggleLike_ok_status u t ty d r d1 Hwf Ht) as [Hr Hst].
  unfold bind at 1.
  match goal with |- context [?c d1] =>
    match c with
    | (if ?g then ?a else ?e) =>
        assert (Hlk : likes (snd (c d1)) = likes d1);
        [destruct g; [|reflexivity];
         apply (@keeps_bind _ likes); [apply likes_createLikeNotification|];
         intros; apply keeps_ret|];
        destruct (c d1) as [[x|e'] d2]
    end
  end; [|discriminate].
  simpl in Hlk. unfold ret. intros H. injection H as Hb Hd. subst b d2.
  simpl LikeController.body_liked.
  split; [|exists ty; split; [reflexivity|now rewrite Hr]].
  cbv beta iota zeta delta [bind read ret].
  unfold Like.isLikedBy in *. now rewrite Hlk, Hst.
Qed.

(** ** Notifications: follow notifications and the inbox *)

Lemma getUnreadCount_app userId d ns d' :
  notifications d' = notifications d ++ ns ->
  NotificationStatics.getUnreadCount userId d' =
  NotificationStatics.getUnreadCount userId d +
  List.length (filter (fun n => (recipient n =? userId) && Bool.eqb (isRead n) false) ns).
Proof.
  intros H. unfold NotificationStatics.getUnreadCount.
  now rewrite H, filter_app, length_app.
Qed.

(** X18.  [createFollowNotification] stores one unread notification of
    type follow for the followed user, sent by the follower, with the
    follower's display name in the message and user name in the link, and the
    unread count of the followed user grows by one; when the follower has no
    user document it throws a TypeError and writes nothing. *)
Theorem createFollowNotification_result followerId followingId d :
  match findById user_id followerId (users d) with
  | Some u =>
      exists n d',
        NotificationStatics.createFollowNotification followerId followingId d =
          (Ok n, d') /\
        recipient n = followingId /\ sender n = Some followerId /\
        ntype n = NFollow /\ data_user n = Some followerId /\
        message n = (Notification.display_name u ++ " started following you")%string /\
        actionUrl n = Some ("/profile/" ++ username u)%string /\
        notifications d' = notifications d ++ [n] /\
        writes d' = writes d ++ [InsertOne CNotification (notification_id n)] /\
        NotificationStatics.getUnreadCount followingId d' =
          S (NotificationStatics.getUnreadCount followingId d)
  | None =>
      NotificationStatics.createFollowNotification followerId followingId d =
        (Throw TypeError, d)
  end.
Proof.
  unfold NotificationStatics.createFollowNotification.
  cbv beta iota zeta delta [bind read ret throw Notification.prop].
  destruct (findById user_id followerId (users d)) as [u|]; [|reflexivity].
  rewrite createNotification_run.
  do 2 eexists. split; [reflexivity|].
  repeat (split; [reflexivity|]).
  erewrite getUnreadCount_app; [|reflexivity].
  simpl. rewrite Nat.eqb_refl. simpl. lia.
Qed.

(** X19.  The edges of [createNewChapterNotification].  An author
    without followers gets an empty result and nothing is written, even when
    the author, story or chapter does not exist; with a follower, a missing
    author, story or chapter throws a TypeError and nothing is written. *)
Theorem createNewChapterNotification_edges authorId storyId chapterId d :
  (filter (fun f => following f =? authorId) (follows d) = [] ->
   Notification.createNewChapterNotification authorId storyId chapterId d =
     (Ok [], d)) /\
  (filter (fun f => following f =? authorId) (follows d) <> [] ->
   findById user_id authorId (users d) = None \/
   findById story_id storyId (stories d) = None \/
   findById chapter_id chapterId (chapters d) = None ->
   Notification.createNewChapterNotification authorId storyId chapterId d =
     (Throw TypeError, d)).
Proof.
  unfold Notification.createNewChapterNotification.
  cbv beta iota zeta delta [bind read].
  split.
  - intros ->. reflexivity.
  - intros Hne Hmiss.
    destruct (filter (fun f => following f =? authorId) (follows d)) as [|f r];
      [congruence|].
    unfold Notification.prop, ret, throw.
    destruct (findById user_id authorId (users d)); [|reflexivity].
    destruct (findById chapter_id chapterId (chapters d)); [|reflexivity].
    destruct (findById story_id storyId (stories d)); [|reflexivity].
    destruct Hmiss as [H|[H|H]]; discriminate H.
Qed.

Lemma map_view_doc g1 g2 g3 g4 (l : list NotificationDoc) :
  map NotificationStatics.view_doc
      (map (fun n => NotificationStatics.mkView n (g1 n) (g2 n) (g3 n) (g4 n)) l) = l.
Proof. rewrite map_map. simpl. apply map_id. Qed.

(** X20.  [getUserNotifications] returns only notifications of the
    user asked for, none of them read when [unreadOnly] is set, each with its
    sender populated, newest first, at most 20 without a limit; with limit 0
    and [unreadOnly] it returns as many rows as [getUnreadCount]
    counts. *)
Theorem getUserNotifications_rows userId limit skip unreadOnly d :
  Forall (fun v =>
            In (NotificationStatics.view_doc v) (notifications d) /\
            recipient (NotificationStatics.view_doc v) = userId /\
            isRead (NotificationStatics.view_doc v) && default false unreadOnly = false /\
            NotificationStatics.view_sender v =
              NotificationStatics.populate user_id (users d)
                (sender (NotificationStatics.view_doc v)))
         (NotificationStatics.getUserNotifications userId limit skip unreadOnly d) /\
  StronglySorted (desc notification_createdAt)
    (map NotificationStatics.view_doc
       (NotificationStatics.getUserNotifications userId limit skip unreadOnly d)) /\
  List.length (NotificationStatics.getUserNotifications userId None skip unreadOnly d)
    <= 20 /\
  List.length
    (NotificationStatics.getUserNotifications userId (Some 0) None (Some true) d) =
  NotificationStatics.getUnreadCount userId d.
Proof.
  unfold NotificationStatics.getUserNotifications. repeat split.
  - apply Forall_map. apply Forall_forall. intros n Hn. simpl.
    apply limit_to_incl, skipn_incl in Hn.
    apply (Permutation_in _ (sort_desc_perm _ _)) in Hn.
    apply filter_In in Hn as [Hin Hq].
    unfold NotificationStatics.inbox_query in Hq.
    apply andb_true_iff in Hq as [H1 H2]. apply Nat.eqb_eq in H1.
    repeat split; auto.
    destruct (default false unreadOnly); [|apply andb_false_r].
    apply eqb_prop in H2. now rewrite H2.
  - rewrite map_view_doc.
    apply limit_to_sorted, skipn_sorted, sort_desc_sorted.
  - rewrite length_map. etransitivity; [apply limit_to_length|]. simpl. lia.
  - rewrite length_map. unfold limit_to, default. cbn [Nat.eqb skipn].
    rewrite (Permutation_length (sort_desc_perm _ _)). reflexivity.
Qed.

(** ** Like: validation of a saved row *)

Lemma pre_save_cases l :
  (~ single_target l /\ forall d, Like.pre_save l d = (Throw like_validation_error, d)) \/
  (single_target l /\
   exists ty id,
     Like.query (like_user l) id ty l = true /\
     like_target (Like.set_type ty l) = Some (ty, id) /\
     forall d, Like.pre_save l d = (Ok (Like.set_type ty l), d)).
Proof.
  unfold single_target, Like.pre_save, like_target, Like.query, oid_is.
  destruct l as [i u [s|] [c|] [m|] ty z]; simpl;
    try (left; split; [intros H; discriminate H|reflexivity]);
    right; (split; [reflexivity|]).
  - exists TStory, s. rewrite !Nat.eqb_refl. auto.
  - exists TChapter, c. rewrite !Nat.eqb_refl. auto.
  - exists TComment, m. rewrite !Nat.eqb_refl. auto.
Qed.

Lemma same_key_single a b :
  single_target a -> single_target b -> like_user a = like_user b ->
  Like.same_key a b = true.
Proof.
  unfold single_target, Like.same_key. intros Ha Hb ->.
  rewrite Nat.eqb_refl.
  destruct a as [i u [s|] [c|] [m|] ty z]; simpl in Ha; try discriminate Ha;
    destruct b as [i' u' [s'|] [c'|] [m'|] ty' z']; simpl in Hb;
    try discriminate Hb; simpl; rewrite ?orb_true_r; reflexivity.
Qed.

Lemma same_key_other_user l d :
  holds_like (like_user l) d = false ->
  existsb (Like.same_key l) (likes d) = false.
Proof.
  intros H. apply not_true_is_false. intros He.
  apply existsb_exists in He as (x & Hx & Hk).
  unfold Like.same_key in Hk. apply andb_true_iff in Hk as [Hu _].
  assert (holds_like (like_user l) d = true); [|congruence].
  apply existsb_exists. exists x. split; [exact Hx|].
  now rewrite Nat.eqb_sym.
Qed.

(** X1.  Saving a Like row has three outcomes.  A row with no target or
    with several is rejected by [pre('save')] and nothing is written.  A row
    with one target, of a user who already holds a row with one target, is
    rejected by a unique index with [DuplicateKey] and nothing is written,
    whatever the two targets are.  A row with one target of a user who holds
    no row is stored with the type of its target, whatever type the caller
    gave, and the hook adds one to the counter of that target: like counters
    that equal the row counts still do. *)
Theorem like_save_outcomes l d :
  (~ single_target l -> Like.save l d = (Throw like_validation_error, d)) /\
  (single_target l ->
   (exists x, In x (likes d) /\ like_user x = like_user l /\ single_target x) ->
   Like.save l d = (Throw (DuplicateKey CLike), d)) /\
  (single_target l -> holds_like (like_user l) d = false ->
   exists ty id,
     Like.query (like_user l) id ty l = true /\
     fst (Like.save l d) = Ok tt /\
     likes (snd (Like.save l d)) = likes d ++ [Like.set_type ty l] /\
     like_target (Like.set_type ty l) = Some (ty, id) /\
     (like_counters_ok d -> like_counters_ok (snd (Like.save l d)))).
Proof.
  unfold Like.save.
  destruct (pre_save_cases l) as [[Hn Hp]|[Hs (ty & id & Hq & Ht & Hp)]].
  - split; [|split]; try (intros; contradiction).
    intros _. now apply bind_throw.
  - split; [intros; contradiction|]. split.
    + intros _ (x & Hx & Hu & Hsx). rewrite (bind_ok _ (Hp d)).
      apply bind_throw. unfold Like.insert.
      change (existsb (Like.same_key (Like.set_type ty l)) (likes d))
        with (existsb (Like.same_key l) (likes d)).
      replace (existsb (Like.same_key l) (likes d)) with true; [reflexivity|].
      symmetry. apply existsb_exists. exists x. split; [exact Hx|].
      now apply same_key_single.
    + intros _ Hh. pose proof (same_key_other_user l d Hh) as Hno.
      exists ty, id. split; [exact Hq|].
      rewrite (bind_ok _ (Hp d)).
      assert (Hins : Like.insert (Like.set_type ty l) d =
                     (Ok tt, like_inserted (Like.set_type ty l) d)).
      { unfold Like.insert.
        change (existsb (Like.same_key (Like.set_type ty l)) (likes d))
          with (existsb (Like.same_key l) (likes d)).
        now rewrite Hno. }
      rewrite (bind_ok _ Hins). unfold Like.post_save.
      rewrite post_hook_run. simpl fst. simpl snd.
      split; [reflexivity|]. split; [now rewrite likes_post_hook|].
      split; [exact Ht|].
      intros (Hcs & Hcc & Hcm).
      set (l' := Like.set_type ty l).
      assert (Hcount : forall ty' id',
                like_count ty' id' (snd (Like.post_hook 1 l' (like_inserted l' d))) =
                like_count ty' id' d + (if targets ty' id' l' then 1 else 0)).
      { intros ty' id'. unfold like_count. rewrite likes_post_hook. simpl.
        rewrite filter_app, length_app. simpl. now destruct (targets ty' id' l'). }
      unfold like_counters_ok. repeat split; intros x doc' Hdoc'; rewrite Hcount.
      * apply stories_post_hook in Hdoc' as (doc & Hdoc & ->).
        rewrite (Hcs x doc Hdoc). destruct (targets TStory x l'); lia.
      * apply chapters_post_hook in Hdoc' as (doc & Hdoc & ->).
        rewrite (Hcc x doc Hdoc). destruct (targets TChapter x l'); lia.
      * apply comments_post_hook in Hdoc' as (doc & Hdoc & ->).
        rewrite (Hcm x doc Hdoc). destruct (targets TComment x l'); lia.
Qed.

(** ** Comments: restore and remove *)

Lemma update_by_id_ext A (id_of : A -> ObjectId) (f g : A -> A) a l :
  (forall x, findById id_of a l = Some x -> f x = g x) ->
  update_by_id id_of a f l = update_by_id id_of a g l.
Proof.
  unfold findById. induction l as [|x r IH]; simpl; intros H; [reflexivity|].
  destruct (id_of x =? a); [now rewrite H|]. now rewrite IH.
Qed.

Lemma comment_save_run orig this d :
  let this' := if negb (String.eqb (content this) (content orig))
               then Comment.set_edited true (Some (now d)) this else this in
  Comment.save orig this d =
  (Ok this',
   log_write (UpdateOne CComment (comment_id this))
     (set_comments
        (update_by_id comment_id (comment_id this) (Comment.write_back this')
           (comments d)) d)).
Proof.
  unfold Comment.save, Comment.pre_save.
  destruct (negb (String.eqb (content this) (content orig))); reflexivity.
Qed.

Lemma softDelete_run c d :
  content c <> Comment.tombstone ->
  let c1 := Comment.set_edited true (Some (now d))
              (Comment.set_content Comment.tombstone
                 (Comment.set_deleted true (Some (now d)) c)) in
  Comment.softDelete c d =
  (Ok c1,
   log_write (UpdateOne CComment (comment_id c))
     (set_comments
        (update_by_id comment_id (comment_id c) (Comment.write_back c1)
           (comments d)) d)).
Proof.
  intros Hcon.
  assert (E1 : String.eqb Comment.tombstone (content c) = false).
  { apply String.eqb_neq. congruence. }
  unfold Comment.softDelete.
  unfold bind at 1, read at 1. rewrite comment_save_run.
  change (content (Comment.set_content Comment.tombstone
                     (Comment.set_deleted true (Some (now d)) c)))
    with Comment.tombstone.
  rewrite E1. reflexivity.
Qed.

Lemma restore_run c1 s d :
  String.eqb s (content c1) = false ->
  let c2 := Comment.set_edited true (Some (now d))
              (Comment.set_content s (Comment.set_deleted false None c1)) in
  CommentMethods.restore c1 s d =
  (Ok c2,
   log_write (UpdateOne CComment (comment_id c1))
     (set_comments
        (update_by_id comment_id (comment_id c1) (Comment.write_back c2)
           (comments d)) d)).
Proof.
  intros E. unfold CommentMethods.restore. rewrite comment_save_run.
  change (content (Comment.set_content s (Comment.set_deleted false None c1)))
    with s.
  rewrite E. reflexivity.
Qed.

(** X21.  Restoring a soft-deleted comment with its original content
    brings the stored row back to the original, except that [pre('save')]
    marks it as edited: [isDeleted] is false, [deletedAt] is null, the content
    is the original, [isEdited] is true and [editedAt] is the time of the
    restore; no other row changes. *)
Theorem softDelete_then_restore c d d1 :
  findById comment_id (comment_id c) (comments d) = Some c ->
  isDeleted c = false -> deletedAt c = None ->
  content c <> Comment.tombstone ->
  comments d1 = comments (snd (Comment.softDelete c d)) ->
  exists c1 c2,
    fst (Comment.softDelete c d) = Ok c1 /\
    fst (CommentMethods.restore c1 (content c) d1) = Ok c2 /\
    content c2 = content c /\ isDeleted c2 = false /\ deletedAt c2 = None /\
    comments (snd (CommentMethods.restore c1 (content c) d1)) =
      update_by_id comment_id (comment_id c)
        (fun _ => Comment.set_edited true (Some (now d1)) c) (comments d).
Proof.
  intros Hc Hdel Hat Hcon Hd1.
  pose proof (softDelete_run c d Hcon) as Hs. cbv zeta in Hs.
  set (c1 := Comment.set_edited true (Some (now d))
               (Comment.set_content Comment.tombstone
                  (Comment.set_deleted true (Some (now d)) c))) in Hs.
  rewrite Hs in Hd1 |- *. unfold snd in Hd1.
  change (comments (log_write ?w (set_comments ?v d))) with v in Hd1.
  assert (E2 : String.eqb (content c) (content c1) = false).
  { now apply String.eqb_neq. }
  pose proof (restore_run c1 (content c) d1 E2) as Hr. cbv zeta in Hr.
  exists c1. eexists. rewrite Hr. unfold fst, snd.
  split; [reflexivity|]. split; [reflexivity|].
  repeat (split; [reflexivity|]).
  change (comments (log_write ?w (set_comments ?v d1))) with v.
  rewrite Hd1.
  change (comment_id c1) with (comment_id c).
  rewrite update_by_id_fuse by reflexivity.
  apply update_by_id_ext. intros x Hx. rewrite Hc in Hx. injection Hx as <-.
  destruct c. simpl in *. subst. reflexivity.
Qed.

(** ** Ratings: one rating per user and story, one story per rating *)

Lemma ratings_calculateAverageRating s : keeps ratings (Story.calculateAverageRating s).
Proof.
  unfold Story.calculateAverageRating, Story.save, Story.pre_save. frame.
Qed.

Lemma ratings_rating_post_hook r : keeps ratings (Rating.post_hook r).
Proof.
  unfold Rating.post_hook. frame.
Qed.

Lemma stories_calculateAverageRating s d :
  exists avg n,
    stories (snd (Story.calculateAverageRating s d)) =
    update_by_id story_id (story_id s)
      (fun stored => Story.set_lastUpdated (now d) (Story.set_rating avg n stored))
      (stories d) /\
    now (snd (Story.calculateAverageRating s d)) = now d.
Proof.
  unfold Story.calculateAverageRating, Story.save, Story.pre_save.
  cbv beta iota zeta delta [bind read ret modify snd fst].
  destruct (List.length (Story.ratings_of (story_id s) d) =? 0);
    do 2 eexists; split; reflexivity.
Qed.

Lemma stories_rating_post_hook r d :
  exists avg n,
    stories (snd (Rating.post_hook r d)) =
    update_by_id story_id (rating_story r)
      (fun stored => Story.set_lastUpdated (now d) (Story.set_rating avg n stored))
      (stories d).
Proof.
  unfold Rating.post_hook. unfold bind at 1, read at 1.
  destruct (findById story_id (rating_story r) (stories d)) as [s|] eqn:Hs.
  - destruct (findById_id _ _ _ Hs) as [Hid _].
    destruct (stories_calculateAverageRating s d) as (avg & n & H & _).
    exists avg, n. rewrite <- Hid, <- H.
    unfold bind. now destruct (Story.calculateAverageRating s d) as [[s'|e] d'].
  - exists PrimFloat.zero, 0%Z. simpl.
    symmetry. apply update_by_id_fixed. intros x Hx. congruence.
Qed.

Lemma rating_post_hook_run r d :
  Rating.post_hook r d = (Ok tt, snd (Rating.post_hook r d)).
Proof.
  unfold Rating.post_hook. unfold bind at 1 3, read at 1 2.
  destruct (findById story_id (rating_story r) (stories d)) as [s|]; [|reflexivity].
  unfold Story.calculateAverageRating, Story.save, Story.pre_save.
  reflexivity.
Qed.

Lemma touches_only_update sid avg n d d' :
  stories d' =
    update_by_id story_id sid
      (fun stored => Story.set_lastUpdated (now d) (Story.set_rating avg n stored))
      (stories d) ->
  touches_only sid d d'.
Proof.
  intros H. split.
  - intros sid' Hne. rewrite H, findById_update_by_id by reflexivity.
    destruct (Nat.eqb_spec sid' sid); [contradiction|reflexivity].
  - intros s Hs. eexists. split.
    + rewrite H. apply findById_update_hit; [reflexivity|exact Hs].
    + simpl. auto.
Qed.

(** X24.  Creating, updating and removing a rating change the document
    of the rated story only: every other story is as it was, and the rated
    story keeps its title, author and like and comment counters while
    [pre('save')] stamps [lastUpdated] with the time of the operation. *)
Theorem rating_ops_touch_one_story d :
  (forall u sid v,
     Rating.getUserRating u sid d = None ->
     touches_only sid d (snd (Rating.create u sid v d))) /\
  (forall r v, touches_only (rating_story r) d (snd (Rating.update r v d))) /\
  (forall r, touches_only (rating_story r) d (snd (Rating.remove r d))).
Proof.
  split; [|split].
  - intros u sid v Hu. unfold Rating.create.
    unfold bind at 1, fresh_id at 1. unfold bind at 1.
    assert (Hex : existsb (Rating.same_key (mkRating (next_id d) u sid v))
                          (ratings (set_next_id (S (next_id d)) d)) = false).
    { apply not_true_is_false. intros He.
      apply existsb_exists in He as (x & Hx & Hk).
      unfold Rating.getUserRating in Hu.
      pose proof (find_none _ _ Hu x Hx) as Hq. simpl in Hq.
      unfold Rating.same_key in Hk. simpl in Hk.
      now rewrite (Nat.eqb_sym u), (Nat.eqb_sym sid), Hq in Hk. }
    rewrite Hex. cbv beta iota. unfold bind at 1.
    match goal with
    | |- context [Rating.post_hook ?r ?d1] =>
        destruct (stories_rating_post_hook r d1) as (avg & n & H);
        apply (@touches_only_update sid avg n);
        unfold bind; destruct (Rating.post_hook r d1) as [[[]|e] d2]; exact H
    end.
  - intros r v. unfold Rating.update.
    unfold bind at 1, modify at 1. cbv beta iota. unfold bind at 1.
    match goal with
    | |- context [Rating.post_hook ?r' ?d1] =>
        destruct (stories_rating_post_hook r' d1) as (avg & n & H);
        apply (@touches_only_update (rating_story r) avg n);
        unfold bind; destruct (Rating.post_hook r' d1) as [[[]|e] d2]; exact H
    end.
  - intros r. unfold Rating.remove.
    unfold bind at 1, modify at 1. cbv beta iota.
    match goal with
    | |- context [Rating.post_hook ?r' ?d1] =>
        destruct (stories_rating_post_hook r' d1) as (avg & n & H);
        apply (@touches_only_update (rating_story r) avg n);
        destruct (Rating.post_hook r' d1) as [[[]|e] d2]; exact H
    end.
Qed.

(** X23.  One rating per user and story: after a first rating is
    created, [getUserRating] returns it, and a second create by the same user
    for the same story fails with [DuplicateKey], leaving the ratings and the
    stories as they were. *)
Theorem rating_second_create_is_rejected u sid v w d :
  Rating.getUserRating u sid d = None ->
  exists r,
    fst (Rating.create u sid v d) = Ok r /\
    Rating.getUserRating u sid (snd (Rating.create u sid v d)) = Some r /\
    value r = v /\
    fst (Rating.create u sid w (snd (Rating.create u sid v d))) =
      Throw (DuplicateKey CRating) /\
    ratings (snd (Rating.create u sid w (snd (Rating.create u sid v d)))) =
      ratings (snd (Rating.create u sid v d)) /\
    stories (snd (Rating.create u sid w (snd (Rating.create u sid v d)))) =
      stories (snd (Rating.create u sid v d)).
Proof.
  intros Hu.
  set (r := mkRating (next_id d) u sid v).
  assert (Hex : existsb (Rating.same_key r) (ratings d) = false).
  { apply not_true_is_false. intros He.
    apply existsb_exists in He as (x & Hx & Hk).
    unfold Rating.getUserRating in Hu.
    pose proof (find_none _ _ Hu x Hx) as Hq. simpl in Hq.
    unfold Rating.same_key in Hk. simpl in Hk.
    now rewrite (Nat.eqb_sym u), (Nat.eqb_sym sid), Hq in Hk. }
  set (d0 := log_write (InsertOne CRating (next_id d))
               (set_ratings (ratings d ++ [r]) (set_next_id (S (next_id d)) d))).
  assert (Hc : Rating.create u sid v d = (Ok r, snd (Rating.post_hook r d0))).
  { unfold Rating.create. unfold bind at 1, fresh_id at 1. unfold bind at 1.
    fold r. change (ratings (set_next_id (S (next_id d)) d)) with (ratings d).
    rewrite Hex. cbv beta iota. fold d0.
    now rewrite (bind_ok _ (rating_post_hook_run r d0)). }
  rewrite Hc. simpl fst. simpl snd.
  set (d1 := snd (Rating.post_hook r d0)).
  assert (Hr1 : ratings d1 = ratings d ++ [r]).
  { unfold d1. rewrite (ratings_rating_post_hook r d0). reflexivity. }
  assert (Hget : Rating.getUserRating u sid d1 = Some r).
  { unfold Rating.getUserRating. rewrite Hr1. apply find_app_last.
    - apply not_true_is_false. intros He.
      apply existsb_exists in He as (x & Hx & Hk).
      unfold Rating.getUserRating in Hu.
      pose proof (find_none _ _ Hu x Hx) as Hq. simpl in Hq. congruence.
    - simpl. now rewrite !Nat.eqb_refl. }
  assert (Hdup : Rating.create u sid w d1 =
                 (Throw (DuplicateKey CRating), set_next_id (S (next_id d1)) d1)).
  { unfold Rating.create. unfold bind at 1, fresh_id at 1. apply bind_throw.
    change (ratings (set_next_id (S (next_id d1)) d1)) with (ratings d1).
    replace (existsb (Rating.same_key (mkRating (next_id d1) u sid w)) (ratings d1))
      with true; [reflexivity|].
    symmetry. apply existsb_exists. exists r. split.
    - rewrite Hr1. apply in_or_app. right. now left.
    - unfold Rating.same_key. simpl. now rewrite !Nat.eqb_refl. }
  exists r. rewrite Hdup. now repeat split.
Qed.

(** ** Comments: removing a comment *)

Lemma comments_remove c d :
  Comment.remove c d = (Ok tt, snd (Comment.remove c d)) /\
  comments (snd (Comment.remove c d)) =
  match parentComment c with
  | Some p =>
      update_by_id comment_id p
        (fun x => Comment.set_replies (Follow.pull (comment_id c) (replies x)) x)
        (delete_by_id comment_id (comment_id c) (comments d))
  | None => delete_by_id comment_id (comment_id c) (comments d)
  end.
Proof.
  unfold Comment.remove, Comment.post_remove, Story_findByIdAndUpdate,
    Chapter_findByIdAndUpdate, Comment_findByIdAndUpdate.
  destruct (comment_chapter c), (parentComment c); split; reflexivity.
Qed.

Lemma findById_none_not_in A (id_of : A -> ObjectId) id l :
  (forall x, In x l -> id_of x <> id) -> findById id_of id l = None.
Proof.
  unfold findById. induction l as [|y r IH]; simpl; intros H; [reflexivity|].
  destruct (Nat.eqb_spec (id_of y) id) as [E|E].
  - exfalso. apply (H y); auto.
  - apply IH. intros x Hx. apply H. now right.
Qed.

(** X22.  Removing a comment deletes its row and pulls its id from the
    [replies] of its parent; every other row stays as it was, so the replies
    of the removed comment stay in the store. *)
Theorem comment_remove_effects c d :
  NoDup (map comment_id (comments d)) ->
  fst (Comment.remove c d) = Ok tt /\
  findById comment_id (comment_id c) (comments (snd (Comment.remove c d))) = None /\
  (forall r,
     comment_id r <> comment_id c -> parentComment c <> Some (comment_id r) ->
     (In r (comments (snd (Comment.remove c d))) <-> In r (comments d))) /\
  (forall p pdoc,
     parentComment c = Some p -> p <> comment_id c ->
     findById comment_id p (comments d) = Some pdoc ->
     findById comment_id p (comments (snd (Comment.remove c d))) =
       Some (Comment.set_replies (Follow.pull (comment_id c) (replies pdoc)) pdoc) /\
     ~ In (comment_id c) (Follow.pull (comment_id c) (replies pdoc))).
Proof.
  intros Hnd. destruct (comments_remove c d) as [Hrun Hcs].
  rewrite Hrun at 1. split; [reflexivity|].
  rewrite Hcs. clear Hrun Hcs.
  assert (Hdel : forall x, In x (delete_by_id comment_id (comment_id c) (comments d)) <->
                           In x (comments d) /\ comment_id x <> comment_id c)
    by (intros x; now apply in_delete_by_id).
  assert (Hnone : findById comment_id (comment_id c)
                    (delete_by_id comment_id (comment_id c) (comments d)) = None).
  { apply findById_none_not_in. intros x Hx. now apply Hdel in Hx. }
  split; [|split].
  - destruct (parentComment c) as [p|]; [|exact Hnone].
    rewrite findById_update_by_id by reflexivity. rewrite Hnone.
    now destruct (comment_id c =? p).
  - intros r Hr Hp. destruct (parentComment c) as [p|].
    + rewrite in_update_by_id_other; [|reflexivity|congruence].
      rewrite Hdel. tauto.
    + rewrite Hdel. tauto.
  - intros p pdoc -> Hne Hp. split.
    + apply (@findById_update_hit _ comment_id
                 (fun x => Comment.set_replies
                             (Follow.pull (comment_id c) (replies x)) x)
                 p _ pdoc); [reflexivity|].
      destruct (findById_id _ _ _ Hp) as [Hid Hin].
      rewrite <- Hid. apply findById_NoDup.
      * now apply delete_by_id_NoDup_map.
      * apply Hdel. split; [exact Hin|congruence].
    + unfold Follow.pull. intros Hin. apply filter_In in Hin as [_ Hq].
      now rewrite Nat.eqb_refl in Hq.
Qed.

(** ** Likes: the liked stories of a user *)

Lemma liked_rows u limit skip d row :
  In row (LikeStatics.getUserLikedStories u limit skip d) ->
  In (LikeStatics.like_row row) (likes d) /\
  like_user (LikeStatics.like_row row) = u /\
  like_type (LikeStatics.like_row row) = TStory /\
  row = LikeStatics.populate_story (LikeStatics.like_row row) d.
Proof.
  unfold LikeStatics.getUserLikedStories. intros H.
  apply in_map_iff in H as (l & <- & Hl). simpl.
  apply limit_to_incl, skipn_incl in Hl.
  apply (Permutation_in _ (sort_desc_perm _ _)) in Hl.
  apply filter_In in Hl as [Hin Hq]. apply andb_true_iff in Hq as [H1 H2].
  apply Nat.eqb_eq in H1. repeat split; auto.
  now destruct (like_type l).
Qed.

(** X5.  The listing of a user's liked stories after a toggle, in a
    well-formed Like collection: after [toggleLike] of a story the full
    listing has a row for that story exactly when the user held no Like row
    before, which is when the toggle likes; a toggle that unlikes or that the
    unique indexes refuse leaves no row for the story.  Every page of the
    listing is ordered newest first. *)
Theorem liked_stories_follow_toggle u s d :
  likes_wf d ->
  (holds_like u d = false <->
   exists row,
     In row (LikeStatics.getUserLikedStories u (Some 0) None
               (snd (Like.toggleLike u s TStory d))) /\
     like_story (LikeStatics.like_row row) = Some s) /\
  (forall limit skip,
     StronglySorted (desc like_createdAt)
       (map LikeStatics.like_row
          (LikeStatics.getUserLikedStories u limit skip
             (snd (Like.toggleLike u s TStory d))))).
Proof.
  intros Hwf. split.
  - split.
    + intros Hno. rewrite toggleLike_like by exact Hno. simpl snd.
      exists (LikeStatics.populate_story
                (Like.new_like (next_id d) u s TStory (now d))
                (after_like u s TStory d)).
      split; [|reflexivity].
      unfold LikeStatics.getUserLikedStories.
      apply (in_map (fun l => LikeStatics.populate_story l (after_like u s TStory d))).
      unfold limit_to, default. cbn [Nat.eqb skipn].
      apply (Permutation_in _ (Permutation_sym (sort_desc_perm _ _))).
      apply filter_In. split.
      * rewrite likes_after_like. apply in_or_app. right. now left.
      * simpl. now rewrite Nat.eqb_refl.
    + intros (row & Hin & Hs).
      apply liked_rows in Hin as (Hin & Hu & _ & _).
      assert (Hyes : Like.isLikedBy u s TStory
                       (snd (Like.toggleLike u s TStory d)) = true).
      { unfold Like.isLikedBy. apply existsb_exists.
        exists (LikeStatics.like_row row). split; [exact Hin|].
        unfold Like.query, oid_is. rewrite Hu, Hs, !Nat.eqb_refl. reflexivity. }
      destruct (toggleLike_cases u s TStory Hwf)
        as [(l & Hl & Hkl & _ & _ & Hr)|[(Hno & _ & Hr)|(_ & Hh & _)]];
        [| |exact Hh]; rewrite Hr in Hyes; cbn [snd] in Hyes; exfalso.
      * rewrite (@isLikedBy_after_unlike u s TStory l d Hwf Hl Hkl) in Hyes.
        discriminate Hyes.
      * change (Like.isLikedBy u s TStory (like_refused d))
          with (Like.isLikedBy u s TStory d) in Hyes. congruence.
  - intros limit skip.
    unfold LikeStatics.getUserLikedStories. rewrite map_map.
    cbn [LikeStatics.like_row LikeStatics.populate_story].
    rewrite map_id. apply limit_to_sorted, skipn_sorted, sort_desc_sorted.
Qed.

(** ** Instances of the further properties *)

Lemma follow_counters_ok_base_db : follow_counters_ok base_db.
Proof.
  intros u doc H. apply find_some in H as [Hin _]. simpl in Hin.
  destruct Hin as [<-|[<-|[<-|[]]]]; split; reflexivity.
Qed.

Lemma toggleFollow_keeps_counters_witness :
  follow_ids_ok base_db /\ follow_counters_ok base_db /\
  follow_ids_ok (snd (Follow.toggleFollow 1 2 base_db)) /\
  follow_counters_ok (snd (Follow.toggleFollow 1 2 base_db)).
Proof.
  assert (H1 : follow_ids_ok base_db) by (split; constructor).
  split; [exact H1|]. split; [exact follow_counters_ok_base_db|].
  exact (@toggleFollow_keeps_counters 1 2 base_db H1 follow_counters_ok_base_db).
Defined.

Lemma toggleFollow_twice_witness :
  1 <> 2 /\
  Follow.isFollowing_unfiltered 1 2 base_db = false /\
  exists m1 m2 d1 d2,
    Follow.toggleFollow 1 2 base_db = (Ok (Follow.mkToggle true m1), d1) /\
    Follow.isFollowing 1 2 d1 = true /\
    Follow.toggleFollow 1 2 d1 = (Ok (Follow.mkToggle false m2), d2) /\
    Follow.isFollowing 1 2 d2 = false /\
    follows d2 = follows base_db /\
    users d2 = users base_db.
Proof.
  split; [lia|]. split; [reflexivity|].
  apply (@toggleFollow_twice 1 2 base_db).
  - lia.
  - constructor.
  - reflexivity.
  - intros doc H. simpl in H. injection H as <-. simpl. tauto.
  - intros doc H. simpl in H. injection H as <-. simpl. tauto.
Defined.

Lemma like_ids_ok_liked_db : like_ids_ok liked_db.
Proof.
  split.
  - simpl. repeat constructor. simpl. tauto.
  - unfold likes_fresh. simpl. repeat constructor.
Qed.

Lemma like_counters_ok_liked_db : like_counters_ok liked_db.
Proof.
  repeat split; intros id doc H;
    apply findById_id in H as [Hid Hin]; simpl in Hin;
    destruct Hin as [<-|[]]; subst id; reflexivity.
Qed.

Lemma likes_wf_liked_db : likes_wf liked_db.
Proof.
  split; [exact like_ids_ok_liked_db|]. split.
  - simpl. repeat constructor.
  - simpl. repeat constructor. simpl. tauto.
Qed.

Lemma toggleLike_keeps_counters_witness :
  like_ids_ok liked_db /\ like_counters_ok liked_db /\
  like_ids_ok (snd (Like.toggleLike 1 20 TChapter liked_db)) /\
  like_counters_ok (snd (Like.toggleLike 1 20 TChapter liked_db)).
Proof.
  split; [exact like_ids_ok_liked_db|]. split; [exact like_counters_ok_liked_db|].
  exact (@toggleLike_keeps_counters 1 20 TChapter liked_db
           like_ids_ok_liked_db like_counters_ok_liked_db).
Defined.

Lemma toggleLike_keeps_rows_unique_witness :
  likes_wf liked_db /\ likes_wf (snd (Like.toggleLike 3 10 TStory liked_db)).
Proof.
  split; [exact likes_wf_liked_db|].
  exact (@toggleLike_keeps_rows_unique 3 10 TStory liked_db likes_wf_liked_db).
Defined.

Lemma toggleLike_flips_one_status_witness :
  likes_wf liked_db /\
  holds_like 1 liked_db = false /\
  (exists m,
     fst (Like.toggleLike 1 10 TStory liked_db) = Ok (Like.mkToggle true m)) /\
  Like.isLikedBy 3 10 TStory (snd (Like.toggleLike 1 10 TStory liked_db)) =
    Like.isLikedBy 3 10 TStory liked_db.
Proof.
  assert (Hh : holds_like 1 liked_db = false) by (vm_compute; reflexivity).
  split; [exact likes_wf_liked_db|]. split; [exact Hh|].
  destruct (@toggleLike_flips_one_status 1 10 TStory liked_db likes_wf_liked_db)
    as (_ & Hlike & _ & _ & Hframe).
  split; [exact (Hlike Hh)|].
  apply (Hframe 3 10 TStory). intros H. discriminate H.
Defined.

Lemma toggleFollow_race_is_duplicate_key_witness :
  1 <> 2 /\
  Follow.isFollowing_unfiltered 1 2 base_db = false /\
  Follow.isFollowing_unfiltered 1 2 (snd (follow_race_yield base_db)) = true /\
  Follow.toggleFollow_at follow_race_yield 1 2 base_db =
    (Throw (DuplicateKey CFollow),
     set_next_id (S (next_id (snd (follow_race_yield base_db))))
       (snd (follow_race_yield base_db))).
Proof.
  split; [lia|]. split; [reflexivity|]. split; [reflexivity|].
  apply (@toggleFollow_race_is_duplicate_key follow_race_yield 1 2 base_db
           (snd (follow_race_yield base_db))).
  - lia.
  - reflexivity.
  - reflexivity.
  - reflexivity.
Defined.

Lemma follow_pages_compose_witness :
  0 < 2 /\ 0 < 1 /\
  NoDup (map follow_createdAt (filter (followers_query 2) (follows paged_db))) /\
  map follow_id (map fst (Follow.getFollowers 2 (Some 2) (Some 0) paged_db)) =
    [102; 101] /\
  map follow_id (map fst (Follow.getFollowers 2 (Some 1) (Some 2) paged_db)) =
    [100] /\
  map fst (Follow.getFollowers 2 (Some 2) (Some 0) paged_db) ++
  map fst (Follow.getFollowers 2 (Some 1) (Some (0 + 2)) paged_db) =
  map fst (Follow.getFollowers 2 (Some (2 + 1)) (Some 0) paged_db).
Proof.
  assert (Hn : 0 < 2) by lia.
  assert (Hm : 0 < 1) by lia.
  assert (H3 : 0 < 2 + 1) by lia.
  assert (Hnd : NoDup (map follow_createdAt
                         (filter (followers_query 2) (follows paged_db)))).
  { change (NoDup [1; 2; 3]%Z).
    repeat constructor; simpl; intuition discriminate. }
  split; [exact Hn|]. split; [exact Hm|]. split; [exact Hnd|].
  split; [reflexivity|]. split; [reflexivity|].
  exact (proj2 (proj2 (@follow_pages_compose 2 2 1 0 paged_db Hn Hm))
           (followers_query 2) Hnd _ _ _
           (proj1 (@follow_pages_compose 2 2 1 0 paged_db Hn Hm))
           (proj1 (@follow_pages_compose 2 1 2 (0 + 2) paged_db Hm Hn))
           (proj1 (@follow_pages_compose 2 (2 + 1) 1 0 paged_db H3 Hm))).
Defined.

Lemma getSuggestedUsers_sound_witness :
  FollowStatics.getSuggestedUsers all_active 2 None social_db =
    (Ok [mkUser 3 "critic" "Ann Critic" 1 0 [1] []], social_db) /\
  Forall (fun u => In u (users social_db) /\ user_id u <> 2)
         [mkUser 3 "critic" "Ann Critic" 1 0 [1] []].
Proof.
  assert (H : FollowStatics.getSuggestedUsers all_active 2 None social_db =
              (Ok [mkUser 3 "critic" "Ann Critic" 1 0 [1] []], social_db))
    by (vm_compute; reflexivity).
  split; [exact H|].
  exact (proj1 (proj2
           (@getSuggestedUsers_sound all_active 2 None social_db
              [mkUser 3 "critic" "Ann Critic" 1 0 [1] []] social_db H))).
Defined.

Lemma getSuggestedUsers_null_reference_witness :
  In (mkFollow 101 1 3 true 7) (suggestion_rows 2 None dangling_db) /\
  findById user_id 3 (users dangling_db) = None /\
  FollowStatics.getSuggestedUsers all_active 2 None dangling_db =
    (Throw TypeError, dangling_db).
Proof.
  assert (H1 : In (mkFollow 101 1 3 true 7) (suggestion_rows 2 None dangling_db))
    by (vm_compute; left; reflexivity).
  assert (H2 : findById user_id 3 (users dangling_db) = None)
    by (vm_compute; reflexivity).
  split; [exact H1|]. split; [exact H2|].
  exact (@getSuggestedUsers_null_reference all_active 2 None dangling_db
           (mkFollow 101 1 3 true 7) H1 H2).
Defined.

Lemma toggleLike_owner_gone_witness :
  target_found TStory 10 orphan_db = true /\
  target_owner TStory 10 orphan_db = None /\
  LikeController.toggleLike_at (ret tt) "story" 10 1 orphan_db =
    (LikeController.Next TypeError, orphan_db).
Proof.
  assert (H0 : LikeController.target_of_string "story" = Some TStory)
    by (vm_compute; reflexivity).
  assert (H1 : target_found TStory 10 orphan_db = true) by (vm_compute; reflexivity).
  assert (H2 : target_owner TStory 10 orphan_db = None) by (vm_compute; reflexivity).
  split; [exact H1|]. split; [exact H2|].
  exact (@toggleLike_owner_gone (ret tt) "story" TStory 10 1 orphan_db H0 H1 H2).
Defined.

Lemma toggleLike_actor_gone_witness :
  findById user_id 7 (users race_db) = None /\
  holds_like 7 race_db = false /\
  LikeController.toggleLike "story" 10 7 race_db =
    (LikeController.Next TypeError, after_like 7 10 TStory race_db) /\
  Like.isLikedBy 7 10 TStory (after_like 7 10 TStory race_db) = true /\
  notifications (after_like 7 10 TStory race_db) = notifications race_db.
Proof.
  assert (H0 : LikeController.target_of_string "story" = Some TStory)
    by (vm_compute; reflexivity).
  assert (H1 : target_owner TStory 10 race_db =
               Some (mkUser 2 "writer" EmptyString 0 0 [] []))
    by (vm_compute; reflexivity).
  assert (H2 : user_id (mkUser 2 "writer" EmptyString 0 0 [] []) <> 7)
    by (simpl; lia).
  assert (H3 : findById user_id 7 (users race_db) = None) by (vm_compute; reflexivity).
  assert (H4 : holds_like 7 race_db = false) by (vm_compute; reflexivity).
  split; [exact H3|]. split; [exact H4|].
  exact (@toggleLike_actor_gone "story" TStory 10 7
           (mkUser 2 "writer" EmptyString 0 0 [] []) race_db H0 H1 H2 H3 H4).
Defined.

Lemma toggleLike_then_checkLikeStatus_witness :
  likes_wf liked_db /\
  fst (LikeController.toggleLike "story" 10 3 liked_db) =
    LikeController.Json 200
      (LikeController.mkBody true "Unliked successfully" (Some false)) /\
  fst (LikeController.checkLikeStatus "story" 10 3
         (snd (LikeController.toggleLike "story" 10 3 liked_db))) =
    LikeController.Json 200 (LikeController.mkBody true EmptyString (Some false)).
Proof.
  assert (H : LikeController.toggleLike "story" 10 3 liked_db =
              (LikeController.Json 200
                 (LikeController.mkBody true "Unliked successfully" (Some false)),
               snd (LikeController.toggleLike "story" 10 3 liked_db)))
    by (vm_compute; reflexivity).
  split; [exact likes_wf_liked_db|].
  split; [exact (f_equal fst H)|].
  exact (f_equal fst
           (proj1 (@toggleLike_then_checkLikeStatus "story" 10 3 liked_db _ _
                     likes_wf_liked_db H))).
Defined.

Lemma softDelete_then_restore_witness :
  findById comment_id 30 (comments thread_db) = Some thread_parent /\
  content thread_parent <> Comment.tombstone /\
  exists c1 c2,
    fst (Comment.softDelete thread_parent thread_db) = Ok c1 /\
    fst (CommentMethods.restore c1 (content thread_parent)
           (snd (Comment.softDelete thread_parent thread_db))) = Ok c2 /\
    content c2 = content thread_parent /\ isDeleted c2 = false /\
    deletedAt c2 = None /\
    comments (snd (CommentMethods.restore c1 (content thread_parent)
                     (snd (Comment.softDelete thread_parent thread_db)))) =
      update_by_id comment_id (comment_id thread_parent)
        (fun _ => Comment.set_edited true
                    (Some (now (snd (Comment.softDelete thread_parent thread_db))))
                    thread_parent)
        (comments thread_db).
Proof.
  assert (H1 : findById comment_id (comment_id thread_parent) (comments thread_db) =
               Some thread_parent) by (vm_compute; reflexivity).
  assert (Hne : content thread_parent <> Comment.tombstone)
    by (apply String.eqb_neq; vm_compute; reflexivity).
  split; [exact H1|]. split; [exact Hne|].
  exact (@softDelete_then_restore thread_parent thread_db
           (snd (Comment.softDelete thread_parent thread_db))
           H1 eq_refl eq_refl Hne eq_refl).
Defined.

Lemma rating_second_create_is_rejected_witness :
  Rating.getUserRating 1 10 rated_db = None /\
  exists r,
    fst (Rating.create 1 10 5%float rated_db) = Ok r /\
    Rating.getUserRating 1 10 (snd (Rating.create 1 10 5%float rated_db)) = Some r /\
    value r = 5%float /\
    fst (Rating.create 1 10 3%float (snd (Rating.create 1 10 5%float rated_db))) =
      Throw (DuplicateKey CRating) /\
    ratings (snd (Rating.create 1 10 3%float (snd (Rating.create 1 10 5%float rated_db)))) =
      ratings (snd (Rating.create 1 10 5%float rated_db)) /\
    stories (snd (Rating.create 1 10 3%float (snd (Rating.create 1 10 5%float rated_db)))) =
      stories (snd (Rating.create 1 10 5%float rated_db)).
Proof.
  assert (H : Rating.getUserRating 1 10 rated_db = None) by (vm_compute; reflexivity).
  split; [exact H|].
  exact (@rating_second_create_is_rejected 1 10 5%float 3%float rated_db H).
Defined.

Lemma comment_remove_effects_witness :
  NoDup (map comment_id (comments thread_db)) /\
  fst (Comment.remove thread_reply thread_db) = Ok tt /\
  findById comment_id (comment_id thread_reply)
    (comments (snd (Comment.remove thread_reply thread_db))) = None.
Proof.
  assert (Hnd : NoDup (map comment_id (comments thread_db))).
  { simpl. repeat constructor; simpl; intuition discriminate. }
  split; [exact Hnd|].
  destruct (@comment_remove_effects thread_reply thread_db Hnd) as (H1 & H2 & _).
  split; [exact H1|exact H2].
Defined.

Lemma liked_stories_follow_toggle_witness :
  likes_wf liked_db /\
  holds_like 1 liked_db = false /\
  exists row,
    In row (LikeStatics.getUserLikedStories 1 (Some 0) None
              (snd (Like.toggleLike 1 10 TStory liked_db))) /\
    like_story (LikeStatics.like_row row) = Some 10.
Proof.
  assert (H : holds_like 1 liked_db = false) by (vm_compute; reflexivity).
  split; [exact likes_wf_liked_db|]. split; [exact H|].
  exact (proj1 (proj1 (@liked_stories_follow_toggle 1 10 liked_db likes_wf_liked_db)) H).
Defined.
